(** * MedGemma serverless handler and batch client: a shallow embedding

    The development follows the two source files of the repository:

    - [handler.py]: the serverless worker ([caption_image],
      [process_text_question], [handler]);
    - [image-captioner.py]: the command-line client
      ([send_image_request_sync], [send_text_request_sync],
      [send_image_request_async], [send_text_request_async]).

    Python values that travel as JSON are modelled by [pyval]; dictionaries
    are stdpp [gmap]s keyed by strings.  Exceptions are explicit: effectful
    code lives in a small monad that carries the list of external calls made
    so far together with either a returned value or a raised exception.
    Everything the repository delegates to third-party libraries (the model,
    PIL, base64, requests, the traceback formatter) is a field of an
    environment record and is never given a meaning of its own.

    Characters are 8-bit code points ([ascii]); Python's [str] methods are
    modelled on that range. *)

From Stdlib Require Import ZArith String Ascii List Bool Lia.
From stdpp Require Import gmap strings list fin_maps pretty.

Set Warnings "-register-all".

(* ===================================================================== *)
(** * Python strings *)
(* ===================================================================== *)

Module PyStr.

Definition LF : ascii := "010"%char.
Definition SP : ascii := " "%char.

(** [str.isspace] on one character with code point below 256: the ASCII
    controls 9..13 and 28..31, the space, NEL (0x85) and NBSP (0xA0). *)
Definition py_isspace (c : ascii) : bool :=
  let n := N_of_ascii c in
  ((9 <=? n) && (n <=? 13) || (28 <=? n) && (n <=? 32)
   || (n =? 133) || (n =? 160))%N.

(** [s.lstrip()] *)
Fixpoint lstrip (s : string) : string :=
  match s with
  | EmptyString => EmptyString
  | String c s' => if py_isspace c then lstrip s' else s
  end.

(** [s.rstrip()] *)
Fixpoint rstrip (s : string) : string :=
  match s with
  | EmptyString => EmptyString
  | String c s' =>
      match rstrip s' with
      | EmptyString => if py_isspace c then EmptyString else String c EmptyString
      | r => String c r
      end
  end.

(** [s.strip()] *)
Definition strip (s : string) : string := rstrip (lstrip s).

(** [s.replace(a, b)] for one-character [a] and [b]. *)
Fixpoint replace (a b : ascii) (s : string) : string :=
  match s with
  | EmptyString => EmptyString
  | String c s' => String (if Ascii.eqb c a then b else c) (replace a b s')
  end.

(** [s.startswith(p)] and [s.startswith((p1, p2))]. *)
Definition startswith (p s : string) : bool := String.prefix p s.

Definition startswith_any (ps : list string) (s : string) : bool :=
  existsb (fun p => startswith p s) ps.

(** [needle in hay] on two strings. *)
Fixpoint contains (needle hay : string) : bool :=
  String.prefix needle hay
  || match hay with
     | EmptyString => false
     | String _ hay' => contains needle hay'
     end.

(** [s.split(sep)] for a one-character separator. *)
Fixpoint split (sep : ascii) (s : string) : list string :=
  match s with
  | EmptyString => [EmptyString]
  | String c s' =>
      if Ascii.eqb c sep then EmptyString :: split sep s'
      else match split sep s' with
           | [] => [String c EmptyString]
           | w :: ws => String c w :: ws
           end
  end.

(** [c in s] for a character. *)
Fixpoint has_char (c : ascii) (s : string) : bool :=
  match s with
  | EmptyString => false
  | String c' s' => Ascii.eqb c' c || has_char c s'
  end.

(** Every character of the string satisfies [p]. *)
Fixpoint all_chars (p : ascii -> bool) (s : string) : bool :=
  match s with
  | EmptyString => true
  | String c s' => p c && all_chars p s'
  end.

(** [s[:n]] and [s[n:]] for [0 <= n]. *)
Fixpoint take (n : nat) (s : string) : string :=
  match n, s with
  | S n', String c s' => String c (take n' s')
  | _, _ => EmptyString
  end.

Fixpoint drop (n : nat) (s : string) : string :=
  match n, s with
  | S n', String _ s' => drop n' s'
  | _, _ => s
  end.

(** [s.rfind(c)] generalised to a set of characters: the last index whose
    character satisfies [p]; [None] stands for Python's [-1]. *)
Fixpoint rfind (p : ascii -> bool) (s : string) : option nat :=
  match s with
  | EmptyString => None
  | String c s' =>
      match rfind p s' with
      | Some j => Some (S j)
      | None => if p c then Some 0 else None
      end
  end.

(** [os.path.splitext].  The standard library's [genericpath._splitext]
    takes the last separator (among [seps]: ["/"] on POSIX, ["\\"] and
    ["/"] on Windows) and the last dot; the dot starts an extension when it
    comes after the separator and some character between the two is not a
    dot. *)
Definition is_dot (c : ascii) : bool := Ascii.eqb c "."%char.

Definition splitext (seps : list ascii) (p : string) : string * string :=
  let is_sep c := existsb (Ascii.eqb c) seps in
  let filenameIndex :=
    match rfind is_sep p with Some i => S i | None => 0 end in
  match rfind is_dot p with
  | Some dotIndex =>
      if (filenameIndex <=? dotIndex)%nat
         && negb (all_chars is_dot
                    (take (dotIndex - filenameIndex) (drop filenameIndex p)))
      then (take dotIndex p, drop dotIndex p)
      else (p, EmptyString)
  | None => (p, EmptyString)
  end.

Definition posix_seps : list ascii := ["/"%char].
Definition nt_seps : list ascii := ["\"%char; "/"%char].

End PyStr.

(* ===================================================================== *)
(** * Python values, exceptions and effects *)
(* ===================================================================== *)

Module Py.

(** A value decoded from JSON (or about to be encoded).  A float is kept as
    its IEEE-754 binary64 bit pattern: the code only ever tests it for
    truth. *)
Inductive pyval : Type :=
  | VNone
  | VBool (b : bool)
  | VInt (n : Z)
  | VFloat (bits : Z)
  | VStr (s : string)
  | VList (l : list pyval)
  | VDict (d : gmap string pyval).

(** An exception, reduced to what the code looks at: its class name and
    [str(e)]. *)
Record exn : Type := MkExn { exn_type : string; exn_msg : string }.

Inductive outcome (A : Type) : Type :=
  | Return (a : A)
  | Raise (e : exn).
Arguments Return {A} a.
Arguments Raise {A} e.

Definition type_name (v : pyval) : string :=
  match v with
  | VNone => "NoneType"
  | VBool _ => "bool"
  | VInt _ => "int"
  | VFloat _ => "float"
  | VStr _ => "str"
  | VList _ => "list"
  | VDict _ => "dict"
  end.

(** [bool(v)] *)
Definition truthy (v : pyval) : bool :=
  match v with
  | VNone => false
  | VBool b => b
  | VInt n => negb (n =? 0)%Z
  | VFloat bits => negb (Z.land bits (2 ^ 63 - 1) =? 0)%Z
  | VStr s => negb (String.eqb s EmptyString)
  | VList l => match l with [] => false | _ => true end
  | VDict d => match map_to_list d with [] => false | _ => true end
  end.

(** [v == s] for a string literal [s]. *)
Definition eq_str (v : pyval) (s : string) : bool :=
  match v with VStr s' => String.eqb s' s | _ => false end.

Definition TypeError (msg : string) : exn := MkExn "TypeError" msg.
Definition AttributeError (msg : string) : exn := MkExn "AttributeError" msg.
Definition IndexError (msg : string) : exn := MkExn "IndexError" msg.
Definition ValueError (msg : string) : exn := MkExn "ValueError" msg.
(** [str(KeyError(k))] is the [repr] of the key. *)
Definition KeyError (k : string) : exn := MkExn "KeyError" ("'" +:+ k +:+ "'").

(** [k in v] *)
Definition py_in (k : string) (v : pyval) : outcome bool :=
  match v with
  | VDict d => Return (match d !! k with Some _ => true | None => false end)
  | VStr s => Return (PyStr.contains k s)
  | VList l => Return (existsb (fun x => eq_str x k) l)
  | _ => Raise (TypeError ("argument of type '" +:+ type_name v +:+ "' is not iterable"))
  end.

(** [v.get(k, default)] *)
Definition py_get (v : pyval) (k : string) (default : pyval) : outcome pyval :=
  match v with
  | VDict d => Return (match d !! k with Some x => x | None => default end)
  | _ => Raise (AttributeError ("'" +:+ type_name v +:+ "' object has no attribute 'get'"))
  end.

(** [v[k]] for a string key [k]. *)
Definition py_getitem (v : pyval) (k : string) : outcome pyval :=
  match v with
  | VDict d => match d !! k with Some x => Return x | None => Raise (KeyError k) end
  | VStr _ => Raise (TypeError "string indices must be integers, not 'str'")
  | VList _ => Raise (TypeError "list indices must be integers or slices, not str")
  | _ => Raise (TypeError ("'" +:+ type_name v +:+ "' object is not subscriptable"))
  end.

(** [l[i]] on a list *)
Definition list_index {A} (l : list A) (i : nat) : outcome A :=
  match l !! i with
  | Some x => Return x
  | None => Raise (IndexError "list index out of range")
  end.

(** ** Code with external calls

    A computation yields the external calls it made, in order, and how it
    ended. *)
Section Monad.
Context {Ev : Type}.

Definition M (A : Type) : Type := list Ev * outcome A.

Definition ret {A} (a : A) : M A := ([], Return a).
Definition raise {A} (e : exn) : M A := ([], Raise e).
Definition emit (ev : Ev) : M unit := ([ev], Return tt).
Definition lift {A} (o : outcome A) : M A := ([], o).

Definition bind {A B} (m : M A) (k : A -> M B) : M B :=
  match m with
  | (tr, Return a) => let '(tr', r) := k a in (tr ++ tr', r)
  | (tr, Raise e) => (tr, Raise e)
  end.

(** [try: m  except Exception as e: h e] *)
Definition try_except {A} (m : M A) (h : exn -> M A) : M A :=
  match m with
  | (tr, Return a) => (tr, Return a)
  | (tr, Raise e) => let '(tr', r) := h e in (tr ++ tr', r)
  end.

(** An external call: it is recorded, then its answer is used. *)
Definition call {A} (ev : Ev) (answer : outcome A) : M A :=
  ([ev], answer).

Definition events {A} (m : M A) : list Ev := fst m.
Definition result {A} (m : M A) : outcome A := snd m.

(** Every external call of the run satisfies [P]. *)
Definition all_events {A} (P : Ev -> Prop) (m : M A) : Prop :=
  Forall P (events m).
End Monad.
Arguments M : clear implicits.

Declare Scope py_scope.
Delimit Scope py_scope with py.
Notation "'let*' x := m 'in' k" := (bind m (fun x => k))
  (at level 10, x name, m at level 100, k at level 200) : py_scope.
Notation "m1 ;; m2" := (bind m1 (fun _ => m2))
  (at level 100, m2 at level 200, right associativity) : py_scope.

End Py.

(** The part of the requests library both programs use. *)
Module Requests.
Import Py.

Definition bytes : Type := list Byte.byte.

(** An HTTP response: [content] is the raw body, [json] what
    [response.json()] gives (it raises on a body that is not JSON). *)
Record response : Type := MkResponse {
  status_code : Z;
  reason : string;
  content : bytes;
  json : outcome pyval
}.

(** [response.raise_for_status()]: an [HTTPError] for the 4xx and 5xx
    codes. *)
Definition raise_for_status (url : string) (r : response) : outcome unit :=
  let describe kind :=
    MkExn "HTTPError"
      (pretty (status_code r) +:+ " " +:+ kind +:+ " Error: " +:+ reason r
       +:+ " for url: " +:+ url) in
  if (400 <=? status_code r)%Z && (status_code r <? 500)%Z
  then Raise (describe "Client")
  else if (500 <=? status_code r)%Z && (status_code r <? 600)%Z
  then Raise (describe "Server")
  else Return tt.

End Requests.

(* ===================================================================== *)
(** * The serverless worker: handler.py *)
(* ===================================================================== *)

Module Handler.
Import PyStr Py Requests.
Local Open Scope py_scope.

(** A decoded PIL image: mode, size and raw pixel data. *)
Record image : Type := MkImage {
  img_mode : string;
  img_width : Z;
  img_height : Z;
  img_data : bytes
}.

(** One entry of the chat message's ["content"] list. *)
Inductive part : Type :=
  | TextPart (text : pyval)
  | ImagePart (img : image).

(** The calls that leave the repository's code. *)
Inductive call_ev : Type :=
  | B64Decode (data : string)
  | ImageOpen (data : bytes)
  | ImageOpenPath (path : string)
  | RequestsGet (url : string)
  | ConvertRGB (img : image)
  | Generate (content : list part) (max_new_tokens : pyval).

(** The process environment: the two configured defaults (read from the
    environment variables at start-up) and the third-party code.
    [model_generate] stands for the whole pipeline
    [processor.apply_chat_template], the move to the device,
    [model.generate], the slice of the new tokens and [processor.decode]:
    it takes the content of the single user message and
    [max_new_tokens], and returns the decoded text or raises. *)
Record Env : Type := MkEnv {
  CAPTION_PROMPT : string;
  MAX_NEW_TOKENS : Z;
  b64decode : string -> outcome bytes;
  image_open : bytes -> outcome image;
  image_open_path : string -> outcome image;
  requests_get : string -> outcome response;
  convert_rgb : image -> outcome image;
  model_generate : list part -> pyval -> outcome string;
  format_exc : exn -> string;
  format_value : pyval -> string
}.

Definition NL : string := String LF EmptyString.

(** The value of [CAPTION_PROMPT] when the environment variable is unset. *)
Definition default_caption_prompt : string :=
  "You are a world renowned physician. Check the xray image and provide a detailed analysis, anamnesis and diagnosis. Ensure you also mention the next steps of action".

(** The literal inside [process_text_question]. *)
Definition text_default_prompt : string :=
  "You are a world renowned physician. Please provide a detailed and accurate medical response to the following question:".

Definition no_input_error : string :=
  "No image or text provided in input. Please provide either 'image' or 'text' field.".
Definition invalid_text_error : string :=
  "Invalid text input. Please provide a non-empty string.".
Definition invalid_image_error : string :=
  "Invalid image format. Please provide a base64 encoded image, URL, or file path.".

Section WithEnv.
Variable E : Env.

(** [f"{v}"] *)
Definition fmt (v : pyval) : string :=
  match v with VStr s => s | _ => format_value E v end.

(** The text both generation functions return from their [except]
    clause. *)
Definition error_text (what : string) (e : exn) : string :=
  "Error processing " +:+ what +:+ ": " +:+ exn_msg e +:+ NL +:+ format_exc E e.

Definition generate (content : list part) (max_new_tokens : pyval)
  : M call_ev string :=
  call (Generate content max_new_tokens)
       (model_generate E content max_new_tokens).

Definition caption_image (image_data : image) (prompt max_new_tokens : pyval)
  : M call_ev string :=
  try_except
    (let* caption :=
       generate [TextPart prompt; ImagePart image_data] max_new_tokens in
     ret (strip (replace LF SP caption)))
    (fun e => ret (error_text "image" e)).

Definition process_text_question (text_input : string)
    (prompt max_new_tokens : pyval) : M call_ev string :=
  try_except
    (let user_prompt :=
       if truthy prompt then prompt else VStr text_default_prompt in
     let* response :=
       generate [TextPart (VStr (fmt user_prompt +:+ NL +:+ NL +:+ text_input))]
                max_new_tokens in
     ret (strip (replace LF SP response)))
    (fun e => ret (error_text "text" e)).

(** [Image.open(io.BytesIO(base64.b64decode(data)))] *)
Definition open_base64 (data : string) : M call_ev image :=
  let* raw := call (B64Decode data) (b64decode E data) in
  call (ImageOpen raw) (image_open E raw).

(** [requests.get(url, stream=True)], [raise_for_status()],
    [Image.open(io.BytesIO(response.content))] *)
Definition open_url (url : string) : M call_ev image :=
  let* response := call (RequestsGet url) (requests_get E url) in
  lift (raise_for_status url response) ;;
  call (ImageOpen (content response)) (image_open E (content response)).

Definition open_path (path : string) : M call_ev image :=
  call (ImageOpenPath path) (image_open_path E path).

Definition url_schemes : list string := ["http://"; "https://"].

(** The [if]/[elif] cascade at the head of the handler's image branch.
    [None] is its final [else]: the value is not a string. *)
Definition decode_image (image_input : pyval) : M call_ev (option image) :=
  match image_input with
  | VStr s =>
      if startswith "data:image" s then
        let* base64_data := lift (list_index (split ","%char s) 1) in
        let* image_data := open_base64 base64_data in
        ret (Some image_data)
      else if (100 <? String.length s)%nat then
        let* image_data :=
          try_except (open_base64 s)
            (fun _ =>
               if startswith_any url_schemes s then open_url s
               else open_path s) in
        ret (Some image_data)
      else if startswith_any url_schemes s then
        let* image_data := open_url s in
        ret (Some image_data)
      else
        let* image_data := open_path s in
        ret (Some image_data)
  | _ => ret None
  end.

Definition error_result (msg : string) : pyval :=
  VDict {[ "error" := VStr msg ]}.

Definition text_result (response : string) : pyval :=
  VDict (<[ "response" := VStr response ]> {[ "input_type" := VStr "text" ]}).

Definition image_result (caption : string) : pyval :=
  VDict (<[ "caption" := VStr caption ]> {[ "input_type" := VStr "image" ]}).

Definition decode_error_result (e : exn) : pyval :=
  VDict (<[ "error" := VStr ("Error processing image: " +:+ exn_msg e) ]>
         {[ "traceback" := VStr (format_exc E e) ]}).

(** The image branch of the handler: the whole [try] block. *)
Definition handle_image (image_input prompt max_new_tokens : pyval)
  : M call_ev pyval :=
  try_except
    (let* decoded := decode_image image_input in
     match decoded with
     | None => ret (error_result invalid_image_error)
     | Some image_data =>
         let* image_data :=
           call (ConvertRGB image_data) (convert_rgb E image_data) in
         let* caption := caption_image image_data prompt max_new_tokens in
         ret (image_result caption)
     end)
    (fun e => ret (decode_error_result e)).

(** The text branch of the handler. *)
Definition handle_text (text_input prompt max_new_tokens : pyval)
  : M call_ev pyval :=
  match text_input with
  | VStr s =>
      if String.eqb (strip s) EmptyString
      then ret (error_result invalid_text_error)
      else
        let* response := process_text_question s prompt max_new_tokens in
        ret (text_result response)
  | _ => ret (error_result invalid_text_error)
  end.

Definition handler (job : pyval) : M call_ev pyval :=
  let* job_input := lift (py_getitem job "input") in
  let* has_image := lift (py_in "image" job_input) in
  let* neither :=
    (if has_image then ret false
     else let* has_text := lift (py_in "text" job_input) in
          ret (negb has_text)) in
  if neither then ret (error_result no_input_error)
  else
    let* prompt :=
      lift (py_get job_input "prompt" (VStr (CAPTION_PROMPT E))) in
    let* max_new_tokens :=
      lift (py_get job_input "max_new_tokens" (VInt (MAX_NEW_TOKENS E))) in
    let* has_text := lift (py_in "text" job_input) in
    if has_text then
      let* text_input := lift (py_getitem job_input "text") in
      handle_text text_input prompt max_new_tokens
    else
      let* has_image := lift (py_in "image" job_input) in
      if has_image then
        let* image_input := lift (py_getitem job_input "image") in
        handle_image image_input prompt max_new_tokens
      else ret VNone.

End WithEnv.

(** ** Vocabulary for the statements *)

(** The values the handler binds to [prompt] and [max_new_tokens]. *)
Definition prompt_of (E : Env) (d : gmap string pyval) : pyval :=
  match d !! "prompt" with Some p => p | None => VStr (CAPTION_PROMPT E) end.

Definition tokens_of (E : Env) (d : gmap string pyval) : pyval :=
  match d !! "max_new_tokens" with
  | Some n => n
  | None => VInt (MAX_NEW_TOKENS E)
  end.

(** The job the platform hands to the handler for a given input. *)
Definition job_of (job_input : pyval) : pyval :=
  VDict {[ "input" := job_input ]}.

Definition is_generate (ev : call_ev) : bool :=
  match ev with Generate _ _ => true | _ => false end.

(** The content of the user message built by [process_text_question]. *)
Definition question_content (E : Env) (s : string) (prompt : pyval)
  : list part :=
  [TextPart
     (VStr (fmt E (if truthy prompt then prompt else VStr text_default_prompt)
            +:+ NL +:+ NL +:+ s))].

(** The four image encodings as the specification lists them, each with
    what makes it well formed: a data URI whose payload is base64 of an
    image, a bare base64 string of an image, an HTTP(S) URL that serves
    an image, the path of an image file; in each case the image converts
    to RGB.  This definition follows the specification, not the
    handler's detection cascade. *)
Definition to_rgb (E : Env) (img : image) : Prop :=
  exists rgb, convert_rgb E img = Return rgb.

Definition base64_of_image (E : Env) (data : string) : Prop :=
  exists raw img,
    b64decode E data = Return raw /\ image_open E raw = Return img
    /\ to_rgb E img.

Definition well_formed_data_uri (E : Env) (s : string) : Prop :=
  exists header payload,
    s = "data:image" +:+ header +:+ "," +:+ payload
    /\ has_char ","%char header = false
    /\ has_char ","%char payload = false
    /\ base64_of_image E payload.

Definition well_formed_url (E : Env) (s : string) : Prop :=
  startswith_any url_schemes s = true
  /\ exists r img,
       requests_get E s = Return r /\ raise_for_status s r = Return tt
       /\ image_open E (content r) = Return img /\ to_rgb E img.

Definition well_formed_path (E : Env) (s : string) : Prop :=
  exists img, image_open_path E s = Return img /\ to_rgb E img.

Definition well_formed_image (E : Env) (s : string) : Prop :=
  well_formed_data_uri E s \/ base64_of_image E s
  \/ well_formed_url E s \/ well_formed_path E s.

(** The strings the detection cascade of the handler decodes: the four
    encodings above, each under the condition that an earlier test of the
    cascade does not claim the string first.  Bare base64 is tried only on
    strings longer than 100 characters; a long URL or path is first tried
    as base64. *)
Definition opens_as_base64 (E : Env) (s : string) : Prop :=
  exists raw img, b64decode E s = Return raw /\ image_open E raw = Return img.

Definition accepted_image (E : Env) (s : string) : Prop :=
  well_formed_data_uri E s
  \/ (base64_of_image E s /\ startswith "data:image" s = false
      /\ (100 < String.length s)%nat)
  \/ (well_formed_url E s
      /\ ((String.length s <= 100)%nat \/ ~ opens_as_base64 E s))
  \/ (well_formed_path E s /\ startswith "data:image" s = false
      /\ startswith_any url_schemes s = false
      /\ ((String.length s <= 100)%nat \/ ~ opens_as_base64 E s)).

(** The [caption] entry of a returned value, if it has one. *)
Definition caption_of (v : pyval) : option pyval :=
  match v with VDict d => d !! "caption" | _ => None end.

(** An image job: the input carries [image] and no [text]. *)
Definition image_job (d : gmap string pyval) (s : string) : Prop :=
  d !! "image" = Some (VStr s) /\ d !! "text" = None.

End Handler.

(* ===================================================================== *)
(** * The batch client: image-captioner.py *)
(* ===================================================================== *)

Module Client.
Import PyStr Py Requests.
Local Open Scope py_scope.

(** The parsed command line. *)
Record Args : Type := MkArgs {
  image_folder : string;
  text_file : string;
  mode : string;
  endpoint_id : string;
  api_key : string;
  concurrent : Z;
  sync : bool
}.

(** What a request function does to the outside world.  [OpenWrite] is
    [open(path, 'w')], which creates the file or empties it; [Write] is
    [f.write(data)] on the file opened last at that path; [Sleep] is a
    [time.sleep] that was accepted.  The file system accepts every open
    and write. *)
Inductive io_ev : Type :=
  | Print (msg : string)
  | EncodeImage (path : string)
  | Post (url : string) (headers : gmap string string) (payload : pyval)
  | Get (url : string) (headers : gmap string string)
  | Sleep (seconds : Z)
  | OpenWrite (path : string)
  | Write (path : string) (data : string).

(** The client's surroundings: the polling interval read at start-up, the
    path separators of the platform's [os.path], the PIL and base64 work
    inside [encode_image_to_base64], the endpoint's answer to a POST, and
    the text [str()] gives for a value that is not a string. *)
Record Env : Type := MkEnv {
  POLLING_INTERVAL : Z;
  path_seps : list ascii;
  jpeg_base64 : string -> outcome string;
  requests_post : string -> gmap string string -> pyval -> outcome response;
  format_value : pyval -> string
}.

(** How one pass through the body of [while True] ends. *)
Inductive flow : Type := Break | Continue.

(** Where an asynchronous request function stands once the answers of the
    status endpoint known so far are used up. *)
Inductive run_state : Type :=
  | Finished       (* the function has returned *)
  | StillPolling.  (* the loop is about to sleep and poll again *)

(** The contents of the files after the events, from the contents before. *)
Fixpoint fs_after (tr : list io_ev) (fs : gmap string string)
  : gmap string string :=
  match tr with
  | [] => fs
  | OpenWrite p :: tr' => fs_after tr' (<[ p := EmptyString ]> fs)
  | Write p data :: tr' =>
      fs_after tr'
        (<[ p := match fs !! p with Some old => old | None => EmptyString end
                 +:+ data ]> fs)
  | _ :: tr' => fs_after tr' fs
  end.

Definition is_file_ev (ev : io_ev) : bool :=
  match ev with OpenWrite _ | Write _ _ => true | _ => false end.

Definition is_get (ev : io_ev) : bool :=
  match ev with Get _ _ => true | _ => false end.

Definition is_sleep (ev : io_ev) : bool :=
  match ev with Sleep _ => true | _ => false end.

(** The three statuses on which the loops [break]. *)
Definition terminal (status : pyval) : bool :=
  eq_str status "COMPLETED" || eq_str status "FAILED"
  || eq_str status "CANCELLED".

Definition NL : string := String LF EmptyString.

Section WithEnv.
Variable E : Env.

(** [f"{v}"] *)
Definition fmt (v : pyval) : string :=
  match v with VStr s => s | _ => format_value E v end.

(** [os.path.basename] *)
Definition basename (p : string) : string :=
  let is_sep c := existsb (Ascii.eqb c) (path_seps E) in
  match rfind is_sep p with
  | Some i => drop (S i) p
  | None => p
  end.

(** [f"{os.path.splitext(image_path)[0]}.txt"] *)
Definition caption_path (image_path : string) : string :=
  fst (splitext (path_seps E) image_path) +:+ ".txt".

(** [f"question_{question_index + 1}.txt"] *)
Definition answer_path (question_index : nat) : string :=
  "question_" +:+ pretty (question_index + 1)%nat +:+ ".txt".

Definition print (msg : string) : M io_ev unit := emit (Print msg).

(** [f.write(v)] on the file opened at [path]; the message for a value
    that is not a string names its type, and [None] by name. *)
Definition file_write (path : string) (v : pyval) : M io_ev unit :=
  match v with
  | VStr data => emit (Write path data)
  | VNone => raise (TypeError "write() argument must be str, not None")
  | _ => raise (TypeError ("write() argument must be str, not "
                           +:+ type_name v))
  end.

(** [time.sleep(seconds)]: a negative length is refused before any
    waiting.  Lengths beyond what the platform clock holds (some 9.2e9
    seconds, in either direction) are not part of the model. *)
Definition time_sleep (seconds : Z) : M io_ev unit :=
  if (seconds <? 0)%Z
  then raise (ValueError "sleep length must be non-negative")
  else emit (Sleep seconds).

Definition encode_image_to_base64 (image_path : string)
  : M io_ev (option string) :=
  try_except
    (let* encoded_image :=
       call (EncodeImage image_path) (jpeg_base64 E image_path) in
     ret (Some encoded_image))
    (fun e =>
       print ("Error encoding image " +:+ image_path +:+ ": " +:+ exn_msg e) ;;
       ret None).

Definition run_url (args : Args) (route : string) : string :=
  "https://api.runpod.ai/v2/" +:+ endpoint_id args +:+ "/" +:+ route.

Definition request_headers (args : Args) : gmap string string :=
  <[ "Authorization" := "Bearer " +:+ api_key args ]>
    {[ "Content-Type" := "application/json" ]}.

Definition input_payload (field value : string) : pyval :=
  VDict {[ "input" := VDict {[ field := VStr value ]} ]}.

(** [requests.post(...)], [raise_for_status()], [response.json()] *)
Definition post_json (url : string) (headers : gmap string string)
    (payload : pyval) : M io_ev pyval :=
  let* response :=
    call (Post url headers payload) (requests_post E url headers payload) in
  lift (raise_for_status url response) ;;
  lift (json response).

(** [requests.get(...)], [raise_for_status()], [status_response.json()];
    [answer] is what the status endpoint gives to this request. *)
Definition get_json (url : string) (headers : gmap string string)
    (answer : outcome response) : M io_ev pyval :=
  let* status_response := call (Get url headers) answer in
  lift (raise_for_status url status_response) ;;
  lift (json status_response).

Definition send_image_request_sync (image_path : string) (args : Args)
  : M io_ev unit :=
  try_except
    (let image_name := basename image_path in
     print ("Processing image: " +:+ image_name +:+ "...") ;;
     let* base64_image := encode_image_to_base64 image_path in
     match base64_image with
     | None | Some EmptyString => ret tt
     | Some base64_image =>
         let url := run_url args "runsync" in
         let headers := request_headers args in
         let payload := input_payload "image" base64_image in
         let* result := post_json url headers payload in
         let* has_error := lift (py_in "error" result) in
         if has_error then
           let* err := lift (py_getitem result "error") in
           print ("Error with " +:+ image_name +:+ ": " +:+ fmt err)
         else
           let output_path := caption_path image_path in
           emit (OpenWrite output_path) ;;
           let* output := lift (py_getitem result "output") in
           let* caption := lift (py_getitem output "caption") in
           file_write output_path caption ;;
           print ("Caption saved to " +:+ output_path)
     end)
    (fun e =>
       print ("Error processing " +:+ image_path +:+ ": " +:+ exn_msg e)).

Definition question_no (question_index : nat) : string :=
  pretty (question_index + 1)%nat.

Definition send_text_request_sync (question : string) (question_index : nat)
    (args : Args) : M io_ev unit :=
  try_except
    (print ("Processing text question " +:+ question_no question_index
            +:+ ": " +:+ take 50 question +:+ "...") ;;
     let url := run_url args "runsync" in
     let headers := request_headers args in
     let payload := input_payload "text" question in
     let* result := post_json url headers payload in
     let* has_error := lift (py_in "error" result) in
     if has_error then
       let* err := lift (py_getitem result "error") in
       print ("Error with question " +:+ question_no question_index
              +:+ ": " +:+ fmt err)
     else
       let output_path := answer_path question_index in
       emit (OpenWrite output_path) ;;
       let* output := lift (py_getitem result "output") in
       let* answer := lift (py_getitem output "answer") in
       file_write output_path
         (VStr ("Question: " +:+ question +:+ NL +:+ NL +:+ "Answer: "
                +:+ fmt answer)) ;;
       print ("Answer saved to " +:+ output_path))
    (fun e =>
       print ("Error processing question " +:+ question_no question_index
              +:+ ": " +:+ exn_msg e)).

(** The [while True] loop, run against the answers of the status endpoint
    in the order the requests are made. *)
Fixpoint poll (body : outcome response -> M io_ev flow)
    (script : list (outcome response)) : M io_ev run_state :=
  match script with
  | [] => ret StillPolling
  | answer :: script' =>
      let* next := body answer in
      match next with
      | Break => ret Finished
      | Continue => poll body script'
      end
  end.

(** One pass through the loop of [send_image_request_async]. *)
Definition image_poll_body (image_path image_name status_url : string)
    (headers : gmap string string) (answer : outcome response)
  : M io_ev flow :=
  time_sleep (POLLING_INTERVAL E) ;;
  let* status_data := get_json status_url headers answer in
  let* status := lift (py_get status_data "status" VNone) in
  if eq_str status "COMPLETED" then
    let output_path := caption_path image_path in
    let* output := lift (py_get status_data "output" (VDict ∅)) in
    let* caption := lift (py_get output "caption" VNone) in
    (if truthy caption then
       emit (OpenWrite output_path) ;;
       file_write output_path caption ;;
       print ("Caption saved to " +:+ output_path)
     else print ("No caption received for " +:+ image_name)) ;;
    ret Break
  else if eq_str status "FAILED" then
    let* err := lift (py_get status_data "error" VNone) in
    print ("Job failed for " +:+ image_name +:+ ": " +:+ fmt err) ;;
    ret Break
  else if eq_str status "CANCELLED" then
    print ("Job cancelled for " +:+ image_name) ;;
    ret Break
  else if eq_str status "IN_QUEUE" || eq_str status "IN_PROGRESS" then
    print ("Job status for " +:+ image_name +:+ ": " +:+ fmt status) ;;
    ret Continue
  else
    print ("Unknown status for " +:+ image_name +:+ ": " +:+ fmt status) ;;
    ret Continue.

Definition send_image_request_async (image_path : string) (args : Args)
    (script : list (outcome response)) : M io_ev run_state :=
  try_except
    (let image_name := basename image_path in
     print ("Processing image: " +:+ image_name +:+ "...") ;;
     let* base64_image := encode_image_to_base64 image_path in
     match base64_image with
     | None | Some EmptyString => ret Finished
     | Some base64_image =>
         let url := run_url args "run" in
         let headers := request_headers args in
         let payload := input_payload "image" base64_image in
         let* result := post_json url headers payload in
         let* job_id := lift (py_get result "id" VNone) in
         if negb (truthy job_id) then
           print ("Error: No job ID returned for " +:+ image_name) ;;
           ret Finished
         else
           let status_url := run_url args ("status/" +:+ fmt job_id) in
           poll (image_poll_body image_path image_name status_url headers)
                script
     end)
    (fun e =>
       print ("Error processing " +:+ image_path +:+ ": " +:+ exn_msg e) ;;
       ret Finished).

(** One pass through the loop of [send_text_request_async]. *)
Definition text_poll_body (question : string) (question_index : nat)
    (status_url : string) (headers : gmap string string)
    (answer : outcome response) : M io_ev flow :=
  time_sleep (POLLING_INTERVAL E) ;;
  let* status_data := get_json status_url headers answer in
  let* status := lift (py_get status_data "status" VNone) in
  if eq_str status "COMPLETED" then
    let output_path := answer_path question_index in
    let* output := lift (py_get status_data "output" (VDict ∅)) in
    let* answer := lift (py_get output "answer" VNone) in
    (if truthy answer then
       emit (OpenWrite output_path) ;;
       file_write output_path
         (VStr ("Question: " +:+ question +:+ NL +:+ NL +:+ "Answer: "
                +:+ fmt answer)) ;;
       print ("Answer saved to " +:+ output_path)
     else print ("No answer received for question "
                 +:+ question_no question_index)) ;;
    ret Break
  else if eq_str status "FAILED" then
    let* err := lift (py_get status_data "error" VNone) in
    print ("Job failed for question " +:+ question_no question_index
           +:+ ": " +:+ fmt err) ;;
    ret Break
  else if eq_str status "CANCELLED" then
    print ("Job cancelled for question " +:+ question_no question_index) ;;
    ret Break
  else if eq_str status "IN_QUEUE" || eq_str status "IN_PROGRESS" then
    print ("Job status for question " +:+ question_no question_index
           +:+ ": " +:+ fmt status) ;;
    ret Continue
  else
    print ("Unknown status for question " +:+ question_no question_index
           +:+ ": " +:+ fmt status) ;;
    ret Continue.

Definition send_text_request_async (question : string)
    (question_index : nat) (args : Args)
    (script : list (outcome response)) : M io_ev run_state :=
  try_except
    (print ("Processing text question " +:+ question_no question_index
            +:+ ": " +:+ take 50 question +:+ "...") ;;
     let url := run_url args "run" in
     let headers := request_headers args in
     let payload := input_payload "text" question in
     let* result := post_json url headers payload in
     let* job_id := lift (py_get result "id" VNone) in
     if negb (truthy job_id) then
       print ("Error: No job ID returned for question "
              +:+ question_no question_index) ;;
       ret Finished
     else
       let status_url := run_url args ("status/" +:+ fmt job_id) in
       poll (text_poll_body question question_index status_url headers)
            script)
    (fun e =>
       print ("Error processing question " +:+ question_no question_index
              +:+ ": " +:+ exn_msg e) ;;
       ret Finished).

End WithEnv.

(** ** Vocabulary for the statements *)

(** The number of status requests among the events. *)
Definition status_requests (tr : list io_ev) : nat :=
  length (List.filter is_get tr).

(** The file operations among the events. *)
Definition file_events (tr : list io_ev) : list io_ev :=
  List.filter is_file_ev tr.

(** The path a file operation works on. *)
Definition file_path_is (path : string) (ev : io_ev) : Prop :=
  match ev with
  | OpenWrite p | Write p _ => p = path
  | _ => True
  end.

(** The endpoint accepted the job for the given input field and answered
    with a job id that Python counts as true. *)
Definition submitted (E : Env) (args : Args) (field value : string)
    (job_id : pyval) : Prop :=
  exists r result,
    requests_post E (run_url args "run") (request_headers args)
      (input_payload field value) = Return r
    /\ raise_for_status (run_url args "run") r = Return tt
    /\ json r = Return result
    /\ py_get result "id" VNone = Return job_id
    /\ truthy job_id = true.

(** The endpoint answered the synchronous request with the dictionary
    [result]. *)
Definition answered (E : Env) (args : Args) (field value : string)
    (result : gmap string pyval) : Prop :=
  exists r,
    requests_post E (run_url args "runsync") (request_headers args)
      (input_payload field value) = Return r
    /\ raise_for_status (run_url args "runsync") r = Return tt
    /\ json r = Return (VDict result).

(** [result['output'][key]], when both subscripts can be read. *)
Definition output_entry (key : string) (result : gmap string pyval)
  : option pyval :=
  match result !! "output" with
  | Some (VDict output) => output !! key
  | _ => None
  end.

Definition status_url (E : Env) (args : Args) (job_id : pyval) : string :=
  run_url args ("status/" +:+ fmt E job_id).

(** The status the loop reads off one answer of the status endpoint, if it
    gets that far: the request or [raise_for_status] or [json()] may raise,
    and so does [.get] when the body is not a dictionary. *)
Definition observed_status (url : string) (answer : outcome response)
  : option pyval :=
  match answer with
  | Return r =>
      match raise_for_status url r, json r with
      | Return _, Return (VDict status_data) =>
          Some (match status_data !! "status" with
                | Some status => status
                | None => VNone
                end)
      | _, _ => None
      end
  | Raise _ => None
  end.

(** An asynchronous request function around its polling loop [p]: the
    events before the loop, those of the loop, and the message the
    [except] clause prints when the loop raised. *)
Definition around_poll (before : list io_ev) (on_error : exn -> string)
    (p : M io_ev run_state) : M io_ev run_state :=
  (before ++ events p
     ++ match result p with
        | Raise e => [Print (on_error e)]
        | Return _ => []
        end,
   Return match result p with
          | Return state => state
          | Raise _ => Finished
          end).

(** Neither a status request nor a sleep. *)
Definition quiet (ev : io_ev) : Prop :=
  is_get ev = false /\ is_sleep ev = false.

Definition keeps_polling (url : string) (answer : outcome response) : Prop :=
  exists status, observed_status url answer = Some status
                 /\ terminal status = false.

Definition ends_polling (url : string) (answer : outcome response) : Prop :=
  exists status, observed_status url answer = Some status
                 /\ terminal status = true.

End Client.

(* ===================================================================== *)
(** * Concrete surroundings used to exercise the statements *)
(* ===================================================================== *)

Module Examples.
Import PyStr Py Requests.

(** The 42 bytes of a one-pixel GIF, and their base64 text (56
    characters). *)
Definition gif_bytes : bytes :=
  [ Byte.x47; Byte.x49; Byte.x46; Byte.x38; Byte.x39; Byte.x61; Byte.x01;
    Byte.x00; Byte.x01; Byte.x00; Byte.x80; Byte.x00; Byte.x00; Byte.x00;
    Byte.x00; Byte.x00; Byte.xff; Byte.xff; Byte.xff; Byte.x21; Byte.xf9;
    Byte.x04; Byte.x01; Byte.x00; Byte.x00; Byte.x00; Byte.x00; Byte.x2c;
    Byte.x00; Byte.x00; Byte.x00; Byte.x00; Byte.x01; Byte.x00; Byte.x01;
    Byte.x00; Byte.x00; Byte.x02; Byte.x01; Byte.x44; Byte.x00; Byte.x3b ].

Definition gif_base64 : string :=
  "R0lGODlhAQABAIAAAAAAAP///yH5BAEAAAAALAAAAAABAAEAAAIBRAA7".

(** Standard base64 (RFC 4648): the value of a character of the
    alphabet, the characters up to the padding as 6-bit numbers, and the
    bytes they spell, four characters to three bytes. *)
Definition sextet (c : ascii) : option N :=
  let n := N_of_ascii c in
  if ((65 <=? n) && (n <=? 90))%N then Some (n - 65)%N
  else if ((97 <=? n) && (n <=? 122))%N then Some (n - 71)%N
  else if ((48 <=? n) && (n <=? 57))%N then Some (n + 4)%N
  else if (n =? 43)%N then Some 62%N
  else if (n =? 47)%N then Some 63%N
  else None.

Fixpoint sextets (s : string) : option (list N) :=
  match s with
  | EmptyString => Some []
  | String c s' =>
      if Ascii.eqb c "="%char then Some []
      else match sextet c, sextets s' with
           | Some v, Some vs => Some (v :: vs)
           | _, _ => None
           end
  end.

Fixpoint octets (l : list N) : list N :=
  match l with
  | a :: b :: c :: d :: rest =>
      let n := (((a * 64 + b) * 64 + c) * 64 + d)%N in
      (n / 65536)%N :: ((n / 256) mod 256)%N :: (n mod 256)%N :: octets rest
  | [a; b; c] =>
      let n := ((a * 64 + b) * 64 + c)%N in
      [(n / 1024)%N; ((n / 4) mod 256)%N]
  | [a; b] => [((a * 64 + b) / 16)%N]
  | _ => []
  end.

Definition base64_decode (s : string) : option bytes :=
  match sextets s with
  | Some l =>
      if (length l mod 4 =? 1)%nat then None
      else mapM Byte.of_N (octets l)
  | None => None
  end.

Definition pixel : Handler.image := Handler.MkImage "P" 1 1 [Byte.x00].
Definition xray : Handler.image := Handler.MkImage "L" 1 1 [Byte.x7f].

Definition traceback_text : string :=
  "Traceback (most recent call last):" +:+ Handler.NL.

(** A worker whose disk holds the single file [scan.png], whose PIL opens
    whatever starts with the GIF signature, and which has no network.  The
    model is the last argument. *)
Definition worker
    (model : list Handler.part -> pyval -> outcome string) : Handler.Env :=
  {| Handler.CAPTION_PROMPT := Handler.default_caption_prompt;
     Handler.MAX_NEW_TOKENS := 256;
     Handler.b64decode := fun data =>
       match base64_decode data with
       | Some raw => Return raw
       | None => Raise (MkExn "Error" "Incorrect padding")
       end;
     Handler.image_open := fun raw =>
       match raw with
       | Byte.x47 :: Byte.x49 :: Byte.x46 :: _ => Return pixel
       | _ => Raise (MkExn "UnidentifiedImageError" "cannot identify image file")
       end;
     Handler.image_open_path := fun path =>
       if String.eqb path "scan.png" then Return xray
       else Raise (MkExn "FileNotFoundError"
                     ("[Errno 2] No such file or directory: '" +:+ path +:+ "'"));
     Handler.requests_get := fun url =>
       Raise (MkExn "ConnectionError" "Max retries exceeded");
     Handler.convert_rgb := fun img =>
       Return (Handler.MkImage "RGB" (Handler.img_width img)
                 (Handler.img_height img) (Handler.img_data img));
     Handler.model_generate := model;
     Handler.format_exc := fun e =>
       traceback_text +:+ Py.exn_type e +:+ ": " +:+ Py.exn_msg e +:+ Handler.NL;
     Handler.format_value := fun _ => "None" |}.

(** A model that answers in two lines. *)
Definition two_lines : list Handler.part -> pyval -> outcome string :=
  fun _ _ =>
    Return (" No acute findings." +:+ Handler.NL +:+ "Review in six months. ").

(** A model that fails on every call. *)
Definition out_of_memory : list Handler.part -> pyval -> outcome string :=
  fun _ _ => Raise (MkExn "OutOfMemoryError" "CUDA out of memory.").

Definition both_fields : gmap string pyval :=
  <[ "image" := VStr "scan.png" ]> {[ "text" := VStr "What is asthma?" ]}.

Definition text_only : gmap string pyval :=
  {[ "text" := VStr "What is hypertension?" ]}.

Definition image_only (s : string) : gmap string pyval :=
  {[ "image" := VStr s ]}.

(** ** The client side *)

Definition ok_response (body : pyval) : response :=
  {| status_code := 200; reason := "OK"; content := []; json := Return body |}.

Definition desk_args : Client.Args :=
  {| Client.image_folder := "xray";
     Client.text_file := "questions.txt";
     Client.mode := "both";
     Client.endpoint_id := "ep1";
     Client.api_key := "key";
     Client.concurrent := 5;
     Client.sync := true |}.

Definition sync_image_reply : gmap string pyval :=
  <[ "status" := VStr "COMPLETED" ]>
    {[ "output" := VDict (<[ "caption" := VStr "No acute findings." ]>
                           {[ "input_type" := VStr "image" ]}) ]}.

Definition sync_text_reply : gmap string pyval :=
  <[ "status" := VStr "COMPLETED" ]>
    {[ "output" := VDict (<[ "response" := VStr "Rest and fluids." ]>
                           {[ "input_type" := VStr "text" ]}) ]}.

Definition queued_reply : pyval :=
  VDict (<[ "id" := VStr "job-1" ]> {[ "status" := VStr "IN_QUEUE" ]}).

(** A desk machine on POSIX paths: every image encodes to the same short
    base64 text; the endpoint answers [runsync] with a finished job and
    [run] with a queued one. *)
Definition desk : Client.Env :=
  {| Client.POLLING_INTERVAL := 2;
     Client.path_seps := posix_seps;
     Client.jpeg_base64 := fun _ => Return "/9j/4AAQSkZJRg==";
     Client.requests_post := fun url _ payload =>
       if String.eqb url "https://api.runpod.ai/v2/ep1/runsync" then
         match payload with
         | VDict p =>
             match p !! "input" with
             | Some (VDict i) =>
                 match i !! "image" with
                 | Some _ => Return (ok_response (VDict sync_image_reply))
                 | None => Return (ok_response (VDict sync_text_reply))
                 end
             | _ => Raise (MkExn "ConnectionError" "bad request")
             end
         | _ => Raise (MkExn "ConnectionError" "bad request")
         end
       else Return (ok_response queued_reply);
     Client.format_value := fun _ => "None" |}.

(** The same desk started with [POLLING_INTERVAL=-1]. *)
Definition hasty_desk : Client.Env :=
  {| Client.POLLING_INTERVAL := -1;
     Client.path_seps := Client.path_seps desk;
     Client.jpeg_base64 := Client.jpeg_base64 desk;
     Client.requests_post := Client.requests_post desk;
     Client.format_value := Client.format_value desk |}.

Definition status_answer (status : string) : outcome response :=
  Return (ok_response (VDict {[ "status" := VStr status ]})).

Definition completed_answer : outcome response :=
  Return (ok_response
            (VDict (<[ "status" := VStr "COMPLETED" ]>
                      {[ "output" := VDict {[ "caption" := VStr "Clear lungs." ]} ]}))).

End Examples.

(* ===================================================================== *)
(** * Further vocabulary: what can be observed of a run *)
(* ===================================================================== *)

Module Observe.
Import PyStr Py Requests.

(** The first and the last character of a string. *)
Definition first_char (s : string) : option ascii :=
  match s with
  | EmptyString => None
  | String c _ => Some c
  end.

Fixpoint last_char (s : string) : option ascii :=
  match s with
  | EmptyString => None
  | String c s' =>
      match last_char s' with
      | Some d => Some d
      | None => Some c
      end
  end.

(** The string neither starts nor ends with a whitespace character. *)
Definition trimmed (s : string) : Prop :=
  (forall c, first_char s = Some c -> py_isspace c = false)
  /\ (forall c, last_char s = Some c -> py_isspace c = false).

(** The cleaning step of [caption_image] and [process_text_question]:
    [text.replace('\n', ' ').strip()]. *)
Definition clean (text : string) : string := strip (replace LF SP text).

(** The number of calls of the model among the events of the worker. *)
Definition generations (tr : list Handler.call_ev) : nat :=
  length (List.filter Handler.is_generate tr).

Definition is_b64decode (ev : Handler.call_ev) : bool :=
  match ev with Handler.B64Decode _ => true | _ => false end.

Definition is_image_open (ev : Handler.call_ev) : bool :=
  match ev with Handler.ImageOpen _ => true | _ => false end.

(** The four shapes of a dictionary the handler returns. *)
Inductive result_shape (E : Handler.Env) : pyval -> Prop :=
  | shape_error msg :
      In msg [Handler.no_input_error; Handler.invalid_text_error;
              Handler.invalid_image_error] ->
      result_shape E (Handler.error_result msg)
  | shape_decode_error e :
      result_shape E (Handler.decode_error_result E e)
  | shape_text response :
      result_shape E (Handler.text_result response)
  | shape_image caption :
      result_shape E (Handler.image_result caption).

(** Client side: the HTTP requests among the events, and what each one
    carries. *)
Definition is_post (ev : Client.io_ev) : bool :=
  match ev with Client.Post _ _ _ => true | _ => false end.

Definition is_request (ev : Client.io_ev) : bool :=
  match ev with Client.Post _ _ _ | Client.Get _ _ => true | _ => false end.

(** The event, if it is a request, is one the client is meant to send: a
    POST goes to the endpoint's [route] with a payload of the form
    [{"input": {field: value}}], a GET goes to a status URL of the
    endpoint, and both carry the bearer token and the JSON content type. *)
Definition request_ok (args : Client.Args) (route field : string)
    (ev : Client.io_ev) : Prop :=
  match ev with
  | Client.Post url headers payload =>
      url = "https://api.runpod.ai/v2/" +:+ Client.endpoint_id args
            +:+ "/" +:+ route
      /\ headers = <[ "Authorization" := "Bearer " +:+ Client.api_key args ]>
                     {[ "Content-Type" := "application/json" ]}
      /\ exists value,
           payload = VDict {[ "input" := VDict {[ field := VStr value ]} ]}
  | Client.Get url headers =>
      (exists job, url = "https://api.runpod.ai/v2/" +:+ Client.endpoint_id args
                         +:+ "/status/" +:+ job)
      /\ headers = <[ "Authorization" := "Bearer " +:+ Client.api_key args ]>
                     {[ "Content-Type" := "application/json" ]}
  | _ => True
  end.

(** Not a network or file operation after submission: no status request,
    no sleep, no file. *)
Definition idle (ev : Client.io_ev) : Prop :=
  Client.is_get ev = false /\ Client.is_sleep ev = false
  /\ Client.is_file_ev ev = false.

(** The [response] entry of a returned value, if it has one, and whether
    it has an [error] entry. *)
Definition response_of (v : pyval) : option pyval :=
  match v with VDict d => d !! "response" | _ => None end.

Definition has_error (v : pyval) : bool :=
  match v with
  | VDict d => match d !! "error" with Some _ => true | None => false end
  | _ => false
  end.

(** The POST to [route] fails whatever the payload: the request raises,
    or the endpoint answers with a 4xx or 5xx status. *)
Definition post_fails (E : Client.Env) (args : Client.Args)
    (route : string) : Prop :=
  forall payload,
    (exists e,
        Client.requests_post E (Client.run_url args route)
          (Client.request_headers args) payload = Raise e)
    \/ (exists r,
           Client.requests_post E (Client.run_url args route)
             (Client.request_headers args) payload = Return r
           /\ (400 <= status_code r < 600)%Z).

(** The endpoint answers the POST to [route] with the JSON value [body],
    whatever the payload. *)
Definition post_answers (E : Client.Env) (args : Client.Args)
    (route : string) (body : pyval) : Prop :=
  forall payload,
    exists r,
      Client.requests_post E (Client.run_url args route)
        (Client.request_headers args) payload = Return r
      /\ raise_for_status (Client.run_url args route) r = Return tt
      /\ json r = Return body.

(** The status endpoint answers with the dictionary [status_data]. *)
Definition reports (url : string) (answer : outcome response)
    (status_data : gmap string pyval) : Prop :=
  exists r,
    answer = Return r /\ raise_for_status url r = Return tt
    /\ json r = Return (VDict status_data).

(** The job ended with nothing to save under [key] ([caption] or
    [answer]): it failed, it was cancelled, or it completed with an
    [output] that is no dictionary or whose entry is missing or false for
    Python. *)
Definition nothing_to_save (key : string)
    (status_data : gmap string pyval) : Prop :=
  status_data !! "status" = Some (VStr "FAILED")
  \/ status_data !! "status" = Some (VStr "CANCELLED")
  \/ (status_data !! "status" = Some (VStr "COMPLETED")
      /\ match status_data !! "output" with
         | Some (VDict output) =>
             match output !! key with
             | Some value => truthy value = false
             | None => True
             end
         | _ => True
         end).

(** The job completed with the non-empty string [value] under [key]. *)
Definition completed_with (key value : string)
    (status_data : gmap string pyval) : Prop :=
  status_data !! "status" = Some (VStr "COMPLETED")
  /\ value <> EmptyString
  /\ exists output,
       status_data !! "output" = Some (VDict output)
       /\ output !! key = Some (VStr value).

(** No request and no file operation. *)
Definition offline (ev : Client.io_ev) : Prop :=
  is_request ev = false /\ Client.is_file_ev ev = false.

(** The image encodes to a base64 text that is not empty. *)
Definition encodes (E : Client.Env) (image_path b64 : string) : Prop :=
  Client.jpeg_base64 E image_path = Return b64 /\ b64 <> EmptyString.

(** ** Further surroundings for the examples *)

(** The worker [E] with another answer of the network. *)
Definition with_network (E : Handler.Env)
    (get : string -> outcome response) : Handler.Env :=
  Handler.MkEnv (Handler.CAPTION_PROMPT E) (Handler.MAX_NEW_TOKENS E)
    (Handler.b64decode E) (Handler.image_open E) (Handler.image_open_path E)
    get (Handler.convert_rgb E) (Handler.model_generate E)
    (Handler.format_exc E) (Handler.format_value E).

Definition not_found : response :=
  {| status_code := 404; reason := "Not Found"; content := [];
     json := Raise (MkExn "JSONDecodeError" "Expecting value") |}.

(** A worker whose network answers every URL with 404. *)
Definition worker_404 : Handler.Env :=
  with_network (Examples.worker Examples.two_lines)
    (fun _ => Return not_found).

(** The desk machine [E] with other answers to a POST, and with another
    image encoder. *)
Definition with_post (E : Client.Env)
    (post : string -> gmap string string -> pyval -> outcome response)
  : Client.Env :=
  Client.MkEnv (Client.POLLING_INTERVAL E) (Client.path_seps E)
    (Client.jpeg_base64 E) post (Client.format_value E).

Definition with_encoder (E : Client.Env)
    (encode : string -> outcome string) : Client.Env :=
  Client.MkEnv (Client.POLLING_INTERVAL E) (Client.path_seps E)
    encode (Client.requests_post E) (Client.format_value E).

(** A desk whose endpoint is unreachable, one whose endpoint answers 500,
    one whose endpoint reports an error, one whose endpoint accepts a job
    without naming it, and one that cannot read its images. *)
Definition desk_offline : Client.Env :=
  with_post Examples.desk
    (fun _ _ _ => Raise (MkExn "ConnectionError" "Max retries exceeded")).

Definition server_error : response :=
  {| status_code := 500; reason := "Internal Server Error"; content := [];
     json := Raise (MkExn "JSONDecodeError" "Expecting value") |}.

Definition desk_500 : Client.Env :=
  with_post Examples.desk (fun _ _ _ => Return server_error).

Definition error_reply : gmap string pyval :=
  {[ "error" := VStr "worker exited" ]}.

Definition desk_error : Client.Env :=
  with_post Examples.desk
    (fun _ _ _ => Return (Examples.ok_response (VDict error_reply))).

Definition desk_no_id : Client.Env :=
  with_post Examples.desk
    (fun _ _ _ => Return (Examples.ok_response
                            (VDict {[ "status" := VStr "IN_QUEUE" ]}))).

Definition desk_no_output : Client.Env :=
  with_post Examples.desk
    (fun _ _ _ => Return (Examples.ok_response
                            (VDict {[ "status" := VStr "COMPLETED" ]}))).

Definition desk_blind : Client.Env :=
  with_encoder Examples.desk
    (fun _ => Raise (MkExn "UnidentifiedImageError"
                       "cannot identify image file")).

End Observe.

(* ===================================================================== *)
(** * The batch client: discovery and dispatch *)
(* ===================================================================== *)

(** The rest of image-captioner.py: [load_text_questions] and [main].  The
    thread pool itself is outside the model: [main] is followed up to the
    point where every task has been handed to the executor, and yields the
    tasks in the order of submission. *)
Module Batch.
Import PyStr Py Requests Client.
Local Open Scope py_scope.

(** [c.lower()] on a code point below 256: the capitals A..Z and the
    Latin-1 capitals 0xC0..0xDE except the multiplication sign. *)
Definition lower_char (c : ascii) : ascii :=
  let n := N_of_ascii c in
  if ((65 <=? n) && (n <=? 90)
      || (192 <=? n) && (n <=? 222) && negb (n =? 215))%N
  then ascii_of_N (n + 32)
  else c.

(** [s.lower()] *)
Fixpoint lower (s : string) : string :=
  match s with
  | EmptyString => EmptyString
  | String c s' => String (lower_char c) (lower s')
  end.

Definition supported_formats : list string :=
  [".jpg"; ".jpeg"; ".png"; ".bmp"; ".webp"].

(** [x in l] for a list of strings *)
Definition str_in (x : string) (l : list string) : bool :=
  existsb (String.eqb x) l.

(** The lines a text file yields when it is iterated: each line keeps its
    line feed, and the last one may have none. *)
Fixpoint file_lines (content : string) : list string :=
  match content with
  | EmptyString => []
  | String c rest =>
      if Ascii.eqb c LF then String LF EmptyString :: file_lines rest
      else match file_lines rest with
           | [] => [String c EmptyString]
           | line :: lines => String c line :: lines
           end
  end.

(** [[line.strip() for line in f if line.strip()]] *)
Definition questions_of (content : string) : list string :=
  map strip
    (List.filter (fun line => negb (String.eqb (strip line) EmptyString))
       (file_lines content)).

(** What [main] and [load_text_questions] do to the outside world before
    the tasks run. *)
Inductive host_ev : Type :=
  | Say (msg : string)
  | ReadText (path : string)
  | ListDir (path : string).

(** The machine the client runs on: [os.listdir], the decoded text of a
    file ([open(path, 'r', encoding='utf-8')] read to the end, with the
    line ends already translated to line feeds), and the platform's
    [os.path.join]. *)
Record Host : Type := MkHost {
  listdir : string -> outcome (list string);
  read_text : string -> outcome string;
  path_join : string -> string -> string
}.

(** A call handed to the executor: the request function ([request_fn] or
    [text_request_fn], synchronous or not) with its arguments. *)
Inductive task : Type :=
  | ImageTask (sync : bool) (image_path : string)
  | TextTask (sync : bool) (question : string) (question_index : nat).

(** [sys.exit(code)] *)
Definition SystemExit (code : Z) : exn := MkExn "SystemExit" (pretty code).

Definition is_read (ev : host_ev) : bool :=
  match ev with ReadText _ => true | _ => false end.

Definition is_listing (ev : host_ev) : bool :=
  match ev with ListDir _ => true | _ => false end.

Section WithHost.
Variable E : Env.
Variable H : Host.

Definition say (msg : string) : M host_ev unit := emit (Say msg).

Definition load_text_questions (text_file : string)
  : M host_ev (list string) :=
  try_except
    (let* content := call (ReadText text_file) (read_text H text_file) in
     ret (questions_of content))
    (fun e =>
       if String.eqb (exn_type e) "FileNotFoundError" then
         say ("Warning: Text questions file '" +:+ text_file
              +:+ "' not found") ;;
         ret []
       else
         say ("Error loading text questions from " +:+ text_file +:+ ": "
              +:+ exn_msg e) ;;
         ret []).

(** [os.path.splitext(f.lower())[1] in supported_formats] *)
Definition is_supported (f : string) : bool :=
  str_in (snd (splitext (path_seps E) (lower f))) supported_formats.

Definition mode_in (args : Args) (modes : list string) : bool :=
  str_in (mode args) modes.

(** The image discovery of [main]; [None] when the mode does not ask
    for images, in which case [image_files] is never bound. *)
Definition discover_images (args : Args) : M host_ev (option (list string)) :=
  if mode_in args ["image"; "both"] then
    let* names :=
      call (ListDir (image_folder args)) (listdir H (image_folder args)) in
    let image_files :=
      map (path_join H (image_folder args)) (List.filter is_supported names) in
    match image_files with
    | [] =>
        say ("No supported image files found in " +:+ image_folder args) ;;
        (if String.eqb (mode args) "image" then raise (SystemExit 1)
         else ret tt) ;;
        ret (Some image_files)
    | _ =>
        say ("Found " +:+ pretty (length image_files)
             +:+ " images to process") ;;
        ret (Some image_files)
    end
  else ret None.

Definition discover_questions (args : Args)
  : M host_ev (option (list string)) :=
  if mode_in args ["text"; "both"] then
    let* text_questions := load_text_questions (text_file args) in
    match text_questions with
    | [] =>
        say ("No text questions found in " +:+ text_file args) ;;
        (if String.eqb (mode args) "text" then raise (SystemExit 1)
         else ret tt) ;;
        ret (Some text_questions)
    | _ =>
        say ("Found " +:+ pretty (length text_questions)
             +:+ " text questions to process") ;;
        ret (Some text_questions)
    end
  else ret None.

(** The submissions of the [with ThreadPoolExecutor(...)] block. *)
Definition image_tasks (args : Args) (image_files : option (list string))
  : list task :=
  match image_files with
  | Some files =>
      if mode_in args ["image"; "both"] then map (ImageTask (sync args)) files
      else []
  | None => []
  end.

Definition text_tasks (args : Args) (text_questions : option (list string))
  : list task :=
  match text_questions with
  | Some questions =>
      if mode_in args ["text"; "both"]
      then imap (fun i question => TextTask (sync args) question i) questions
      else []
  | None => []
  end.

Definition main (args : Args) : M host_ev (list task) :=
  say ("Using endpoint ID: " +:+ endpoint_id args) ;;
  say ("Max concurrent requests: " +:+ pretty (concurrent args)) ;;
  say ("Processing mode: " +:+ mode args) ;;
  if String.eqb (endpoint_id args) "your-endpoint-id-here"
     || String.eqb (api_key args) "your-runpod-api-key-here"
  then
    say "ERROR: You must set your RunPod endpoint ID and API key" ;;
    say "You can do this in the script, via command line arguments, or environment variables:" ;;
    say "  RUNPOD_ENDPOINT_ID and RUNPOD_API_KEY" ;;
    raise (SystemExit 1)
  else
    let* image_files := discover_images args in
    let* text_questions := discover_questions args in
    (* ThreadPoolExecutor(max_workers=args.concurrent) *)
    if (concurrent args <=? 0)%Z then
      raise (MkExn "ValueError" "max_workers must be greater than 0")
    else
      ret (image_tasks args image_files ++ text_tasks args text_questions).

(** The file a task writes, and the request function it stands for. *)
Definition task_file (t : task) : string :=
  match t with
  | ImageTask _ image_path => caption_path E image_path
  | TextTask _ _ question_index => answer_path question_index
  end.

End WithHost.

(** ** Vocabulary for the statements *)

(** A line of a file has its only line feed, if any, at the end. *)
Definition line_shaped (line : string) : Prop :=
  exists body,
    has_char LF body = false
    /\ (line = body \/ line = body +:+ String LF EmptyString).

(** A question as [load_text_questions] returns it: not empty, without
    whitespace at either end, without a line feed. *)
Definition well_formed_question (q : string) : Prop :=
  q <> EmptyString /\ Observe.trimmed q /\ has_char LF q = false.

Definition valid_credentials (args : Args) : Prop :=
  endpoint_id args <> "your-endpoint-id-here"
  /\ api_key args <> "your-runpod-api-key-here".

(** ** Surroundings for the examples *)

(** A folder with two scans and a note, and a file of two questions
    between blank lines. *)
Definition ward : Host :=
  {| listdir := fun folder =>
       if String.eqb folder "xray"
       then Return ["chest.JPG"; "notes.txt"; "hand.png"]
       else Raise (MkExn "FileNotFoundError" "No such file or directory");
     read_text := fun path =>
       if String.eqb path "questions.txt"
       then Return ("What is flu?" +:+ Client.NL +:+ "   " +:+ Client.NL
                    +:+ "  Is it contagious? " +:+ Client.NL)
       else Raise (MkExn "FileNotFoundError" "No such file or directory");
     path_join := fun folder f => folder +:+ "/" +:+ f |}.

Definition placeholder_args : Args :=
  {| image_folder := "xray"; text_file := "questions.txt"; mode := "both";
     endpoint_id := "your-endpoint-id-here"; api_key := "key";
     concurrent := 5; sync := false |}.

Definition args_with (m : string) (workers : Z) (file : string) : Args :=
  {| image_folder := "xray"; text_file := file; mode := m;
     endpoint_id := "ep1"; api_key := "key";
     concurrent := workers; sync := false |}.

End Batch.

(* ===================================================================== *)
(** * Facts about the string operations *)
(* ===================================================================== *)

Module PyStrFacts.
Import PyStr.

Lemma has_char_replace a b s :
  a <> b -> has_char a (replace a b s) = false.
Proof.
  intros Hab. induction s as [|c s IH]; simpl; [reflexivity|].
  rewrite IH, orb_false_r.
  destruct (Ascii.eqb c a) eqn:Hc.
  - apply Ascii.eqb_neq. congruence.
  - exact Hc.
Qed.

Lemma has_char_lstrip c s :
  has_char c s = false -> has_char c (lstrip s) = false.
Proof.
  induction s as [|c' s IH]; simpl; [reflexivity|].
  intros H. apply orb_false_iff in H as [H1 H2].
  destruct (py_isspace c'); [auto|]. simpl. now rewrite H1, H2.
Qed.

Lemma has_char_rstrip c s :
  has_char c s = false -> has_char c (rstrip s) = false.
Proof.
  induction s as [|c' s IH]; simpl; [reflexivity|].
  intros H. apply orb_false_iff in H as [H1 H2].
  specialize (IH H2).
  destruct (rstrip s) as [|c'' r].
  - destruct (py_isspace c'); simpl; [reflexivity|]. now rewrite H1.
  - simpl. rewrite H1. exact IH.
Qed.

Lemma has_char_strip c s :
  has_char c s = false -> has_char c (strip s) = false.
Proof. intros H. unfold strip. now apply has_char_rstrip, has_char_lstrip. Qed.

(** The cleaning step of both generation functions never leaves a line
    feed behind. *)
Lemma single_line s : has_char LF (strip (replace LF SP s)) = false.
Proof. apply has_char_strip, has_char_replace. discriminate. Qed.

Lemma lstrip_all_space s : all_chars py_isspace s = true -> lstrip s = EmptyString.
Proof.
  induction s as [|c s IH]; simpl; [reflexivity|].
  intros H. apply andb_true_iff in H as [H1 H2]. rewrite H1. auto.
Qed.

Lemma strip_blank s : all_chars py_isspace s = true -> strip s = EmptyString.
Proof. intros H. unfold strip. now rewrite lstrip_all_space. Qed.

Lemma rstrip_empty s : rstrip s = EmptyString -> all_chars py_isspace s = true.
Proof.
  induction s as [|c s IH]; simpl; [reflexivity|].
  destruct (rstrip s) as [|c' r]; [|discriminate].
  destruct (py_isspace c); [|discriminate]. intros _. now rewrite IH.
Qed.

Lemma lstrip_suffix_blank s :
  all_chars py_isspace (lstrip s) = true -> all_chars py_isspace s = true.
Proof.
  induction s as [|c s IH]; simpl; [reflexivity|].
  destruct (py_isspace c) eqn:Hc; simpl; [auto|]. now rewrite Hc.
Qed.

(** [not s.strip()] holds exactly for the empty and the whitespace-only
    strings. *)
Lemma strip_empty_iff s :
  strip s = EmptyString <-> all_chars py_isspace s = true.
Proof.
  split; [|apply strip_blank].
  intros H. now apply lstrip_suffix_blank, rstrip_empty.
Qed.

Lemma app_cons c a b : String c a +:+ b = String c (a +:+ b).
Proof. reflexivity. Qed.

Lemma app_empty_r s : s +:+ EmptyString = s.
Proof. induction s as [|c s IH]; [reflexivity|]. now rewrite app_cons, IH. Qed.

Lemma take_drop n s : take n s +:+ drop n s = s.
Proof.
  revert s; induction n as [|n IH]; intros [|c s]; try reflexivity.
  simpl take; simpl drop. now rewrite app_cons, IH.
Qed.

(** The two halves returned by [splitext] always rebuild the path. *)
Lemma splitext_join seps p :
  fst (splitext seps p) +:+ snd (splitext seps p) = p.
Proof.
  unfold splitext.
  destruct (rfind is_dot p) as [d|]; simpl.
  - match goal with |- context [if ?b then _ else _] => destruct b end; simpl.
    + apply take_drop.
    + apply app_empty_r.
  - apply app_empty_r.
Qed.

Lemma drop_rfind p s i :
  rfind p s = Some i -> exists c r, drop i s = String c r /\ p c = true.
Proof.
  revert i; induction s as [|c s IH]; simpl; intros i; [discriminate|].
  destruct (rfind p s) as [j|] eqn:Hj.
  - intros [= <-]. simpl. now apply IH.
  - destruct (p c) eqn:Hc; [|discriminate].
    intros [= <-]. simpl. eauto.
Qed.

(** A non-empty extension starts with the dot. *)
Lemma splitext_ext seps p :
  snd (splitext seps p) = EmptyString
  \/ exists r, snd (splitext seps p) = String "."%char r.
Proof.
  unfold splitext.
  destruct (rfind is_dot p) as [d|] eqn:Hd; simpl; [|now left].
  match goal with |- context [if ?b then _ else _] => destruct b end; simpl;
    [|now left].
  right. destruct (drop_rfind _ _ _ Hd) as (c & r & -> & Hc).
  unfold is_dot in Hc. apply Ascii.eqb_eq in Hc. subst c. eauto.
Qed.

Lemma app_assoc_str a b c : (a +:+ b) +:+ c = a +:+ (b +:+ c).
Proof.
  induction a as [|x a IH]; [reflexivity|]. now rewrite !app_cons, IH.
Qed.

Lemma has_char_app c a b :
  has_char c (a +:+ b) = has_char c a || has_char c b.
Proof.
  induction a as [|x a IH]; [reflexivity|].
  rewrite app_cons. simpl. now rewrite IH, orb_assoc.
Qed.

(** Splitting at the first separator: the piece before it comes first. *)
Lemma split_app sep a b :
  has_char sep a = false ->
  split sep (a +:+ String sep b) = a :: split sep b.
Proof.
  induction a as [|c a IH]; intros Ha.
  - change (EmptyString +:+ String sep b) with (String sep b).
    simpl. now rewrite Ascii.eqb_refl.
  - simpl in Ha. apply orb_false_iff in Ha as [Hc Ha].
    rewrite app_cons. simpl. rewrite Hc, (IH Ha). reflexivity.
Qed.

Lemma split_no_sep sep s : has_char sep s = false -> split sep s = [s].
Proof.
  induction s as [|c s IH]; intros Hs; [reflexivity|].
  simpl in Hs. apply orb_false_iff in Hs as [Hc Hs].
  simpl. now rewrite Hc, (IH Hs).
Qed.

(** [s.split(",")[1]] on a string with one comma is what follows it. *)
Lemma split_second sep a b :
  has_char sep a = false -> has_char sep b = false ->
  split sep (a +:+ String sep b) !! 1%nat = Some b.
Proof.
  intros Ha Hb. now rewrite (split_app _ _ _ Ha), (split_no_sep _ _ Hb).
Qed.

Lemma prefix_app p s : String.prefix p (p +:+ s) = true.
Proof.
  induction p as [|c p IH]; [now destruct s|].
  rewrite app_cons. simpl. destruct (ascii_dec c c); [exact IH|congruence].
Qed.

Lemma prefix_first c p d s :
  String.prefix (String c p) (String d s) = true -> c = d.
Proof. simpl. now destruct (ascii_dec c d). Qed.

End PyStrFacts.

(* ===================================================================== *)
(** * Laws of the effect monad *)
(* ===================================================================== *)

Module PyFacts.
Import Py.

Section Laws.
Context {Ev : Type}.
Implicit Types ev : Ev.

Lemma bind_ret {A B} (a : A) (k : A -> M Ev B) : bind (ret a) k = k a.
Proof. unfold bind, ret. now destruct (k a). Qed.

Lemma bind_lift_return {A B} (a : A) (k : A -> M Ev B) :
  bind (lift (Return a)) k = k a.
Proof. apply bind_ret. Qed.

(** [all_events] follows the structure of the code. *)
Section AllEvents.
Variable P : Ev -> Prop.

Lemma all_ret {A} (a : A) : all_events P (ret a).
Proof. constructor. Qed.

Lemma all_raise {A} e : all_events P (@raise Ev A e).
Proof. constructor. Qed.

Lemma all_lift {A} (o : outcome A) : all_events P (@lift Ev A o).
Proof. constructor. Qed.

Lemma all_emit ev : P ev -> all_events P (emit ev).
Proof. intros H. repeat constructor. exact H. Qed.

Lemma all_call {A} ev (o : outcome A) : P ev -> all_events P (call ev o).
Proof. intros H. repeat constructor. exact H. Qed.

Lemma all_bind {A B} (m : M Ev A) (k : A -> M Ev B) :
  all_events P m -> (forall a, all_events P (k a)) ->
  all_events P (bind m k).
Proof.
  unfold all_events, bind, events. destruct m as [tr [a|e]]; simpl.
  - intros Hm Hk. specialize (Hk a). destruct (k a) as [tr' r]. simpl in *.
    apply Forall_app. now split.
  - now intros Hm _.
Qed.

Lemma all_try_except {A} (m : M Ev A) (h : exn -> M Ev A) :
  all_events P m -> (forall e, all_events P (h e)) ->
  all_events P (try_except m h).
Proof.
  unfold all_events, try_except, events. destruct m as [tr [a|e]]; simpl.
  - now intros Hm _.
  - intros Hm Hh. specialize (Hh e). destruct (h e) as [tr' r]. simpl in *.
    apply Forall_app. now split.
Qed.
End AllEvents.

End Laws.

End PyFacts.

(* ===================================================================== *)
(** * Properties of the serverless worker *)
(* ===================================================================== *)

Module HandlerSpec.
Import PyStr Py Requests Handler PyStrFacts PyFacts.
Local Open Scope py_scope.

(** ** The branches of the handler, run *)

Lemma caption_image_run E img prompt tokens :
  caption_image E img prompt tokens =
    ([Generate [TextPart prompt; ImagePart img] tokens],
     Return
       match model_generate E [TextPart prompt; ImagePart img] tokens with
       | Return caption => strip (replace LF SP caption)
       | Raise e => error_text E "image" e
       end).
Proof.
  unfold caption_image, generate, try_except, bind, call, ret.
  now destruct (model_generate E _ tokens).
Qed.

Lemma process_text_question_run E s prompt tokens :
  process_text_question E s prompt tokens =
    ([Generate (question_content E s prompt) tokens],
     Return
       match model_generate E (question_content E s prompt) tokens with
       | Return response => strip (replace LF SP response)
       | Raise e => error_text E "text" e
       end).
Proof.
  unfold process_text_question, question_content, generate, try_except,
    bind, call, ret.
  now destruct (model_generate E _ tokens).
Qed.

Lemma handle_text_blank E s prompt tokens :
  all_chars py_isspace s = true ->
  handle_text E (VStr s) prompt tokens = ([], Return (error_result invalid_text_error)).
Proof. intros H. unfold handle_text. now rewrite (strip_blank _ H). Qed.

Lemma handle_text_run E s prompt tokens :
  all_chars py_isspace s = false ->
  handle_text E (VStr s) prompt tokens =
    ([Generate (question_content E s prompt) tokens],
     Return
       (text_result
          match model_generate E (question_content E s prompt) tokens with
          | Return response => strip (replace LF SP response)
          | Raise e => error_text E "text" e
          end)).
Proof.
  intros H. unfold handle_text.
  destruct (String.eqb (strip s) EmptyString) eqn:Hs.
  - apply String.eqb_eq, strip_empty_iff in Hs. congruence.
  - now rewrite process_text_question_run.
Qed.

Lemma handle_image_run E image_input prompt tokens :
  handle_image E image_input prompt tokens =
    match decode_image E image_input with
    | (tr, Raise e) => (tr, Return (decode_error_result E e))
    | (tr, Return None) => (tr, Return (error_result invalid_image_error))
    | (tr, Return (Some img)) =>
        match convert_rgb E img with
        | Raise e => (tr ++ [ConvertRGB img], Return (decode_error_result E e))
        | Return rgb =>
            (tr ++ [ConvertRGB img;
                    Generate [TextPart prompt; ImagePart rgb] tokens],
             Return
               (image_result
                  match model_generate E [TextPart prompt; ImagePart rgb] tokens with
                  | Return caption => strip (replace LF SP caption)
                  | Raise e => error_text E "image" e
                  end))
        end
    end.
Proof.
  unfold handle_image.
  destruct (decode_image E image_input) as [tr [[img|]|e]]; simpl.
  - destruct (convert_rgb E img) as [rgb|e]; simpl.
    + rewrite caption_image_run. simpl. now rewrite ?app_nil_r.
    + now rewrite ?app_nil_r.
  - now rewrite ?app_nil_r.
  - now rewrite ?app_nil_r.
Qed.

(** The handler on a job whose input is a dictionary: the text branch is
    tested first, then the image branch. *)
Lemma handler_on_dict E j d :
  j !! "input" = Some (VDict d) ->
  handler E (VDict j) =
    match d !! "text" with
    | Some text_input => handle_text E text_input (prompt_of E d) (tokens_of E d)
    | None =>
        match d !! "image" with
        | Some image_input =>
            handle_image E image_input (prompt_of E d) (tokens_of E d)
        | None => ([], Return (error_result no_input_error))
        end
    end.
Proof.
  intros Hj. unfold handler, prompt_of, tokens_of.
  cbn [py_getitem]. rewrite Hj, bind_lift_return.
  cbn [py_in py_get py_getitem].
  destruct (d !! "image") as [i|] eqn:Hi, (d !! "text") as [t|] eqn:Ht;
    repeat (rewrite ?bind_lift_return, ?bind_ret; cbn [negb]);
    reflexivity.
Qed.

(** A returned value without a [caption] key is not an image result. *)
Lemma caption_of_image_result c : caption_of (image_result c) = Some (VStr c).
Proof. reflexivity. Qed.

Lemma not_image_result v c :
  caption_of v = None -> @Return pyval v <> Return (image_result c).
Proof.
  intros Hv H.
  apply (f_equal (fun o => match o with
                           | Return v => caption_of v
                           | Raise _ => None
                           end)) in H.
  change (caption_of v = caption_of (image_result c)) in H.
  rewrite Hv, caption_of_image_result in H. discriminate H.
Qed.

Lemma all_chars_cases s :
  all_chars py_isspace s = true \/ all_chars py_isspace s = false.
Proof. destruct (all_chars py_isspace s); auto. Qed.

(** ** Validation *)

(** C6: a job input dictionary with neither an [image] nor a [text] key is
    answered with the fixed error dictionary, and the run makes no external
    call at all, so no generation. *)
Theorem C6_neither_image_nor_text E j d :
  j !! "input" = Some (VDict d) ->
  d !! "image" = None ->
  d !! "text" = None ->
  result (handler E (VDict j)) =
    Return (VDict {[ "error" :=
      VStr "No image or text provided in input. Please provide either 'image' or 'text' field." ]})
  /\ events (handler E (VDict j)) = [].
Proof.
  intros Hj Hi Ht. rewrite (handler_on_dict E j d Hj), Ht, Hi. now split.
Qed.

Lemma C6_neither_image_nor_text_witness :
  events (handler (Examples.worker Examples.two_lines)
            (job_of (VDict {[ "prompt" := VStr "Describe." ]}))) = [].
Proof.
  exact (proj2 (C6_neither_image_nor_text (Examples.worker Examples.two_lines)
                  {[ "input" := VDict {[ "prompt" := VStr "Describe." ]} ]}
                  {[ "prompt" := VStr "Describe." ]}
                  eq_refl eq_refl eq_refl)).
Defined.

(** C7: a job whose [text] is the empty string or consists of whitespace
    only is answered with the validation error dictionary; the handler
    returns it (nothing is raised) and the model is never called. *)
Theorem C7_blank_text_is_rejected E j d s :
  j !! "input" = Some (VDict d) ->
  d !! "text" = Some (VStr s) ->
  all_chars py_isspace s = true ->
  result (handler E (VDict j)) =
    Return (VDict {[ "error" :=
      VStr "Invalid text input. Please provide a non-empty string." ]})
  /\ events (handler E (VDict j)) = [].
Proof.
  intros Hj Ht Hs. rewrite (handler_on_dict E j d Hj), Ht.
  rewrite (handle_text_blank E s _ _ Hs). now split.
Qed.

Lemma C7_blank_text_is_rejected_witness :
  events (handler (Examples.worker Examples.two_lines)
            (job_of (VDict {[ "text" := VStr "   " ]}))) = [].
Proof.
  exact (proj2 (C7_blank_text_is_rejected (Examples.worker Examples.two_lines)
                  {[ "input" := VDict {[ "text" := VStr "   " ]} ]}
                  {[ "text" := VStr "   " ]} "   "
                  eq_refl eq_refl eq_refl)).
Defined.

(** ** Which branch runs *)

(** C1, as stated, fails: on an input with both fields the worker of the
    examples answers the question and returns a text result, not an image
    result, and never touches the image. *)
Lemma C1_image_precedence_counterexample :
  is_Some (Examples.both_fields !! "image")
  /\ is_Some (Examples.both_fields !! "text")
  /\ handler (Examples.worker Examples.two_lines)
              (job_of (VDict Examples.both_fields)) =
       ([Generate
           [TextPart (VStr (default_caption_prompt +:+ NL +:+ NL
                            +:+ "What is asthma?"))]
           (VInt 256)],
        Return (text_result "No acute findings. Review in six months."))
  /\ forall caption,
       result (handler (Examples.worker Examples.two_lines)
                 (job_of (VDict Examples.both_fields)))
       <> Return (image_result caption).
Proof.
  assert (Hrun : handler (Examples.worker Examples.two_lines)
                   (job_of (VDict Examples.both_fields)) =
                 ([Generate
                     [TextPart (VStr (default_caption_prompt +:+ NL +:+ NL
                                      +:+ "What is asthma?"))]
                     (VInt 256)],
                  Return (text_result "No acute findings. Review in six months.")))
    by (vm_compute; reflexivity).
  split; [now exists (VStr "scan.png")|].
  split; [now exists (VStr "What is asthma?")|].
  split; [exact Hrun|].
  intros caption. rewrite Hrun. now apply not_image_result.
Qed.

(** C1, amended: when the input carries both [image] and [text], the text
    branch runs.  The handler is the text branch on the [text] value; its
    result is the text validation error or a text result, never an image
    result; and the only external call it can make is one generation
    call. *)
Theorem C1_text_takes_precedence E j d text_input :
  j !! "input" = Some (VDict d) ->
  d !! "text" = Some text_input ->
  is_Some (d !! "image") ->
  handler E (VDict j) = handle_text E text_input (prompt_of E d) (tokens_of E d)
  /\ (result (handler E (VDict j)) = Return (error_result invalid_text_error)
      \/ exists response,
           result (handler E (VDict j)) = Return (text_result response))
  /\ (forall caption,
        result (handler E (VDict j)) <> Return (image_result caption))
  /\ (events (handler E (VDict j)) = []
      \/ exists content,
           events (handler E (VDict j)) = [Generate content (tokens_of E d)]).
Proof.
  intros Hj Ht _. rewrite (handler_on_dict E j d Hj), Ht.
  split; [reflexivity|].
  destruct text_input as [| | | |s| |];
    try (cbn [handle_text ret result events fst snd];
         split; [now left|]; split; [|now left];
         intros c; now apply not_image_result).
  destruct (all_chars_cases s) as [Hs|Hs].
  - rewrite (handle_text_blank E s _ _ Hs).
    cbn [result events fst snd].
    split; [now left|]. split; [|now left].
    intros c. now apply not_image_result.
  - rewrite (handle_text_run E s _ _ Hs).
    cbn [result events fst snd].
    split; [right; eauto|]. split; [|right; eauto].
    intros c. now apply not_image_result.
Qed.

Lemma C1_text_takes_precedence_witness :
  handler (Examples.worker Examples.two_lines)
    (job_of (VDict Examples.both_fields))
  = handle_text (Examples.worker Examples.two_lines) (VStr "What is asthma?")
      (VStr default_caption_prompt) (VInt 256).
Proof.
  exact (proj1
           (C1_text_takes_precedence (Examples.worker Examples.two_lines)
              {[ "input" := VDict Examples.both_fields ]}
              Examples.both_fields (VStr "What is asthma?")
              eq_refl eq_refl
              (ex_intro _ (VStr "scan.png") eq_refl))).
Defined.

(** ** Prompt resolution *)

(** The single external call of a text job, with the prompt the handler
    resolved. *)
Lemma text_job_events E j d s :
  j !! "input" = Some (VDict d) ->
  d !! "text" = Some (VStr s) ->
  all_chars py_isspace s = false ->
  events (handler E (VDict j)) =
    [Generate (question_content E s (prompt_of E d)) (tokens_of E d)].
Proof.
  intros Hj Ht Hs. rewrite (handler_on_dict E j d Hj), Ht.
  now rewrite (handle_text_run E s _ _ Hs).
Qed.

(** An explicit [prompt] that Python counts as true is the one used. *)
Lemma explicit_prompt_is_used E j d s p :
  j !! "input" = Some (VDict d) ->
  d !! "text" = Some (VStr s) ->
  all_chars py_isspace s = false ->
  d !! "prompt" = Some p ->
  truthy p = true ->
  events (handler E (VDict j)) =
    [Generate [TextPart (VStr (fmt E p +:+ NL +:+ NL +:+ s))] (tokens_of E d)].
Proof.
  intros Hj Ht Hs Hp Hp'. rewrite (text_job_events E j d s Hj Ht Hs).
  unfold question_content, prompt_of. now rewrite Hp, Hp'.
Qed.

(** Without a [prompt] field the handler passes [CAPTION_PROMPT] on, and
    unless that is empty the text question is asked under it. *)
Lemma missing_prompt_falls_back_to_caption_prompt E j d s :
  j !! "input" = Some (VDict d) ->
  d !! "text" = Some (VStr s) ->
  all_chars py_isspace s = false ->
  d !! "prompt" = None ->
  CAPTION_PROMPT E <> EmptyString ->
  events (handler E (VDict j)) =
    [Generate [TextPart (VStr (CAPTION_PROMPT E +:+ NL +:+ NL +:+ s))]
              (tokens_of E d)].
Proof.
  intros Hj Ht Hs Hp Hne. rewrite (text_job_events E j d s Hj Ht Hs).
  unfold question_content, prompt_of. rewrite Hp. simpl truthy.
  destruct (String.eqb (CAPTION_PROMPT E) EmptyString) eqn:Hc.
  - now apply String.eqb_eq in Hc.
  - reflexivity.
Qed.

(** C3, evaluated at a text-only job without [prompt], on any worker
    started with the default configuration of the caption prompt: the
    model is asked under the image-captioning prompt, which is not the
    text-specific default of [process_text_question]. *)
Theorem C3_text_job_runs_under_caption_prompt :
  forall tokens b64 opener path_opener getter converter model tracer printer,
    events
      (handler
         (MkEnv default_caption_prompt tokens b64 opener path_opener getter
                converter model tracer printer)
         (job_of (VDict Examples.text_only))) =
      [Generate
         [TextPart (VStr (default_caption_prompt +:+ NL +:+ NL
                          +:+ "What is hypertension?"))]
         (VInt tokens)]
    /\ default_caption_prompt <> text_default_prompt.
Proof.
  intros. split; [|discriminate].
  unfold job_of.
  apply (missing_prompt_falls_back_to_caption_prompt
           (MkEnv default_caption_prompt tokens b64 opener path_opener getter
                  converter model tracer printer)
           {[ "input" := VDict Examples.text_only ]}
           Examples.text_only "What is hypertension?");
    [reflexivity | reflexivity | reflexivity | reflexivity | discriminate].
Qed.

(** ** Image decoding *)

Lemma open_base64_ok E s raw img :
  b64decode E s = Return raw -> image_open E raw = Return img ->
  open_base64 E s = ([B64Decode s; ImageOpen raw], Return img).
Proof.
  intros Hb Ho. unfold open_base64, bind, call. now rewrite Hb, Ho.
Qed.

Lemma open_base64_fails E s :
  ~ opens_as_base64 E s -> exists tr e, open_base64 E s = (tr, Raise e).
Proof.
  intros Hn. unfold open_base64, bind, call.
  destruct (b64decode E s) as [raw|e] eqn:Hb; [|eauto].
  destruct (image_open E raw) as [img|e] eqn:Ho; [|eauto].
  exfalso. apply Hn. now exists raw, img.
Qed.

Lemma open_url_ok E s r img :
  requests_get E s = Return r -> raise_for_status s r = Return tt ->
  image_open E (content r) = Return img ->
  open_url E s = ([RequestsGet s; ImageOpen (content r)], Return img).
Proof.
  intros Hg Hs Ho. unfold open_url, bind, call, lift.
  now rewrite Hg, Hs, Ho.
Qed.

Lemma url_not_data_uri s :
  startswith_any url_schemes s = true -> startswith "data:image" s = false.
Proof.
  unfold startswith_any, url_schemes, startswith. simpl existsb.
  destruct s as [|c s]; [discriminate|].
  intros H. apply orb_true_iff in H as [H|H].
  - apply prefix_first in H. subst c. reflexivity.
  - apply orb_true_iff in H as [H|H]; [|discriminate].
    apply prefix_first in H. subst c. reflexivity.
Qed.

Lemma data_uri_second_piece header payload :
  has_char ","%char header = false ->
  has_char ","%char payload = false ->
  split ","%char ("data:image" +:+ header +:+ "," +:+ payload) !! 1%nat
  = Some payload.
Proof.
  intros Hh Hp.
  change ("data:image" +:+ header +:+ "," +:+ payload)
    with ("data:image" +:+ (header +:+ String ","%char payload)).
  rewrite <- app_assoc_str. apply split_second; [|exact Hp].
  rewrite has_char_app, Hh. reflexivity.
Qed.

(** Every string of [accepted_image] is decoded by the cascade, into an
    image that converts to RGB. *)
Lemma accepted_image_decodes E s :
  accepted_image E s ->
  exists tr img,
    decode_image E (VStr s) = (tr, Return (Some img)) /\ to_rgb E img.
Proof.
  intros [Huri | [Hb64 | [Hurl | Hpath]]].
  - destruct Huri as (header & payload & -> & Hh & Hp & raw & img & Hb & Ho & Hrgb).
    exists [B64Decode payload; ImageOpen raw], img. split; [|exact Hrgb].
    unfold decode_image. unfold startswith at 1. rewrite prefix_app.
    unfold list_index. rewrite (data_uri_second_piece _ _ Hh Hp).
    rewrite bind_lift_return.
    now rewrite (open_base64_ok E payload raw img Hb Ho).
  - destruct Hb64 as ((raw & img & Hb & Ho & Hrgb) & Hd & Hlen).
    exists [B64Decode s; ImageOpen raw], img. split; [|exact Hrgb].
    unfold decode_image. rewrite Hd.
    apply Nat.ltb_lt in Hlen. rewrite Hlen.
    now rewrite (open_base64_ok E s raw img Hb Ho).
  - destruct Hurl as ((Hu & r & img & Hg & Hs & Ho & Hrgb) & Hlen).
    pose proof (open_url_ok E s r img Hg Hs Ho) as Hopen.
    unfold decode_image. rewrite (url_not_data_uri s Hu).
    destruct (100 <? String.length s)%nat eqn:Hl.
    + destruct Hlen as [Hlen|Hn]; [apply Nat.ltb_lt in Hl; lia|].
      destruct (open_base64_fails E s Hn) as (tr & e & Hf).
      exists (tr ++ [RequestsGet s; ImageOpen (content r)]), img.
      split; [|exact Hrgb].
      rewrite Hf. unfold try_except. rewrite Hu, Hopen.
      unfold bind, ret. now rewrite app_nil_r.
    + exists [RequestsGet s; ImageOpen (content r)], img.
      split; [|exact Hrgb]. now rewrite Hu, Hopen.
  - destruct Hpath as ((img & Ho & Hrgb) & Hd & Hu & Hlen).
    unfold decode_image. rewrite Hd.
    destruct (100 <? String.length s)%nat eqn:Hl.
    + destruct Hlen as [Hlen|Hn]; [apply Nat.ltb_lt in Hl; lia|].
      destruct (open_base64_fails E s Hn) as (tr & e & Hf).
      exists (tr ++ [ImageOpenPath s]), img. split; [|exact Hrgb].
      rewrite Hf. unfold try_except. rewrite Hu.
      unfold open_path, call, bind, ret. rewrite Ho. now rewrite app_nil_r.
    + exists [ImageOpenPath s], img. split; [|exact Hrgb].
      rewrite Hu. unfold open_path, call, bind, ret. now rewrite Ho.
Qed.

Lemma gif_base64_decodes :
  Examples.base64_decode Examples.gif_base64 = Some Examples.gif_bytes.
Proof. vm_compute. reflexivity. Qed.

(** C4, as stated, fails twice.  On a worker whose model answers, the
    base64 text of a one-pixel GIF (56 characters) is well formed, yet it
    is taken for a file path and the job ends in an error result.  On a
    worker whose model raises, the existing file [scan.png] is well
    formed, yet the caption returned is the error text, which contains a
    line feed. *)
Lemma C4_well_formed_image_counterexample :
  (well_formed_image (Examples.worker Examples.two_lines) Examples.gif_base64
   /\ image_job (Examples.image_only Examples.gif_base64) Examples.gif_base64
   /\ forall caption,
        result (handler (Examples.worker Examples.two_lines)
                  (job_of (VDict (Examples.image_only Examples.gif_base64))))
        <> Return (image_result caption))
  /\ (well_formed_image (Examples.worker Examples.out_of_memory) "scan.png"
      /\ image_job (Examples.image_only "scan.png") "scan.png"
      /\ exists caption,
           result (handler (Examples.worker Examples.out_of_memory)
                     (job_of (VDict (Examples.image_only "scan.png"))))
           = Return (image_result caption)
           /\ has_char LF caption = true).
Proof.
  split; split.
  - right; left. exists Examples.gif_bytes, Examples.pixel.
    split; [reflexivity|]. split; [reflexivity|]. now eexists.
  - split; [now split|].
    intros caption.
    assert (Hrun :
      result (handler (Examples.worker Examples.two_lines)
                (job_of (VDict (Examples.image_only Examples.gif_base64))))
      = Return (decode_error_result (Examples.worker Examples.two_lines)
                  (MkExn "FileNotFoundError"
                     ("[Errno 2] No such file or directory: '"
                      +:+ Examples.gif_base64 +:+ "'"))))
      by (vm_compute; reflexivity).
    rewrite Hrun. now apply not_image_result.
  - right; right; right. exists Examples.xray. split; [reflexivity|].
    now eexists.
  - split; [now split|].
    eexists. split; [vm_compute; reflexivity|]. vm_compute. reflexivity.
Qed.

(** C4, amended: for an image job (no [text] field) whose image string the
    detection cascade accepts, and for which generation returns normally
    (the model returns a text for the RGB conversion of the image the
    cascade decoded from this string, under the job's prompt and token
    limit; nothing is asked of the model on any other image), the handler
    returns a dictionary with [input_type] equal to ["image"] and a
    [caption] string without a line feed. *)
Theorem C4_image_job_caption_single_line E j d s :
  j !! "input" = Some (VDict d) ->
  image_job d s ->
  accepted_image E s ->
  (forall img rgb,
      result (decode_image E (VStr s)) = Return (Some img) ->
      convert_rgb E img = Return rgb ->
      exists text,
        model_generate E [TextPart (prompt_of E d); ImagePart rgb] (tokens_of E d)
        = Return text) ->
  exists r caption,
    result (handler E (VDict j)) = Return (VDict r)
    /\ r !! "input_type" = Some (VStr "image")
    /\ r !! "caption" = Some (VStr caption)
    /\ has_char LF caption = false.
Proof.
  intros Hj [Hi Ht] Hacc Hgen.
  destruct (accepted_image_decodes E s Hacc) as (tr & img & Hdec & rgb & Hrgb).
  destruct (Hgen img rgb) as (text & Htext);
    [now rewrite Hdec | exact Hrgb |].
  rewrite (handler_on_dict E j d Hj), Ht, Hi, handle_image_run, Hdec, Hrgb, Htext.
  eexists _, (strip (replace LF SP text)).
  split; [reflexivity|]. split; [reflexivity|]. split; [reflexivity|].
  apply single_line.
Qed.

Lemma C4_image_job_caption_single_line_witness :
  exists r caption,
    result (handler (Examples.worker Examples.two_lines)
              (job_of (VDict (Examples.image_only "scan.png"))))
    = Return (VDict r)
    /\ r !! "input_type" = Some (VStr "image")
    /\ r !! "caption" = Some (VStr caption)
    /\ has_char LF caption = false.
Proof.
  apply (C4_image_job_caption_single_line
           (Examples.worker Examples.two_lines)
           {[ "input" := VDict (Examples.image_only "scan.png") ]}
           (Examples.image_only "scan.png") "scan.png").
  - reflexivity.
  - split; reflexivity.
  - right; right; right.
    split; [exists Examples.xray; split; [reflexivity|now eexists]|].
    split; [reflexivity|]. split; [reflexivity|].
    left. simpl. lia.
  - intros img rgb _ _. eexists. reflexivity.
Defined.

(** ** Exceptions *)

(** Decoding never calls the model. *)
Lemma decode_image_calls E image_input :
  all_events (fun ev => is_generate ev = false) (decode_image E image_input).
Proof.
  assert (Hb64 : forall data,
             all_events (fun ev => is_generate ev = false) (open_base64 E data)).
  { intros data. apply all_bind; [now apply all_call|].
    intros raw. now apply all_call. }
  assert (Hurl : forall url,
             all_events (fun ev => is_generate ev = false) (open_url E url)).
  { intros url. apply all_bind; [now apply all_call|].
    intros r. apply all_bind; [apply all_lift|].
    intros _. now apply all_call. }
  assert (Hpath : forall path,
             all_events (fun ev => is_generate ev = false) (open_path E path))
    by (intros path; now apply all_call).
  destruct image_input as [| | | |s| |]; try apply all_ret.
  unfold decode_image.
  destruct (startswith "data:image" s).
  { apply all_bind; [apply all_lift|]. intros data.
    apply all_bind; [apply Hb64|]. intros img. apply all_ret. }
  destruct (100 <? String.length s)%nat.
  { apply all_bind; [|intros img; apply all_ret].
    apply all_try_except; [apply Hb64|].
    intros _. destruct (startswith_any url_schemes s); auto. }
  destruct (startswith_any url_schemes s);
    (apply all_bind; [auto|intros img; apply all_ret]).
Qed.

Lemma generate_not_in_decode E image_input content tokens :
  ~ In (Generate content tokens) (events (decode_image E image_input)).
Proof.
  intros Hin.
  pose proof (decode_image_calls E image_input) as Hall.
  unfold all_events in Hall. rewrite Forall_forall in Hall.
  apply list_elem_of_In, Hall in Hin. discriminate Hin.
Qed.

(** C5: on a job whose [input] is a dictionary the handler returns a
    dictionary; it never ends in a raised exception.  An exception raised
    while the image is decoded or converted comes back as a result with
    the descriptive [error] string and the formatted [traceback]; an
    exception raised by generation comes back inside the result, as the
    text [Error processing image|text: <message>], a line feed and the
    formatted traceback. *)
Theorem C5_handler_returns_and_reports_exceptions E j d :
  j !! "input" = Some (VDict d) ->
  (exists r, result (handler E (VDict j)) = Return (VDict r))
  /\ (forall image_input e,
        d !! "text" = None ->
        d !! "image" = Some image_input ->
        result (decode_image E image_input) = Raise e
        \/ (exists img,
              result (decode_image E image_input) = Return (Some img)
              /\ convert_rgb E img = Raise e) ->
        result (handler E (VDict j)) =
          Return (VDict (<[ "error" := VStr ("Error processing image: "
                                             +:+ exn_msg e) ]>
                         {[ "traceback" := VStr (format_exc E e) ]})))
  /\ (forall content tokens e,
        In (Generate content tokens) (events (handler E (VDict j))) ->
        model_generate E content tokens = Raise e ->
        result (handler E (VDict j)) =
          Return (image_result
                    ("Error processing image: " +:+ exn_msg e +:+ NL
                     +:+ format_exc E e))
        \/ result (handler E (VDict j)) =
             Return (text_result
                       ("Error processing text: " +:+ exn_msg e +:+ NL
                        +:+ format_exc E e))).
Proof.
  intros Hj. rewrite (handler_on_dict E j d Hj).
  destruct (d !! "text") as [text_input|] eqn:Ht.
  - (* the text branch *)
    assert (Hother :
      forall r : M call_ev pyval,
        r = ([], Return (error_result invalid_text_error)) ->
        (exists m, result r = Return (VDict m))
        /\ (forall content tokens, ~ In (Generate content tokens) (events r))).
    { intros r ->. split; [now eexists|]. intros ? ? []. }
    destruct text_input as [| | | |s| |];
      try (destruct (Hother _ eq_refl) as [H1 H3];
           split; [exact H1|]; split; [discriminate|];
           intros content tokens e Hin; now apply H3 in Hin).
    destruct (all_chars_cases s) as [Hs|Hs].
    + rewrite (handle_text_blank E s _ _ Hs).
      split; [now eexists|]. split; [discriminate|].
      intros content tokens e [].
    + rewrite (handle_text_run E s _ _ Hs).
      split; [now eexists|]. split; [discriminate|].
      intros content tokens e [Hin|[]] Hgen.
      injection Hin as <- <-. right.
      cbn [result snd]. now rewrite Hgen.
  - destruct (d !! "image") as [image_input|] eqn:Hi.
    + (* the image branch *)
      rewrite handle_image_run.
      pose proof (generate_not_in_decode E image_input) as Hnogen.
      destruct (decode_image E image_input) as [tr [[img|]|e']] eqn:Hdec;
        cbn [events result fst snd] in *.
      * destruct (convert_rgb E img) as [rgb|e'] eqn:Hrgb;
          cbn [events result fst snd].
        -- split; [now eexists|]. split.
           ++ intros i e _ [= <-]. rewrite Hdec. cbn [result snd].
              intros [Hr|(img' & Hr & Hc)]; [discriminate|].
              injection Hr as <-. congruence.
           ++ intros content tokens e Hin Hgen.
              apply in_app_or in Hin as [Hin|[Hin|[Hin|[]]]];
                [now apply Hnogen in Hin | discriminate |].
              injection Hin as <- <-. left. now rewrite Hgen.
        -- split; [now eexists|]. split.
           ++ intros i e _ [= <-]. rewrite Hdec. cbn [result snd].
              intros [Hr|(img' & Hr & Hc)]; [discriminate|].
              injection Hr as <-. rewrite Hrgb in Hc.
              now injection Hc as <-.
           ++ intros content tokens e Hin.
              apply in_app_or in Hin as [Hin|[Hin|[]]];
                [now apply Hnogen in Hin | discriminate].
      * split; [now eexists|]. split.
        -- intros i e _ [= <-]. rewrite Hdec. cbn [result snd].
           intros [Hr|(img' & Hr & Hc)]; discriminate.
        -- intros content tokens e Hin. now apply Hnogen in Hin.
      * split; [now eexists|]. split.
        -- intros i e _ [= <-]. rewrite Hdec. cbn [result snd].
           intros [Hr|(img' & Hr & Hc)]; [|discriminate].
           now injection Hr as <-.
        -- intros content tokens e Hin. now apply Hnogen in Hin.
    + split; [now eexists|]. split; [discriminate|].
      intros content tokens e [].
Qed.

Lemma C5_handler_returns_and_reports_exceptions_witness :
  exists r,
    result (handler (Examples.worker Examples.out_of_memory)
              (job_of (VDict (Examples.image_only "missing.png"))))
    = Return (VDict r).
Proof.
  exact (proj1 (C5_handler_returns_and_reports_exceptions
                  (Examples.worker Examples.out_of_memory)
                  {[ "input" := VDict (Examples.image_only "missing.png") ]}
                  (Examples.image_only "missing.png") eq_refl)).
Defined.

End HandlerSpec.

(* ===================================================================== *)
(** * Properties of the batch client *)
(* ===================================================================== *)

Module ClientSpec.
Import PyStr Py Requests Client PyStrFacts PyFacts.
Local Open Scope py_scope.

(** Unfold the effect monad in the goal and compute the event lists. *)
Ltac run_monad :=
  cbn [bind try_except call lift ret raise emit print file_write
       fst snd app events result].

(** ** [time.sleep] *)

Lemma time_sleep_ok seconds :
  (0 <= seconds)%Z -> time_sleep seconds = ([Sleep seconds], Return tt).
Proof.
  intros H. unfold time_sleep. apply Z.ltb_ge in H. now rewrite H.
Qed.

Lemma time_sleep_refused seconds :
  (seconds < 0)%Z ->
  time_sleep seconds
  = ([], Raise (ValueError "sleep length must be non-negative")).
Proof.
  intros H. unfold time_sleep. apply Z.ltb_lt in H. now rewrite H.
Qed.

(** ** The synchronous requests *)

Lemma sync_image_run E image_path args b64 result output caption :
  jpeg_base64 E image_path = Return b64 ->
  b64 <> EmptyString ->
  answered E args "image" b64 result ->
  result !! "error" = None ->
  result !! "output" = Some (VDict output) ->
  output !! "caption" = Some (VStr caption) ->
  send_image_request_sync E image_path args =
    ([Print ("Processing image: " +:+ basename E image_path +:+ "...");
      EncodeImage image_path;
      Post (run_url args "runsync") (request_headers args)
           (input_payload "image" b64);
      OpenWrite (caption_path E image_path);
      Write (caption_path E image_path) caption;
      Print ("Caption saved to " +:+ caption_path E image_path)],
     Return tt).
Proof.
  intros Hb Hne (r & Hp & Hs & Hj) Herr Hout Hcap.
  unfold send_image_request_sync, encode_image_to_base64, post_json.
  rewrite Hb. run_monad.
  destruct b64 as [|c b64]; [congruence|].
  rewrite Hp. run_monad. rewrite Hs. run_monad. rewrite Hj. run_monad.
  cbn [py_in py_getitem]. rewrite Herr. run_monad.
  rewrite Hout. run_monad. cbn [py_getitem]. rewrite Hcap. run_monad.
  reflexivity.
Qed.

(** Prove [all_events P m] along the structure of [m]. *)
Ltac all_ev :=
  repeat first
    [ apply all_ret | apply all_raise | apply all_lift
    | apply all_emit; simpl; auto
    | apply all_call; simpl; auto
    | apply all_bind; [|intros]
    | apply all_try_except; [|intros]
    | match goal with
      | |- all_events _ (if ?b then _ else _) => destruct b
      | |- all_events _ (match ?x with _ => _ end) => destruct x
      end ].

(** The synchronous text request on an answer of the endpoint without an
    [error] entry: the answer file is opened, and written when
    [result['output']['answer']] can be read. *)
Lemma sync_text_run E args question question_index result :
  answered E args "text" question result ->
  result !! "error" = None ->
  exists msg,
    send_text_request_sync E question question_index args =
      ([Print ("Processing text question " +:+ question_no question_index
               +:+ ": " +:+ take 50 question +:+ "...");
        Post (run_url args "runsync") (request_headers args)
             (input_payload "text" question);
        OpenWrite (answer_path question_index)]
       ++ match output_entry "answer" result with
          | Some answer =>
              [Write (answer_path question_index)
                 ("Question: " +:+ question +:+ NL +:+ NL +:+ "Answer: "
                  +:+ fmt E answer);
               Print ("Answer saved to " +:+ answer_path question_index)]
          | None => [Print msg]
          end,
       Return tt).
Proof.
  intros (r & Hp & Hs & Hj) Herr.
  unfold send_text_request_sync, post_json, output_entry.
  run_monad. rewrite Hp. run_monad. rewrite Hs. run_monad.
  rewrite Hj. run_monad. cbn [py_in py_getitem]. rewrite Herr. run_monad.
  destruct (result !! "output") as [[| | | | | |output]|]; run_monad;
    cbn [py_getitem]; run_monad; try (eexists; reflexivity).
  destruct (output !! "answer") as [answer|]; run_monad;
    [exists EmptyString|eexists]; reflexivity.
Qed.

(** Every file the synchronous text request touches is the answer file of
    its question. *)
Lemma sync_text_files E question question_index args :
  all_events (file_path_is (answer_path question_index))
    (send_text_request_sync E question question_index args).
Proof.
  unfold send_text_request_sync, post_json, print, file_write. all_ev.
Qed.

Lemma fs_after_open_write p data fs :
  fs_after [OpenWrite p; Write p data] fs = <[ p := data ]> fs.
Proof.
  cbn [fs_after]. rewrite lookup_insert_eq, insert_insert_eq. reflexivity.
Qed.

(** C9: when the synchronous client gets a caption for an image, the file
    operations of the run are one open and one write at the image path
    with its extension replaced by [.txt], and afterwards that file holds
    exactly the caption returned by the service.  When the endpoint
    answers a text question without an [error] entry, the client opens
    [question_N.txt], [N] the 1-based index of the question, and no other
    file; it writes the question and the answer there when
    [result['output']['answer']] can be read, and leaves the file empty
    otherwise.  On every run, whatever the synchronous text request opens
    or writes is [question_N.txt]. *)
Theorem C9_sync_output_files E args :
  (forall image_path b64 result output caption,
      jpeg_base64 E image_path = Return b64 ->
      b64 <> EmptyString ->
      answered E args "image" b64 result ->
      result !! "error" = None ->
      result !! "output" = Some (VDict output) ->
      output !! "caption" = Some (VStr caption) ->
      let tr := events (send_image_request_sync E image_path args) in
      let root := fst (splitext (path_seps E) image_path) in
      let ext := snd (splitext (path_seps E) image_path) in
      root +:+ ext = image_path
      /\ file_events tr =
           [OpenWrite (root +:+ ".txt"); Write (root +:+ ".txt") caption]
      /\ forall fs, fs_after tr fs = <[ root +:+ ".txt" := caption ]> fs)
  /\ (forall question question_index result,
        answered E args "text" question result ->
        result !! "error" = None ->
        let tr := events (send_text_request_sync E question question_index args) in
        let path := "question_" +:+ pretty (question_index + 1)%nat +:+ ".txt" in
        file_events tr =
          OpenWrite path
          :: match output_entry "answer" result with
             | Some answer =>
                 [Write path ("Question: " +:+ question +:+ NL +:+ NL
                              +:+ "Answer: " +:+ fmt E answer)]
             | None => []
             end
        /\ forall fs,
             fs_after tr fs =
               <[ path := match output_entry "answer" result with
                          | Some answer =>
                              "Question: " +:+ question +:+ NL +:+ NL
                              +:+ "Answer: " +:+ fmt E answer
                          | None => EmptyString
                          end ]> fs)
  /\ (forall question question_index,
        Forall (file_path_is ("question_" +:+ pretty (question_index + 1)%nat
                              +:+ ".txt"))
               (events (send_text_request_sync E question question_index args))).
Proof.
  split; [|split].
  - intros image_path b64 result output caption Hb Hne Hans Herr Hout Hcap.
    rewrite (sync_image_run E image_path args b64 result output caption
               Hb Hne Hans Herr Hout Hcap).
    cbn [events fst]. split; [apply splitext_join|].
    split; [reflexivity|].
    intros fs. cbn [fs_after]. apply fs_after_open_write.
  - intros question question_index result Hans Herr. cbv zeta.
    destruct (sync_text_run E args question question_index result Hans Herr)
      as (msg & ->).
    change ("question_" +:+ pretty (question_index + 1)%nat +:+ ".txt")
      with (answer_path question_index).
    cbn [events fst].
    destruct (output_entry "answer" result) as [answer|].
    + split; [reflexivity|]. intros fs. cbn [app fs_after].
      apply fs_after_open_write.
    + split; [reflexivity|]. intros fs. reflexivity.
  - intros question question_index. apply sync_text_files.
Qed.

Lemma C9_sync_output_files_witness :
  file_events (events (send_image_request_sync Examples.desk "xray/chest.jpg"
                         Examples.desk_args))
  = [OpenWrite "xray/chest.txt"; Write "xray/chest.txt" "No acute findings."]
  /\ file_events (events (send_text_request_sync Examples.desk "What is flu?" 0
                            Examples.desk_args))
     = [OpenWrite "question_1.txt"].
Proof.
  split.
  - refine (proj1 (proj2 (proj1 (C9_sync_output_files Examples.desk Examples.desk_args)
              "xray/chest.jpg" "/9j/4AAQSkZJRg==" Examples.sync_image_reply
              (<[ "caption" := VStr "No acute findings." ]>
                 {[ "input_type" := VStr "image" ]})
              "No acute findings." eq_refl _ _ eq_refl eq_refl eq_refl))).
    + discriminate.
    + exists (Examples.ok_response (VDict Examples.sync_image_reply)).
      split; [reflexivity|]. split; reflexivity.
  - refine (proj1 (proj1 (proj2 (C9_sync_output_files Examples.desk
                                   Examples.desk_args))
              "What is flu?" 0%nat Examples.sync_text_reply _ eq_refl)).
    exists (Examples.ok_response (VDict Examples.sync_text_reply)).
    split; [reflexivity|]. split; reflexivity.
Defined.

(** ** One pass through a polling loop *)

Lemma terminal_false status :
  terminal status = false ->
  eq_str status "COMPLETED" = false /\ eq_str status "FAILED" = false
  /\ eq_str status "CANCELLED" = false.
Proof.
  unfold terminal. intros H.
  apply orb_false_iff in H as [H H3]. apply orb_false_iff in H as [H1 H2].
  auto.
Qed.

(** What [observed_status] says about the answer. *)
Lemma observed_status_inv url answer status :
  observed_status url answer = Some status ->
  exists r status_data,
    answer = Return r /\ raise_for_status url r = Return tt
    /\ json r = Return (VDict status_data)
    /\ status = match status_data !! "status" with
                | Some st => st
                | None => VNone
                end.
Proof.
  unfold observed_status. destruct answer as [r|e]; [|discriminate].
  destruct (raise_for_status url r) as [[]|e] eqn:Hs; [|discriminate].
  destruct (json r) as [[| | | | | |status_data]|e] eqn:Hj; try discriminate.
  intros [= <-]. now exists r, status_data.
Qed.

(** Reduce the head of a loop body once the answer is known to carry a
    status. *)
Ltac enter_body Hok Hobs :=
  apply observed_status_inv in Hobs
    as (r & status_data & -> & Hrfs & Hjson & Hstatus);
  rewrite (time_sleep_ok _ Hok);
  unfold get_json; run_monad; rewrite Hrfs; run_monad;
  rewrite Hjson; run_monad; cbn [py_get]; rewrite <- Hstatus; run_monad.

Ltac quiet_events :=
  repeat constructor; try discriminate.

(** A pass of either loop under a negative polling interval: the sleep
    is refused, and nothing else happens. *)
Lemma image_body_refused E image_path image_name url headers answer :
  (POLLING_INTERVAL E < 0)%Z ->
  image_poll_body E image_path image_name url headers answer
  = ([], Raise (ValueError "sleep length must be non-negative")).
Proof.
  intros H. unfold image_poll_body. now rewrite (time_sleep_refused _ H).
Qed.

Lemma text_body_refused E question question_index url headers answer :
  (POLLING_INTERVAL E < 0)%Z ->
  text_poll_body E question question_index url headers answer
  = ([], Raise (ValueError "sleep length must be non-negative")).
Proof.
  intros H. unfold text_poll_body. now rewrite (time_sleep_refused _ H).
Qed.

Section Bodies.
Variable E : Env.
Variables (url : string) (headers : gmap string string).

(** The polling interval is one [time.sleep] accepts. *)
Hypothesis interval_ok : (0 <= POLLING_INTERVAL E)%Z.

Lemma image_body_keeps image_path image_name answer :
  keeps_polling url answer ->
  exists msg,
    image_poll_body E image_path image_name url headers answer =
      ([Sleep (POLLING_INTERVAL E); Get url headers; Print msg],
       Return Continue).
Proof.
  intros (status & Hobs & Hterm).
  apply terminal_false in Hterm as (H1 & H2 & H3).
  unfold image_poll_body. enter_body interval_ok Hobs.
  rewrite H1, H2, H3.
  destruct (eq_str status "IN_QUEUE" || eq_str status "IN_PROGRESS");
    run_monad; eauto.
Qed.

Lemma text_body_keeps question question_index answer :
  keeps_polling url answer ->
  exists msg,
    text_poll_body E question question_index url headers answer =
      ([Sleep (POLLING_INTERVAL E); Get url headers; Print msg],
       Return Continue).
Proof.
  intros (status & Hobs & Hterm).
  apply terminal_false in Hterm as (H1 & H2 & H3).
  unfold text_poll_body. enter_body interval_ok Hobs.
  rewrite H1, H2, H3.
  destruct (eq_str status "IN_QUEUE" || eq_str status "IN_PROGRESS");
    run_monad; eauto.
Qed.

(** On a terminal status the pass makes its one status request and ends
    the loop: by [break], or by an exception raised while the result is
    saved. *)
Lemma image_body_ends image_path image_name answer :
  ends_polling url answer ->
  exists rest,
    events (image_poll_body E image_path image_name url headers answer) =
      Sleep (POLLING_INTERVAL E) :: Get url headers :: rest
    /\ Forall quiet rest
    /\ (result (image_poll_body E image_path image_name url headers answer)
         = Return Break
        \/ exists e,
             result (image_poll_body E image_path image_name url headers
                       answer) = Raise e).
Proof.
  intros (status & Hobs & Hterm).
  unfold image_poll_body. enter_body interval_ok Hobs.
  destruct (eq_str status "COMPLETED") eqn:H1.
  { destruct (status_data !! "output") as [[| | | | | |output]|];
      cbn [py_get]; run_monad;
      try solve [eexists; split; [reflexivity|]; split; [quiet_events|];
                 right; eexists; reflexivity].
    - destruct (output !! "caption") as [caption|]; run_monad;
        [|eexists; split; [reflexivity|]; split; [quiet_events|]; now left].
      destruct (truthy caption); run_monad;
        [|eexists; split; [reflexivity|]; split; [quiet_events|]; now left].
      destruct caption; run_monad;
        eexists; (split; [reflexivity|]); (split; [quiet_events|]);
        first [now left | right; eexists; reflexivity].
    - rewrite lookup_empty. cbn [truthy]. run_monad.
      eexists; split; [reflexivity|]; split; [quiet_events|]; now left. }
  destruct (eq_str status "FAILED") eqn:H2.
  { run_monad. eexists; split; [reflexivity|]; split; [quiet_events|]; now left. }
  destruct (eq_str status "CANCELLED") eqn:H3.
  { run_monad. eexists; split; [reflexivity|]; split; [quiet_events|]; now left. }
  unfold terminal in Hterm. rewrite H1, H2, H3 in Hterm. discriminate.
Qed.

Lemma text_body_ends question question_index answer :
  ends_polling url answer ->
  exists rest,
    events (text_poll_body E question question_index url headers answer) =
      Sleep (POLLING_INTERVAL E) :: Get url headers :: rest
    /\ Forall quiet rest
    /\ (result (text_poll_body E question question_index url headers answer)
         = Return Break
        \/ exists e,
             result (text_poll_body E question question_index url headers
                       answer) = Raise e).
Proof.
  intros (status & Hobs & Hterm).
  unfold text_poll_body. enter_body interval_ok Hobs.
  destruct (eq_str status "COMPLETED") eqn:H1.
  { destruct (status_data !! "output") as [[| | | | | |output]|];
      cbn [py_get]; run_monad;
      try solve [eexists; split; [reflexivity|]; split; [quiet_events|];
                 right; eexists; reflexivity].
    - destruct (output !! "answer") as [answer|]; run_monad;
        [|eexists; split; [reflexivity|]; split; [quiet_events|]; now left].
      destruct (truthy answer); run_monad;
        eexists; (split; [reflexivity|]); (split; [quiet_events|]);
        now left.
    - rewrite lookup_empty. cbn [truthy]. run_monad.
      eexists; split; [reflexivity|]; split; [quiet_events|]; now left. }
  destruct (eq_str status "FAILED") eqn:H2.
  { run_monad. eexists; split; [reflexivity|]; split; [quiet_events|]; now left. }
  destruct (eq_str status "CANCELLED") eqn:H3.
  { run_monad. eexists; split; [reflexivity|]; split; [quiet_events|]; now left. }
  unfold terminal in Hterm. rewrite H1, H2, H3 in Hterm. discriminate.
Qed.

End Bodies.

(** The loop leaves by [break] only on a terminal status. *)
Lemma image_body_break E url headers image_path image_name answer :
  result (image_poll_body E image_path image_name url headers answer)
  = Return Break ->
  ends_polling url answer.
Proof.
  intros Hbreak.
  destruct (Z.lt_ge_cases (POLLING_INTERVAL E) 0) as [Hneg|Hok].
  { rewrite (image_body_refused E _ _ _ _ _ Hneg) in Hbreak. discriminate. }
  destruct (observed_status url answer) as [status|] eqn:Hobs.
  - destruct (terminal status) eqn:Hterm; [now exists status|].
    destruct (image_body_keeps E url headers Hok image_path image_name answer)
      as (msg & Hrun); [now exists status|].
    rewrite Hrun in Hbreak. discriminate.
  - exfalso. revert Hbreak. unfold image_poll_body, get_json.
    rewrite (time_sleep_ok _ Hok).
    unfold observed_status in Hobs.
    destruct answer as [r|e]; run_monad; [|discriminate].
    destruct (raise_for_status url r) as [[]|e]; run_monad; [|discriminate].
    destruct (json r) as [[| | | | | |status_data]|e]; run_monad;
      cbn [py_get]; run_monad; discriminate.
Qed.

Lemma text_body_break E url headers question question_index answer :
  result (text_poll_body E question question_index url headers answer)
  = Return Break ->
  ends_polling url answer.
Proof.
  intros Hbreak.
  destruct (Z.lt_ge_cases (POLLING_INTERVAL E) 0) as [Hneg|Hok].
  { rewrite (text_body_refused E _ _ _ _ _ Hneg) in Hbreak. discriminate. }
  destruct (observed_status url answer) as [status|] eqn:Hobs.
  - destruct (terminal status) eqn:Hterm; [now exists status|].
    destruct (text_body_keeps E url headers Hok question question_index answer)
      as (msg & Hrun); [now exists status|].
    rewrite Hrun in Hbreak. discriminate.
  - exfalso. revert Hbreak. unfold text_poll_body, get_json.
    rewrite (time_sleep_ok _ Hok).
    unfold observed_status in Hobs.
    destruct answer as [r|e]; run_monad; [|discriminate].
    destruct (raise_for_status url r) as [[]|e]; run_monad; [|discriminate].
    destruct (json r) as [[| | | | | |status_data]|e]; run_monad;
      cbn [py_get]; run_monad; discriminate.
Qed.

(** ** The loop *)

Lemma quiet_no_gets rest : Forall quiet rest -> List.filter is_get rest = [].
Proof.
  induction 1 as [|ev rest [Hg _] _ IH]; [reflexivity|].
  simpl. now rewrite Hg.
Qed.

Lemma terminal_iff status :
  terminal status = true <->
  status = VStr "COMPLETED" \/ status = VStr "FAILED"
  \/ status = VStr "CANCELLED".
Proof.
  unfold terminal, eq_str. split.
  - destruct status as [| | | |s| |]; try discriminate.
    intros H. apply orb_true_iff in H as [H|H];
      [apply orb_true_iff in H as [H|H]|];
      apply String.eqb_eq in H; subst; auto.
  - intros [-> | [-> | ->]]; reflexivity.
Qed.

Section Poll.
Variable body : outcome response -> M io_ev flow.
Variables (url : string) (headers : gmap string string) (interval : Z).

Hypothesis body_keeps :
  forall answer,
    keeps_polling url answer ->
    exists msg,
      body answer = ([Sleep interval; Get url headers; Print msg],
                     Return Continue).

Hypothesis body_ends :
  forall answer,
    ends_polling url answer ->
    exists rest,
      events (body answer) = Sleep interval :: Get url headers :: rest
      /\ Forall quiet rest
      /\ (result (body answer) = Return Break
          \/ exists e, result (body answer) = Raise e).

Lemma poll_cons_keep answer script :
  keeps_polling url answer ->
  poll body (answer :: script) =
    (events (body answer) ++ events (poll body script),
     result (poll body script)).
Proof.
  intros Hk. destruct (body_keeps answer Hk) as (msg & Hrun).
  cbn [poll]. rewrite Hrun. unfold bind, events, result.
  now destruct (poll body script).
Qed.

Lemma status_requests_app tr1 tr2 :
  status_requests (tr1 ++ tr2) = (status_requests tr1 + status_requests tr2)%nat.
Proof. unfold status_requests. now rewrite List.filter_app, length_app. Qed.

Lemma body_keeps_events answer :
  keeps_polling url answer ->
  status_requests (events (body answer)) = 1%nat
  /\ List.filter is_sleep (events (body answer)) = [Sleep interval].
Proof.
  intros Hk. destruct (body_keeps answer Hk) as (msg & ->). now split.
Qed.

(** As long as no terminal status shows up the loop goes on: one sleep
    and one status request per answer, and it asks for more. *)
Lemma poll_keeps script :
  Forall (keeps_polling url) script ->
  result (poll body script) = Return StillPolling
  /\ status_requests (events (poll body script)) = length script
  /\ List.filter is_sleep (events (poll body script))
     = repeat (Sleep interval) (length script).
Proof.
  induction 1 as [|answer script Hk _ (IH1 & IH2 & IH3)].
  - now repeat split.
  - rewrite (poll_cons_keep answer script Hk).
    destruct (body_keeps_events answer Hk) as (Hg & Hs).
    cbn [events result fst snd].
    rewrite status_requests_app, List.filter_app, Hg, Hs, IH2, IH3.
    now repeat split.
Qed.

Lemma poll_cons_end answer post :
  ends_polling url answer ->
  poll body (answer :: post) = poll body [answer]
  /\ status_requests (events (poll body (answer :: post))) = 1%nat
  /\ (result (poll body (answer :: post)) = Return Finished
      \/ exists e, result (poll body (answer :: post)) = Raise e).
Proof.
  intros He. destruct (body_ends answer He) as (rest & Hev & Hq & Hres).
  cbn [poll]. unfold status_requests.
  destruct (body answer) as [tr [[|]|e]] eqn:Hb;
    cbn [events result fst snd] in *; subst tr.
  - cbn [bind ret app events result fst snd].
    rewrite !app_nil_r. split; [reflexivity|]. split; [|now left].
    simpl. now rewrite (quiet_no_gets rest Hq).
  - destruct Hres as [Hres|(e & Hres)]; discriminate.
  - cbn [bind events result fst snd].
    split; [reflexivity|]. split; [|right; eauto].
    simpl. now rewrite (quiet_no_gets rest Hq).
Qed.

(** The loop stops at the first terminal status: what the status
    endpoint would answer afterwards is never asked for. *)
Lemma poll_stops pre answer post :
  Forall (keeps_polling url) pre ->
  ends_polling url answer ->
  poll body (pre ++ answer :: post) = poll body (pre ++ [answer])
  /\ status_requests (events (poll body (pre ++ answer :: post)))
     = S (length pre)
  /\ (result (poll body (pre ++ answer :: post)) = Return Finished
      \/ exists e, result (poll body (pre ++ answer :: post)) = Raise e).
Proof.
  intros Hpre He. induction Hpre as [|a pre Hk _ (IH1 & IH2 & IH3)].
  - apply (poll_cons_end answer post He).
  - rewrite <- !app_comm_cons.
    rewrite (poll_cons_keep a (pre ++ answer :: post) Hk).
    rewrite (poll_cons_keep a (pre ++ [answer]) Hk).
    destruct (body_keeps_events a Hk) as (Hg & _).
    cbn [events result fst snd].
    rewrite status_requests_app, Hg, IH2, <- IH1.
    now repeat split.
Qed.
End Poll.

(** ** The asynchronous requests *)

Lemma async_image_shape E image_path args b64 job_id script :
  jpeg_base64 E image_path = Return b64 ->
  b64 <> EmptyString ->
  submitted E args "image" b64 job_id ->
  send_image_request_async E image_path args script =
    around_poll
      [Print ("Processing image: " +:+ basename E image_path +:+ "...");
       EncodeImage image_path;
       Post (run_url args "run") (request_headers args)
            (input_payload "image" b64)]
      (fun e => "Error processing " +:+ image_path +:+ ": " +:+ exn_msg e)
      (poll (image_poll_body E image_path (basename E image_path)
               (status_url E args job_id) (request_headers args))
            script).
Proof.
  intros Hb Hne (r & result & Hp & Hs & Hj & Hid & Htrue).
  unfold send_image_request_async, encode_image_to_base64, post_json,
    around_poll, status_url.
  rewrite Hb. run_monad.
  destruct b64 as [|c b64]; [congruence|].
  rewrite Hp. run_monad. rewrite Hs. run_monad. rewrite Hj. run_monad.
  rewrite Hid. run_monad. rewrite Htrue. cbn [negb].
  destruct (poll _ script) as [tr [state|e]]; run_monad;
    now rewrite ?app_nil_r.
Qed.

Lemma async_text_shape E question question_index args job_id script :
  submitted E args "text" question job_id ->
  send_text_request_async E question question_index args script =
    around_poll
      [Print ("Processing text question " +:+ question_no question_index
              +:+ ": " +:+ take 50 question +:+ "...");
       Post (run_url args "run") (request_headers args)
            (input_payload "text" question)]
      (fun e => "Error processing question " +:+ question_no question_index
                +:+ ": " +:+ exn_msg e)
      (poll (text_poll_body E question question_index
               (status_url E args job_id) (request_headers args))
            script).
Proof.
  intros (r & result & Hp & Hs & Hj & Hid & Htrue).
  unfold send_text_request_async, post_json, around_poll, status_url.
  run_monad.
  rewrite Hp. run_monad. rewrite Hs. run_monad. rewrite Hj. run_monad.
  rewrite Hid. run_monad. rewrite Htrue. cbn [negb].
  destruct (poll _ script) as [tr [state|e]]; run_monad;
    now rewrite ?app_nil_r.
Qed.

Lemma filter_around_poll f before on_error p :
  (forall msg, f (Print msg) = false) ->
  List.filter f (events (around_poll before on_error p))
  = List.filter f before ++ List.filter f (events p).
Proof.
  intros Hprint. unfold around_poll. cbn [events fst].
  rewrite !List.filter_app.
  destruct (result p); simpl; rewrite ?Hprint; now rewrite app_nil_r.
Qed.

(** A loop whose body raises at once, whatever the answer would be, makes
    no request: the function prints the error and returns. *)
Lemma around_refused body before on_error e script :
  (forall answer, body answer = ([], Raise e)) ->
  script <> [] ->
  around_poll before on_error (poll body script)
  = (before ++ [Print (on_error e)], Return Finished).
Proof.
  intros Hbody Hne. destruct script as [|answer script]; [congruence|].
  cbn [poll]. rewrite Hbody. reflexivity.
Qed.

(** What the loop lemmas say, carried to a function built around the
    loop whose preamble makes no status request and does not sleep. *)
Section Around.
Variable body : outcome response -> M io_ev flow.
Variables (url : string) (headers : gmap string string) (interval : Z).
Variables (before : list io_ev) (on_error : exn -> string).

Hypothesis body_keeps :
  forall answer,
    keeps_polling url answer ->
    exists msg,
      body answer = ([Sleep interval; Get url headers; Print msg],
                     Return Continue).

Hypothesis body_ends :
  forall answer,
    ends_polling url answer ->
    exists rest,
      events (body answer) = Sleep interval :: Get url headers :: rest
      /\ Forall quiet rest
      /\ (result (body answer) = Return Break
          \/ exists e, result (body answer) = Raise e).

Hypothesis before_gets : List.filter is_get before = [].
Hypothesis before_sleeps : List.filter is_sleep before = [].

Let run (script : list (outcome response)) : M io_ev run_state :=
  around_poll before on_error (poll body script).

Lemma around_stops pre answer post :
  Forall (keeps_polling url) pre ->
  ends_polling url answer ->
  run (pre ++ answer :: post) = run (pre ++ [answer])
  /\ result (run (pre ++ answer :: post)) = Return Finished
  /\ status_requests (events (run (pre ++ answer :: post))) = S (length pre).
Proof.
  intros Hpre He.
  destruct (poll_stops body url headers interval body_keeps body_ends
              pre answer post Hpre He) as (Heq & Hn & Hres).
  unfold run. split; [now rewrite Heq|]. split.
  - unfold around_poll. cbn [result snd].
    destruct Hres as [->|(e & ->)]; reflexivity.
  - unfold status_requests in *.
    rewrite filter_around_poll by reflexivity.
    rewrite before_gets. cbn [app]. exact Hn.
Qed.

Lemma around_keeps script :
  Forall (keeps_polling url) script ->
  result (run script) = Return StillPolling
  /\ status_requests (events (run script)) = length script
  /\ List.filter is_sleep (events (run script))
     = repeat (Sleep interval) (length script).
Proof.
  intros Hk.
  destruct (poll_keeps body url headers interval body_keeps script Hk)
    as (Hres & Hn & Hs).
  unfold run. split; [|split].
  - unfold around_poll. cbn [result snd]. now rewrite Hres.
  - unfold status_requests in *.
    rewrite filter_around_poll by reflexivity.
    rewrite before_gets. cbn [app]. exact Hn.
  - rewrite filter_around_poll by reflexivity.
    rewrite before_sleeps. cbn [app]. exact Hs.
Qed.
End Around.


Lemma desk_keeps status :
  terminal (VStr status) = false ->
  keeps_polling (status_url Examples.desk Examples.desk_args (VStr "job-1"))
    (Examples.status_answer status).
Proof. intros H. exists (VStr status). now split. Qed.

Lemma desk_submitted field value :
  submitted Examples.desk Examples.desk_args field value (VStr "job-1").
Proof.
  exists (Examples.ok_response Examples.queued_reply), Examples.queued_reply.
  repeat split; reflexivity.
Qed.

(** The same job on a desk configured with [POLLING_INTERVAL=-1]: the
    function gives up at the first sleep, before any status request. *)
Lemma hasty_desk_never_polls :
  send_image_request_async Examples.hasty_desk "xray/chest.jpg"
    Examples.desk_args
    [Examples.status_answer "IN_QUEUE"; Examples.completed_answer]
  = ([Print "Processing image: chest.jpg...";
      EncodeImage "xray/chest.jpg";
      Post "https://api.runpod.ai/v2/ep1/run"
           (request_headers Examples.desk_args)
           (input_payload "image" "/9j/4AAQSkZJRg==");
      Print "Error processing xray/chest.jpg: sleep length must be non-negative"],
     Return Finished).
Proof. vm_compute. reflexivity. Qed.




End ClientSpec.

(* ===================================================================== *)
(** * The wire contract between the worker and the client *)
(* ===================================================================== *)

Module Contract.
Import PyStr Py Requests PyStrFacts PyFacts.
Local Open Scope py_scope.

(** The synchronous text request, run on an answer of the endpoint whose
    [output] is the dictionary [out]: what is saved is [out["answer"]]. *)
Lemma sync_text_reads_answer E args question question_index reply out :
  Client.answered E args "text" question reply ->
  reply !! "error" = None ->
  reply !! "output" = Some (VDict out) ->
  Client.send_text_request_sync E question question_index args =
    ([Client.Print ("Processing text question "
                    +:+ Client.question_no question_index +:+ ": "
                    +:+ take 50 question +:+ "...");
      Client.Post (Client.run_url args "runsync") (Client.request_headers args)
                  (Client.input_payload "text" question);
      Client.OpenWrite (Client.answer_path question_index)]
     ++ match out !! "answer" with
        | Some answer =>
            [Client.Write (Client.answer_path question_index)
               ("Question: " +:+ question +:+ Client.NL +:+ Client.NL
                +:+ "Answer: " +:+ Client.fmt E answer);
             Client.Print ("Answer saved to "
                           +:+ Client.answer_path question_index)]
        | None =>
            [Client.Print ("Error processing question "
                           +:+ Client.question_no question_index
                           +:+ ": 'answer'")]
        end,
     Return tt).
Proof.
  intros (r & Hp & Hs & Hj) Herr Hout.
  unfold Client.send_text_request_sync, Client.post_json.
  ClientSpec.run_monad. rewrite Hp. ClientSpec.run_monad.
  rewrite Hs. ClientSpec.run_monad. rewrite Hj. ClientSpec.run_monad.
  cbn [py_in py_getitem]. rewrite Herr. ClientSpec.run_monad.
  rewrite Hout. ClientSpec.run_monad. cbn [py_getitem].
  destruct (out !! "answer") as [answer|]; ClientSpec.run_monad; reflexivity.
Qed.

(** One pass of the asynchronous text loop on a COMPLETED answer whose
    [output] is the dictionary [out]: again [out.get('answer')] decides. *)
Lemma async_text_reads_answer E question question_index url headers
    r status_data out :
  (0 <= Client.POLLING_INTERVAL E)%Z ->
  raise_for_status url r = Return tt ->
  json r = Return (VDict status_data) ->
  status_data !! "status" = Some (VStr "COMPLETED") ->
  status_data !! "output" = Some (VDict out) ->
  Client.text_poll_body E question question_index url headers (Return r) =
    ([Client.Sleep (Client.POLLING_INTERVAL E); Client.Get url headers]
     ++ match out !! "answer" with
        | Some answer =>
            if truthy answer then
              [Client.OpenWrite (Client.answer_path question_index);
               Client.Write (Client.answer_path question_index)
                 ("Question: " +:+ question +:+ Client.NL +:+ Client.NL
                  +:+ "Answer: " +:+ Client.fmt E answer);
               Client.Print ("Answer saved to "
                             +:+ Client.answer_path question_index)]
            else
              [Client.Print ("No answer received for question "
                             +:+ Client.question_no question_index)]
        | None =>
            [Client.Print ("No answer received for question "
                           +:+ Client.question_no question_index)]
        end,
     Return Client.Break).
Proof.
  intros Hok Hs Hj Hstatus Hout.
  unfold Client.text_poll_body, Client.get_json.
  rewrite (ClientSpec.time_sleep_ok _ Hok).
  ClientSpec.run_monad. rewrite Hs. ClientSpec.run_monad.
  rewrite Hj. ClientSpec.run_monad. cbn [py_get].
  rewrite Hstatus. ClientSpec.run_monad.
  change (eq_str (VStr "COMPLETED") "COMPLETED") with true. cbv iota.
  rewrite Hout. ClientSpec.run_monad. cbn [py_get].
  destruct (out !! "answer") as [answer|]; ClientSpec.run_monad.
  - destruct (truthy answer); ClientSpec.run_monad; reflexivity.
  - reflexivity.
Qed.

(** What the worker returns for a job with a [text] field never has an
    [answer] key. *)
Lemma text_job_result_has_no_answer W j d text_input :
  j !! "input" = Some (VDict d) ->
  d !! "text" = Some text_input ->
  exists out,
    result (Handler.handler W (VDict j)) = Return (VDict out)
    /\ out !! "answer" = None.
Proof.
  intros Hj Ht. rewrite (HandlerSpec.handler_on_dict W j d Hj), Ht.
  destruct text_input as [| | | |s| |];
    try (eexists; split; reflexivity).
  destruct (HandlerSpec.all_chars_cases s) as [Hs|Hs].
  - rewrite (HandlerSpec.handle_text_blank W s _ _ Hs).
    eexists; split; reflexivity.
  - rewrite (HandlerSpec.handle_text_run W s _ _ Hs).
    eexists; split; reflexivity.
Qed.



End Contract.

(* ===================================================================== *)
(** * The worker: edge cases and invariants *)
(* ===================================================================== *)

Module HandlerEdge.
Import PyStr Py Requests Handler PyStrFacts PyFacts HandlerSpec Observe.
Local Open Scope py_scope.

(** ** What [strip] leaves *)

Lemma lstrip_first s c :
  first_char (lstrip s) = Some c -> py_isspace c = false.
Proof.
  induction s as [|a s IH]; simpl; [discriminate|].
  destruct (py_isspace a) eqn:Ha; [exact IH|].
  simpl. now intros [= <-].
Qed.

Lemma rstrip_first s :
  rstrip s = EmptyString \/ first_char (rstrip s) = first_char s.
Proof.
  destruct s as [|a s]; [now left|]. simpl.
  destruct (rstrip s); [|now right].
  destruct (py_isspace a); [now left|now right].
Qed.

Lemma rstrip_last s c :
  last_char (rstrip s) = Some c -> py_isspace c = false.
Proof.
  revert c. induction s as [|a s IH]; intros c; simpl; [discriminate|].
  destruct (rstrip s) as [|b r] eqn:Hr.
  - destruct (py_isspace a) eqn:Ha; simpl; [discriminate|].
    now intros [= <-].
  - change (last_char (String a (String b r)))
      with (match last_char (String b r) with
            | Some d => Some d
            | None => Some a
            end).
    destruct (last_char (String b r)) as [d|] eqn:Hl.
    + intros [= <-]. now apply IH.
    + simpl in Hl. destruct (last_char r); discriminate.
Qed.

(** [s.strip()] begins and ends with a character that is not
    whitespace, or is empty. *)
Lemma strip_trimmed s : trimmed (strip s).
Proof.
  unfold trimmed, strip. split; intros c Hc.
  - destruct (rstrip_first (lstrip s)) as [He|He].
    + rewrite He in Hc. discriminate.
    + rewrite He in Hc. now apply (lstrip_first s).
  - now apply (rstrip_last (lstrip s)).
Qed.

Lemma all_space_replace s :
  all_chars py_isspace s = true ->
  all_chars py_isspace (replace LF SP s) = true.
Proof.
  induction s as [|c s IH]; simpl; [reflexivity|].
  intros H. apply andb_true_iff in H as [Hc Hs]. rewrite (IH Hs).
  destruct (Ascii.eqb c LF); [reflexivity|]. now rewrite Hc.
Qed.

Lemma clean_facts text :
  has_char LF (clean text) = false
  /\ trimmed (clean text)
  /\ (all_chars py_isspace text = true -> clean text = EmptyString).
Proof.
  split; [apply single_line|]. split; [apply strip_trimmed|].
  intros H. apply strip_blank. now apply all_space_replace.
Qed.

(** ** The runs of the handler, by case *)

(** A job that is not a dictionary holding a dictionary under [input]
    ends before any external call: with the missing-field error or with
    an exception that the handler lets through. *)
Lemma handler_off_dict E job :
  (forall j d, job = VDict j -> j !! "input" <> Some (VDict d)) ->
  events (handler E job) = []
  /\ (result (handler E job) = Return (error_result no_input_error)
      \/ exists e, result (handler E job) = Raise e).
Proof.
  intros Hno. unfold handler.
  destruct job as [| | | | | |j]; cbn [py_getitem];
    try (split; [reflexivity|right; eexists; reflexivity]).
  destruct (j !! "input") as [job_input|] eqn:Hj;
    [|split; [reflexivity|right; eexists; reflexivity]].
  rewrite bind_lift_return.
  destruct job_input as [| | | |s|l|d]; cbn [py_in];
    try (split; [reflexivity|right; eexists; reflexivity]).
  - destruct (contains "image" s); rewrite bind_lift_return, ?bind_ret.
    + split; [reflexivity|right; eexists; reflexivity].
    + rewrite bind_lift_return, bind_ret.
      destruct (contains "text" s); cbn [negb];
        [split; [reflexivity|right; eexists; reflexivity]
        |split; [reflexivity|now left]].
  - destruct (existsb (fun x => eq_str x "image") l);
      rewrite bind_lift_return, ?bind_ret.
    + split; [reflexivity|right; eexists; reflexivity].
    + rewrite bind_lift_return, bind_ret.
      destruct (existsb (fun x => eq_str x "text") l); cbn [negb];
        [split; [reflexivity|right; eexists; reflexivity]
        |split; [reflexivity|now left]].
  - now destruct (Hno j d eq_refl).
Qed.

(** X1: a job without [input], or whose [input] is not a dictionary, never
    reaches the model or any other external call.  Without [input] the
    handler lets the [KeyError] through; otherwise it returns the
    missing-field error or lets a [TypeError] or [AttributeError]
    through. *)
Theorem X1_job_without_dictionary_input E job :
  (forall j d, job = VDict j -> j !! "input" <> Some (VDict d)) ->
  events (handler E job) = []
  /\ (result (handler E job) = Return (error_result no_input_error)
      \/ exists e, result (handler E job) = Raise e)
  /\ (forall j, job = VDict j -> j !! "input" = None ->
      result (handler E job) = Raise (KeyError "input")).
Proof.
  intros Hno. destruct (handler_off_dict E job Hno) as [Hev Hres].
  split; [exact Hev|]. split; [exact Hres|].
  intros j -> Hj. unfold handler. cbn [py_getitem]. now rewrite Hj.
Qed.

Lemma X1_job_without_dictionary_input_witness :
  result (handler (Examples.worker Examples.two_lines) (VDict ∅))
  = Raise (KeyError "input").
Proof.
  refine (proj2 (proj2 (X1_job_without_dictionary_input
                          (Examples.worker Examples.two_lines) (VDict ∅) _))
            ∅ eq_refl eq_refl).
  intros j d [= <-]. discriminate.
Defined.

(** The three ways a dictionary input is handled. *)
Lemma handler_cases E j d :
  j !! "input" = Some (VDict d) ->
  (handler E (VDict j) = ([], Return (error_result no_input_error))
   /\ d !! "text" = None /\ d !! "image" = None)
  \/ (handler E (VDict j) = ([], Return (error_result invalid_text_error))
      /\ exists t, d !! "text" = Some t
                   /\ forall s, t = VStr s -> all_chars py_isspace s = true)
  \/ (exists s,
        d !! "text" = Some (VStr s) /\ all_chars py_isspace s = false
        /\ handler E (VDict j) =
             ([Generate (question_content E s (prompt_of E d)) (tokens_of E d)],
              Return
                (text_result
                   match model_generate E
                           (question_content E s (prompt_of E d))
                           (tokens_of E d) with
                   | Return response => clean response
                   | Raise e => error_text E "text" e
                   end)))
  \/ (exists image_input,
        d !! "text" = None /\ d !! "image" = Some image_input
        /\ handler E (VDict j) =
             handle_image E image_input (prompt_of E d) (tokens_of E d)).
Proof.
  intros Hj. rewrite (handler_on_dict E j d Hj).
  destruct (d !! "text") as [t|] eqn:Ht.
  - destruct t as [| | | |s| |];
      try (right; left; split; [reflexivity|];
           eexists; split; [reflexivity|]; discriminate).
    destruct (all_chars_cases s) as [Hs|Hs].
    + right; left. rewrite (handle_text_blank E s _ _ Hs).
      split; [reflexivity|]. eexists; split; [reflexivity|].
      now intros s' [= <-].
    + right; right; left. exists s.
      split; [reflexivity|]. split; [exact Hs|].
      apply handle_text_run, Hs.
  - destruct (d !! "image") as [i|] eqn:Hi.
    + right; right; right. now exists i.
    + now left.
Qed.

Lemma generations_app tr1 tr2 :
  generations (tr1 ++ tr2) = (generations tr1 + generations tr2)%nat.
Proof. unfold generations. now rewrite List.filter_app, length_app. Qed.

Lemma decode_generations E image_input :
  generations (events (decode_image E image_input)) = 0%nat.
Proof.
  pose proof (decode_image_calls E image_input) as Hall.
  unfold all_events, generations in *.
  induction Hall as [|ev tr Hev _ IH]; [reflexivity|].
  simpl. now rewrite Hev.
Qed.

(** X2: whatever the job, the handler calls the model at most once, and
    when it does, that call is the last external call of the run and is
    given [max_new_tokens] from the input, or the configured default when
    the input has none. *)
Theorem X2_at_most_one_generation E job :
  (generations (events (handler E job)) <= 1)%nat
  /\ forall content tokens,
       In (Generate content tokens) (events (handler E job)) ->
       exists before j d,
         events (handler E job) = before ++ [Generate content tokens]
         /\ generations before = 0%nat
         /\ job = VDict j /\ j !! "input" = Some (VDict d)
         /\ tokens = match d !! "max_new_tokens" with
                     | Some n => n
                     | None => VInt (MAX_NEW_TOKENS E)
                     end.
Proof.
  assert (Hdict : (exists j d, job = VDict j /\ j !! "input" = Some (VDict d))
                  \/ (forall j d, job = VDict j -> j !! "input" <> Some (VDict d))).
  { destruct job as [| | | | | |j]; try (right; intros; discriminate).
    destruct (j !! "input") as [[| | | | | |d]|] eqn:Hj;
      try (right; intros j' d' [= <-]; congruence).
    left. now exists j, d. }
  destruct Hdict as [(j & d & -> & Hj)|Hno].
  2:{ destruct (handler_off_dict E job Hno) as [-> _].
      split; [unfold generations; simpl; lia|]. intros ? ? []. }
  destruct (handler_cases E j d Hj)
    as [(-> & _)|[(-> & _)|[(s & Ht & Hs & ->)|(i & Ht & Hi & ->)]]];
    cbn [events fst].
  - split; [unfold generations; simpl; lia|]. intros ? ? [].
  - split; [unfold generations; simpl; lia|]. intros ? ? [].
  - split; [unfold generations; simpl; lia|]. intros content tokens [Hin|[]].
    injection Hin as <- <-. exists [], j, d. now repeat split.
  - rewrite handle_image_run.
    pose proof (decode_generations E i) as Hzero.
    pose proof (generate_not_in_decode E i) as Hnot.
    destruct (decode_image E i) as [tr [[img|]|e]]; cbn [events fst] in *.
    + destruct (convert_rgb E img) as [rgb|e]; cbn [events fst].
      * split; [rewrite generations_app, Hzero; unfold generations; simpl; lia|].
        intros content tokens Hin.
        apply in_app_or in Hin as [Hin|[Hin|[Hin|[]]]];
          [now apply Hnot in Hin | discriminate |].
        injection Hin as <- <-.
        exists (tr ++ [ConvertRGB img]), j, d.
        split; [now rewrite <- app_assoc|].
        split; [now rewrite generations_app, Hzero|]. now repeat split.
      * split; [rewrite generations_app, Hzero; unfold generations; simpl; lia|].
        intros content tokens Hin.
        apply in_app_or in Hin as [Hin|[Hin|[]]];
          [now apply Hnot in Hin | discriminate].
    + split; [rewrite Hzero; lia|].
      intros content tokens Hin. now apply Hnot in Hin.
    + split; [rewrite Hzero; lia|].
      intros content tokens Hin. now apply Hnot in Hin.
Qed.

Lemma X2_at_most_one_generation_witness :
  exists before j d,
    events (handler (Examples.worker Examples.two_lines)
              (job_of (VDict (Examples.image_only "scan.png"))))
    = before ++ [Generate [TextPart (VStr default_caption_prompt);
                           ImagePart (MkImage "RGB" 1 1 [Byte.x7f])]
                          (VInt 256)]
    /\ generations before = 0%nat
    /\ job_of (VDict (Examples.image_only "scan.png")) = VDict j
    /\ j !! "input" = Some (VDict d)
    /\ VInt 256 = match d !! "max_new_tokens" with
                  | Some n => n
                  | None => VInt 256
                  end.
Proof.
  apply (proj2 (X2_at_most_one_generation
                  (Examples.worker Examples.two_lines)
                  (job_of (VDict (Examples.image_only "scan.png"))))).
  right; right; left. reflexivity.
Defined.

Lemma decode_some_is_str E image_input img :
  result (decode_image E image_input) = Return (Some img) ->
  exists s, image_input = VStr s.
Proof. destruct image_input; try discriminate. eauto. Qed.

(** X3: on a dictionary input the handler returns one of four shapes of
    dictionary.  It is a text result exactly when [text] is a string that
    is not blank, and it can be an image result only when there is no
    [text] field and [image] is a string. *)
Theorem X3_result_shapes E j d :
  j !! "input" = Some (VDict d) ->
  exists v,
    result (handler E (VDict j)) = Return v
    /\ result_shape E v
    /\ (is_Some (response_of v) <->
        exists s, d !! "text" = Some (VStr s)
                  /\ all_chars py_isspace s = false)
    /\ (is_Some (caption_of v) ->
        d !! "text" = None /\ exists s, d !! "image" = Some (VStr s)).
Proof.
  intros Hj.
  assert (Hnone : forall x : option pyval, is_Some x -> x = None -> False)
    by (intros x [y ->]; discriminate).
  destruct (handler_cases E j d Hj)
    as [(-> & Ht & Hi)|[(-> & t & Ht & Hblank)
                       |[(s & Ht & Hs & ->)|(i & Ht & Hi & ->)]]];
    cbn [result snd].
  - eexists. split; [reflexivity|]. split; [constructor; simpl; auto|].
    split; [split|].
    + intros H. now apply Hnone in H.
    + intros (s & Hs & _). congruence.
    + intros H. now apply Hnone in H.
  - eexists. split; [reflexivity|]. split; [constructor; simpl; auto|].
    split; [split|].
    + intros H. now apply Hnone in H.
    + intros (s & Hs & Hn). rewrite Ht in Hs. injection Hs as ->.
      rewrite (Hblank s eq_refl) in Hn. discriminate.
    + intros H. now apply Hnone in H.
  - eexists. split; [reflexivity|]. split; [constructor|].
    split; [split|].
    + intros _. now exists s.
    + intros _. now eexists.
    + intros H. now apply Hnone in H.
  - rewrite handle_image_run.
    pose proof (decode_some_is_str E i) as Hstr.
    destruct (decode_image E i) as [tr [[img|]|e]]; cbn [result snd] in *.
    + destruct (convert_rgb E img) as [rgb|e]; cbn [result snd].
      * eexists. split; [reflexivity|]. split; [constructor|].
        split; [split|].
        -- intros H. now apply Hnone in H.
        -- intros (s & Hs & _). congruence.
        -- intros _. split; [exact Ht|].
           destruct (Hstr img eq_refl) as (s & ->). now exists s.
      * eexists. split; [reflexivity|]. split; [constructor|].
        split; [split|].
        -- intros H. now apply Hnone in H.
        -- intros (s & Hs & _). congruence.
        -- intros H. now apply Hnone in H.
    + eexists. split; [reflexivity|]. split; [constructor; simpl; auto|].
      split; [split|].
      * intros H. now apply Hnone in H.
      * intros (s & Hs & _). congruence.
      * intros H. now apply Hnone in H.
    + eexists. split; [reflexivity|]. split; [constructor|].
      split; [split|].
      * intros H. now apply Hnone in H.
      * intros (s & Hs & _). congruence.
      * intros H. now apply Hnone in H.
Qed.

Lemma X3_result_shapes_witness :
  exists v,
    result (handler (Examples.worker Examples.two_lines)
              (job_of (VDict Examples.text_only))) = Return v
    /\ result_shape (Examples.worker Examples.two_lines) v
    /\ (is_Some (response_of v) <->
        exists s, Examples.text_only !! "text" = Some (VStr s)
                  /\ all_chars py_isspace s = false)
    /\ (is_Some (caption_of v) ->
        Examples.text_only !! "text" = None
        /\ exists s, Examples.text_only !! "image" = Some (VStr s)).
Proof.
  exact (X3_result_shapes (Examples.worker Examples.two_lines)
           {[ "input" := VDict Examples.text_only ]} Examples.text_only
           eq_refl).
Defined.

(** X4: on a dictionary input, a result with an [error] entry means the
    model was never called, and a result without one means it was called
    exactly once. *)
Theorem X4_error_means_no_generation E j d :
  j !! "input" = Some (VDict d) ->
  exists v,
    result (handler E (VDict j)) = Return v
    /\ generations (events (handler E (VDict j)))
       = if has_error v then 0%nat else 1%nat.
Proof.
  intros Hj.
  destruct (handler_cases E j d Hj)
    as [(-> & _)|[(-> & _)|[(s & Ht & Hs & ->)|(i & Ht & Hi & ->)]]];
    cbn [result events fst snd]; try (eexists; split; reflexivity).
  rewrite handle_image_run.
  pose proof (decode_generations E i) as Hzero.
  destruct (decode_image E i) as [tr [[img|]|e]]; cbn [result events fst snd] in *.
  - destruct (convert_rgb E img) as [rgb|e]; cbn [result events fst snd];
      (eexists; split; [reflexivity|]);
      rewrite generations_app, Hzero; reflexivity.
  - eexists; split; [reflexivity|]. rewrite Hzero. reflexivity.
  - eexists; split; [reflexivity|]. rewrite Hzero. reflexivity.
Qed.

Lemma X4_error_means_no_generation_witness :
  exists v,
    result (handler (Examples.worker Examples.two_lines)
              (job_of (VDict (Examples.image_only "missing.png")))) = Return v
    /\ generations
         (events (handler (Examples.worker Examples.two_lines)
                    (job_of (VDict (Examples.image_only "missing.png")))))
       = if has_error v then 0%nat else 1%nat.
Proof.
  exact (X4_error_means_no_generation (Examples.worker Examples.two_lines)
           {[ "input" := VDict (Examples.image_only "missing.png") ]}
           (Examples.image_only "missing.png") eq_refl).
Defined.

(** ** Prompts *)

(** X5: for an image job the model is shown the RGB conversion of the
    decoded image together with the [prompt] of the input exactly as it
    was given (an empty or null prompt included), or the configured
    caption prompt when the input has no [prompt] field. *)
Theorem X5_image_prompt_verbatim E j d content tokens :
  j !! "input" = Some (VDict d) ->
  d !! "text" = None ->
  In (Generate content tokens) (events (handler E (VDict j))) ->
  exists image_input img rgb,
    d !! "image" = Some image_input
    /\ result (decode_image E image_input) = Return (Some img)
    /\ convert_rgb E img = Return rgb
    /\ content = [TextPart match d !! "prompt" with
                           | Some p => p
                           | None => VStr (CAPTION_PROMPT E)
                           end;
                  ImagePart rgb].
Proof.
  intros Hj Ht Hin.
  destruct (handler_cases E j d Hj)
    as [(Hrun & _)|[(Hrun & _)|[(s & Ht' & _)|(i & _ & Hi & Hrun)]]];
    try (rewrite Hrun in Hin; now destruct Hin); [congruence|].
  rewrite Hrun, handle_image_run in Hin.
  pose proof (generate_not_in_decode E i) as Hnot.
  destruct (decode_image E i) as [tr [[img|]|e]] eqn:Hdec;
    cbn [events fst] in *; try (now apply Hnot in Hin).
  destruct (convert_rgb E img) as [rgb|e] eqn:Hrgb; cbn [events fst] in Hin.
  - apply in_app_or in Hin as [Hin|[Hin|[Hin|[]]]];
      [now apply Hnot in Hin | discriminate |].
    injection Hin as <- <-. exists i, img, rgb.
    rewrite Hdec. now repeat split.
  - apply in_app_or in Hin as [Hin|[Hin|[]]];
      [now apply Hnot in Hin | discriminate].
Qed.

Lemma X5_image_prompt_verbatim_witness :
  exists image_input img rgb,
    <[ "prompt" := VStr EmptyString ]> (Examples.image_only "scan.png")
      !! "image" = Some image_input
    /\ result (decode_image (Examples.worker Examples.two_lines) image_input)
       = Return (Some img)
    /\ convert_rgb (Examples.worker Examples.two_lines) img = Return rgb
    /\ [TextPart (VStr EmptyString); ImagePart (MkImage "RGB" 1 1 [Byte.x7f])]
       = [TextPart (VStr EmptyString); ImagePart rgb].
Proof.
  assert (Hin : In (Generate [TextPart (VStr EmptyString);
                              ImagePart (MkImage "RGB" 1 1 [Byte.x7f])]
                             (VInt 256))
                   (events (handler (Examples.worker Examples.two_lines)
                              (VDict {[ "input" :=
                                 VDict (<[ "prompt" := VStr EmptyString ]>
                                          (Examples.image_only "scan.png")) ]}))))
    by (right; right; left; reflexivity).
  exact (X5_image_prompt_verbatim (Examples.worker Examples.two_lines)
           {[ "input" :=
                VDict (<[ "prompt" := VStr EmptyString ]>
                         (Examples.image_only "scan.png")) ]}
           (<[ "prompt" := VStr EmptyString ]> (Examples.image_only "scan.png"))
           [TextPart (VStr EmptyString); ImagePart (MkImage "RGB" 1 1 [Byte.x7f])]
           (VInt 256) eq_refl eq_refl Hin).
Defined.

(** X6: a text question is asked under the text-specific default prompt
    of [process_text_question] exactly in the two cases where the prompt
    the handler resolved is false for Python: a [prompt] field that is
    null, empty, zero or otherwise false, or no [prompt] field while the
    configured caption prompt is empty. *)
Theorem X6_text_default_prompt_needs_false_prompt E j d s :
  j !! "input" = Some (VDict d) ->
  d !! "text" = Some (VStr s) ->
  all_chars py_isspace s = false ->
  (exists p, d !! "prompt" = Some p /\ truthy p = false)
  \/ (d !! "prompt" = None /\ CAPTION_PROMPT E = EmptyString) ->
  events (handler E (VDict j)) =
    [Generate [TextPart (VStr (text_default_prompt +:+ NL +:+ NL +:+ s))]
              (tokens_of E d)].
Proof.
  intros Hj Ht Hs Hp. rewrite (text_job_events E j d s Hj Ht Hs).
  unfold question_content, prompt_of.
  destruct Hp as [(p & -> & ->)|[-> ->]]; reflexivity.
Qed.

Lemma X6_text_default_prompt_needs_false_prompt_witness :
  events (handler (Examples.worker Examples.two_lines)
            (job_of (VDict (<[ "prompt" := VNone ]> Examples.text_only))))
  = [Generate [TextPart (VStr (text_default_prompt +:+ NL +:+ NL
                               +:+ "What is hypertension?"))]
              (VInt 256)].
Proof.
  exact (X6_text_default_prompt_needs_false_prompt
           (Examples.worker Examples.two_lines)
           {[ "input" := VDict (<[ "prompt" := VNone ]> Examples.text_only) ]}
           (<[ "prompt" := VNone ]> Examples.text_only)
           "What is hypertension?" eq_refl eq_refl eq_refl
           (or_introl (ex_intro _ VNone (conj eq_refl eq_refl)))).
Defined.

(** ** What the model's text becomes *)

(** X7: when the model returns normally, the text handed back in
    [caption] or [response] is the model's text with every line feed
    turned into a space and the whitespace at both ends removed: it has no
    line feed, neither starts nor ends with whitespace, and it is empty
    when the model produced only whitespace. *)
Theorem X7_returned_text_is_cleaned E j d content tokens text :
  j !! "input" = Some (VDict d) ->
  In (Generate content tokens) (events (handler E (VDict j))) ->
  model_generate E content tokens = Return text ->
  let out := strip (replace LF SP text) in
  (result (handler E (VDict j)) = Return (text_result out)
   \/ result (handler E (VDict j)) = Return (image_result out))
  /\ has_char LF out = false
  /\ trimmed out
  /\ (all_chars py_isspace text = true -> out = EmptyString).
Proof.
  intros Hj Hin Hgen out. split; [|apply (clean_facts text)].
  destruct (handler_cases E j d Hj)
    as [(Hrun & _)|[(Hrun & _)|[(s & Ht & Hs & Hrun)|(i & Ht & Hi & Hrun)]]];
    try (rewrite Hrun in Hin; now destruct Hin).
  - rewrite Hrun in *. cbn [events result fst snd] in *.
    destruct Hin as [Hin|[]]. injection Hin as <- <-.
    rewrite Hgen. now left.
  - rewrite Hrun, handle_image_run in *.
    pose proof (generate_not_in_decode E i) as Hnot.
    destruct (decode_image E i) as [tr [[img|]|e]];
      cbn [events result fst snd] in *; try (now apply Hnot in Hin).
    destruct (convert_rgb E img) as [rgb|e]; cbn [events result fst snd] in *.
    + apply in_app_or in Hin as [Hin|[Hin|[Hin|[]]]];
        [now apply Hnot in Hin | discriminate |].
      injection Hin as <- <-. rewrite Hgen. now right.
    + apply in_app_or in Hin as [Hin|[Hin|[]]];
        [now apply Hnot in Hin | discriminate].
Qed.

Lemma X7_returned_text_is_cleaned_witness :
  result (handler (Examples.worker Examples.two_lines)
            (job_of (VDict Examples.text_only)))
  = Return (text_result "No acute findings. Review in six months.")
  \/ result (handler (Examples.worker Examples.two_lines)
               (job_of (VDict Examples.text_only)))
     = Return (image_result "No acute findings. Review in six months.").
Proof.
  refine (proj1 (X7_returned_text_is_cleaned
                   (Examples.worker Examples.two_lines)
                   {[ "input" := VDict Examples.text_only ]}
                   Examples.text_only
                   [TextPart (VStr (default_caption_prompt +:+ NL +:+ NL
                                    +:+ "What is hypertension?"))]
                   (VInt 256)
                   (" No acute findings." +:+ NL +:+ "Review in six months. ")
                   eq_refl _ eq_refl)).
  left. reflexivity.
Defined.

(** ** The detection cascade *)

Lemma image_job_run E j d s :
  j !! "input" = Some (VDict d) ->
  image_job d s ->
  handler E (VDict j) = handle_image E (VStr s) (prompt_of E d) (tokens_of E d).
Proof.
  intros Hj [Hi Ht]. now rewrite (handler_on_dict E j d Hj), Ht, Hi.
Qed.

(** X8: an image string that starts with [data:image] but has no comma is
    answered with the error of the failed list index, before any external
    call: nothing is decoded. *)
Theorem X8_data_uri_without_comma E j d s :
  j !! "input" = Some (VDict d) ->
  image_job d s ->
  startswith "data:image" s = true ->
  has_char ","%char s = false ->
  handler E (VDict j) =
    ([], Return (VDict (<[ "error" :=
                             VStr "Error processing image: list index out of range" ]>
                          {[ "traceback" :=
                               VStr (format_exc E
                                       (IndexError "list index out of range")) ]}))).
Proof.
  intros Hj Hjob Hstart Hcomma.
  rewrite (image_job_run E j d s Hj Hjob), handle_image_run.
  unfold decode_image, list_index.
  rewrite Hstart, (split_no_sep _ _ Hcomma). reflexivity.
Qed.

Lemma X8_data_uri_without_comma_witness :
  events (handler (Examples.worker Examples.two_lines)
            (job_of (VDict (Examples.image_only "data:image/png;base64"))))
  = [].
Proof.
  exact (f_equal fst
           (X8_data_uri_without_comma (Examples.worker Examples.two_lines)
              {[ "input" := VDict (Examples.image_only "data:image/png;base64") ]}
              (Examples.image_only "data:image/png;base64")
              "data:image/png;base64" eq_refl (conj eq_refl eq_refl)
              eq_refl eq_refl)).
Defined.

Lemma split_first_two sep a b c :
  has_char sep a = false -> has_char sep b = false ->
  split sep (a +:+ String sep (b +:+ String sep c)) !! 1%nat = Some b.
Proof.
  intros Ha Hb. now rewrite (split_app _ _ _ Ha), (split_app _ _ _ Hb).
Qed.

(** X9: of a data URI only the text between the first and the second
    comma is decoded; whatever follows a second comma changes nothing in
    what the handler does or returns. *)
Theorem X9_data_uri_ignores_text_after_second_comma E d header payload more :
  d !! "text" = None ->
  has_char ","%char header = false ->
  has_char ","%char payload = false ->
  handler E
    (VDict {[ "input" :=
                VDict (<[ "image" := VStr ("data:image" +:+ header +:+ ","
                                           +:+ payload +:+ "," +:+ more) ]> d) ]})
  = handler E
      (VDict {[ "input" :=
                  VDict (<[ "image" := VStr ("data:image" +:+ header +:+ ","
                                             +:+ payload) ]> d) ]}).
Proof.
  intros Ht Hh Hp.
  assert (Hjob : forall s, image_job (<[ "image" := VStr s ]> d) s).
  { intros s. split; [apply lookup_insert_eq|].
    rewrite lookup_insert_ne by discriminate. exact Ht. }
  assert (Hsame : forall s (f : Env -> gmap string pyval -> pyval),
             (f = prompt_of \/ f = tokens_of) ->
             f E (<[ "image" := VStr s ]> d) = f E d).
  { intros s f [-> | ->]; unfold prompt_of, tokens_of;
      now rewrite lookup_insert_ne by discriminate. }
  rewrite !(image_job_run E _ _ _ (lookup_singleton_eq _ _) (Hjob _)).
  rewrite !(Hsame _ prompt_of), !(Hsame _ tokens_of) by auto.
  rewrite !handle_image_run.
  replace (decode_image E (VStr ("data:image" +:+ header +:+ "," +:+ payload
                                 +:+ "," +:+ more)))
    with (decode_image E (VStr ("data:image" +:+ header +:+ "," +:+ payload)));
    [reflexivity|].
  unfold decode_image, list_index. unfold startswith. rewrite !prefix_app.
  rewrite (data_uri_second_piece _ _ Hh Hp).
  change ("data:image" +:+ header +:+ "," +:+ payload +:+ "," +:+ more)
    with ("data:image" +:+ (header +:+ String ","%char
                              (payload +:+ String ","%char more))).
  rewrite <- app_assoc_str, split_first_two; [reflexivity| |exact Hp].
  rewrite has_char_app, Hh. reflexivity.
Qed.

Lemma X9_data_uri_ignores_text_after_second_comma_witness :
  handler (Examples.worker Examples.two_lines)
    (VDict {[ "input" :=
                VDict (<[ "image" := VStr ("data:image" +:+ "/gif;base64" +:+ ","
                                           +:+ Examples.gif_base64 +:+ ","
                                           +:+ "ignored") ]> ∅) ]})
  = handler (Examples.worker Examples.two_lines)
      (VDict {[ "input" :=
                  VDict (<[ "image" := VStr ("data:image" +:+ "/gif;base64" +:+ ","
                                             +:+ Examples.gif_base64) ]> ∅) ]}).
Proof.
  exact (X9_data_uri_ignores_text_after_second_comma
           (Examples.worker Examples.two_lines) ∅ "/gif;base64"
           Examples.gif_base64 "ignored" eq_refl eq_refl eq_refl).
Defined.

(** The events of the image branch are those of the decoding, followed
    by the conversion and the generation when it gets that far. *)
Lemma handle_image_events E image_input prompt tokens :
  exists after,
    events (handle_image E image_input prompt tokens)
    = events (decode_image E image_input) ++ after
    /\ Forall (fun ev => is_b64decode ev = false) after.
Proof.
  rewrite handle_image_run.
  destruct (decode_image E image_input) as [tr [[img|]|e]]; cbn [events fst].
  - destruct (convert_rgb E img) as [rgb|e]; cbn [events fst];
      eexists; (split; [reflexivity|]); repeat constructor.
  - exists []. now rewrite app_nil_r.
  - exists []. now rewrite app_nil_r.
Qed.

Lemma no_b64decode_short E s :
  startswith "data:image" s = false ->
  (String.length s <= 100)%nat ->
  all_events (fun ev => is_b64decode ev = false) (decode_image E (VStr s)).
Proof.
  intros Hd Hlen. unfold decode_image. rewrite Hd.
  apply Nat.leb_le in Hlen. rewrite Nat.ltb_antisym, Hlen. cbn [negb].
  destruct (startswith_any url_schemes s).
  - apply all_bind; [|intros; apply all_ret].
    unfold open_url. apply all_bind; [now apply all_call|].
    intros r. apply all_bind; [apply all_lift|].
    intros _. now apply all_call.
  - apply all_bind; [|intros; apply all_ret]. now apply all_call.
Qed.

Lemma b64decode_first_long E s :
  startswith "data:image" s = false ->
  (100 < String.length s)%nat ->
  exists rest, events (decode_image E (VStr s)) = B64Decode s :: rest.
Proof.
  intros Hd Hlen. unfold decode_image. rewrite Hd.
  apply Nat.ltb_lt in Hlen. rewrite Hlen.
  unfold open_base64, try_except, bind, call, ret, events.
  destruct (b64decode E s) as [raw|e].
  - destruct (image_open E raw) as [img|e]; [eexists; reflexivity|].
    destruct (if startswith_any url_schemes s then open_url E s
              else open_path E s) as [tr [img|e']];
      eexists; reflexivity.
  - destruct (if startswith_any url_schemes s then open_url E s
              else open_path E s) as [tr [img|e']];
      eexists; reflexivity.
Qed.

(** X10: the handler tries an image string as bare base64 exactly when it
    is longer than 100 characters (and does not start with [data:image]):
    a shorter string is never handed to the base64 decoder, a longer one
    is handed to it, whole, as the first external call. *)
Theorem X10_base64_is_tried_only_above_100_characters E j d s :
  j !! "input" = Some (VDict d) ->
  image_job d s ->
  startswith "data:image" s = false ->
  ((String.length s <= 100)%nat ->
   Forall (fun ev => is_b64decode ev = false) (events (handler E (VDict j))))
  /\ ((100 < String.length s)%nat ->
      exists rest, events (handler E (VDict j)) = B64Decode s :: rest).
Proof.
  intros Hj Hjob Hd. rewrite (image_job_run E j d s Hj Hjob).
  destruct (handle_image_events E (VStr s) (prompt_of E d) (tokens_of E d))
    as (after & -> & Hafter).
  split; intros Hlen.
  - apply Forall_app. split; [|exact Hafter].
    apply (no_b64decode_short E s Hd Hlen).
  - destruct (b64decode_first_long E s Hd Hlen) as (rest & ->).
    eexists. reflexivity.
Qed.

Lemma X10_base64_is_tried_only_above_100_characters_witness :
  Forall (fun ev => is_b64decode ev = false)
    (events (handler (Examples.worker Examples.two_lines)
               (job_of (VDict (Examples.image_only Examples.gif_base64))))).
Proof.
  refine (proj1 (X10_base64_is_tried_only_above_100_characters
                   (Examples.worker Examples.two_lines)
                   {[ "input" := VDict (Examples.image_only Examples.gif_base64) ]}
                   (Examples.image_only Examples.gif_base64)
                   Examples.gif_base64 eq_refl (conj eq_refl eq_refl) eq_refl) _).
  vm_compute. lia.
Defined.

Lemma raise_for_status_error url r :
  (400 <= status_code r < 600)%Z ->
  exists e, raise_for_status url r = Raise e /\ exn_type e = "HTTPError".
Proof.
  intros [Hlo Hhi]. unfold raise_for_status.
  apply Z.leb_le in Hlo. rewrite Hlo. cbn [andb].
  destruct (status_code r <? 500)%Z eqn:H5; [eexists; split; reflexivity|].
  apply Z.ltb_ge, Z.leb_le in H5. apply Z.ltb_lt in Hhi.
  rewrite H5, Hhi. eexists; split; reflexivity.
Qed.

Lemma raise_for_status_ok url r :
  ~ (400 <= status_code r < 600)%Z -> raise_for_status url r = Return tt.
Proof.
  intros Hn. unfold raise_for_status.
  destruct (400 <=? status_code r)%Z eqn:H4;
    destruct (status_code r <? 500)%Z eqn:H5; cbn [andb];
    destruct (500 <=? status_code r)%Z eqn:H6;
    destruct (status_code r <? 600)%Z eqn:H7; cbn [andb];
    try reflexivity; exfalso; apply Hn; lia.
Qed.

(** X11: when an image URL is answered with a 4xx or 5xx status, the job
    ends in an error result that reports the [HTTPError]; the request is
    the last external call, so the body is never opened as an image and
    the model is never called. *)
Theorem X11_http_error_status_is_reported E j d s r :
  j !! "input" = Some (VDict d) ->
  image_job d s ->
  startswith_any url_schemes s = true ->
  (String.length s <= 100)%nat \/ ~ opens_as_base64 E s ->
  requests_get E s = Return r ->
  (400 <= status_code r < 600)%Z ->
  exists e before,
    exn_type e = "HTTPError"
    /\ result (handler E (VDict j)) =
         Return (VDict (<[ "error" := VStr ("Error processing image: "
                                            +:+ exn_msg e) ]>
                        {[ "traceback" := VStr (format_exc E e) ]}))
    /\ events (handler E (VDict j)) = before ++ [RequestsGet s].
Proof.
  intros Hj Hjob Hu Hlen Hget Hcode.
  destruct (raise_for_status_error s r Hcode) as (e & Hrfs & Htype).
  assert (Hurl : open_url E s = ([RequestsGet s], Raise e)).
  { unfold open_url, bind, call, lift. now rewrite Hget, Hrfs. }
  rewrite (image_job_run E j d s Hj Hjob), handle_image_run.
  unfold decode_image. rewrite (url_not_data_uri s Hu).
  destruct (100 <? String.length s)%nat eqn:Hl.
  - destruct Hlen as [Hlen|Hn]; [apply Nat.ltb_lt in Hl; lia|].
    destruct (open_base64_fails E s Hn) as (tr & e' & ->).
    unfold try_except. rewrite Hu, Hurl. cbn [bind].
    exists e, tr. now repeat split.
  - rewrite Hu, Hurl. cbn [bind].
    exists e, []. now repeat split.
Qed.

Lemma X11_http_error_status_is_reported_witness :
  exists e before,
    exn_type e = "HTTPError"
    /\ result (handler worker_404
                 (VDict {[ "input" :=
                             VDict (Examples.image_only "https://host/scan.png") ]})) =
         Return (VDict (<[ "error" := VStr ("Error processing image: "
                                            +:+ exn_msg e) ]>
                        {[ "traceback" := VStr (format_exc worker_404 e) ]}))
    /\ events (handler worker_404
                 (VDict {[ "input" :=
                             VDict (Examples.image_only "https://host/scan.png") ]}))
       = before ++ [RequestsGet "https://host/scan.png"].
Proof.
  refine (X11_http_error_status_is_reported worker_404
            {[ "input" := VDict (Examples.image_only "https://host/scan.png") ]}
            (Examples.image_only "https://host/scan.png")
            "https://host/scan.png" not_found
            eq_refl (conj eq_refl eq_refl) eq_refl _ eq_refl _).
  - left. vm_compute. lia.
  - unfold not_found. simpl. lia.
Defined.

End HandlerEdge.

(* ===================================================================== *)
(** * The client: edge cases and invariants *)
(* ===================================================================== *)

Module ClientEdge.
Import PyStr Py Requests Client PyStrFacts PyFacts ClientSpec Observe.
Local Open Scope py_scope.

(** ** No request function raises *)

Lemma try_except_returns {Ev A} (m : M Ev A) (h : exn -> M Ev A) :
  (forall e, exists a, result (h e) = Return a) ->
  exists a, result (try_except m h) = Return a.
Proof.
  intros Hh. destruct m as [tr [a|e]]; cbn [try_except result snd]; [eauto|].
  destruct (Hh e) as (a & Ha). destruct (h e) as [tr' r].
  cbn [result snd] in *. eauto.
Qed.

(** X12: none of the four request functions ever raises: whatever the
    encoder, the endpoint and the status endpoint do, the function returns
    (or, for the asynchronous ones, is still polling), so one failing item
    cannot take the batch down. *)
Theorem X12_request_functions_never_raise E args :
  (forall image_path,
      result (send_image_request_sync E image_path args) = Return tt)
  /\ (forall question question_index,
        result (send_text_request_sync E question question_index args)
        = Return tt)
  /\ (forall image_path script,
        exists state,
          result (send_image_request_async E image_path args script)
          = Return state)
  /\ (forall question question_index script,
        exists state,
          result (send_text_request_async E question question_index args script)
          = Return state).
Proof.
  assert (Hunit : forall m : M io_ev unit,
             (exists a, result m = Return a) -> result m = Return tt).
  { intros m ([] & H). exact H. }
  split; [|split; [|split]]; intros.
  - apply Hunit. apply try_except_returns. intros e. now exists tt.
  - apply Hunit. apply try_except_returns. intros e. now exists tt.
  - apply try_except_returns. intros e. now exists Finished.
  - apply try_except_returns. intros e. now exists Finished.
Qed.

(** ** What every event of a request function looks like *)

Lemma all_poll (P : io_ev -> Prop) body script :
  (forall answer, all_events P (body answer)) ->
  all_events P (poll body script).
Proof.
  intros Hbody. induction script as [|answer script IH]; [apply all_ret|].
  cbn [poll]. apply all_bind; [apply Hbody|].
  intros [|]; [apply all_ret|exact IH].
Qed.

(** Prove [all_events P m] along the structure of [m], closing the
    obligation at each event with [leaf]. *)
Ltac all_ev_with leaf :=
  repeat first
    [ apply all_ret | apply all_raise | apply all_lift
    | apply all_emit; leaf
    | apply all_call; leaf
    | apply all_poll; intros
    | apply all_bind; [|intros]
    | apply all_try_except; [|intros]
    | match goal with
      | |- all_events _ (if ?b then _ else _) => destruct b
      | |- all_events _ (match ?x with _ => _ end) => destruct x
      end ].

Ltac unfold_client :=
  unfold send_image_request_sync, send_text_request_sync,
    send_image_request_async, send_text_request_async,
    image_poll_body, text_poll_body, encode_image_to_base64,
    post_json, get_json, print, file_write, time_sleep.

Ltac request_leaf :=
  first
    [ exact I
    | split; [reflexivity|split; [reflexivity|eexists; reflexivity]]
    | split; [eexists; reflexivity|reflexivity] ].

(** X13: every HTTP request a request function sends is well formed: a
    POST goes to [/runsync] (synchronous) or [/run] (asynchronous) of the
    configured endpoint with a payload [{"input": {"image": ...}}] or
    [{"input": {"text": ...}}], a GET goes to a [/status/<job>] URL of the
    same endpoint, and each carries [Authorization: Bearer <api_key>] and
    the JSON content type. *)
Theorem X13_requests_are_well_formed E args :
  (forall image_path,
      Forall (request_ok args "runsync" "image")
        (events (send_image_request_sync E image_path args)))
  /\ (forall question question_index,
        Forall (request_ok args "runsync" "text")
          (events (send_text_request_sync E question question_index args)))
  /\ (forall image_path script,
        Forall (request_ok args "run" "image")
          (events (send_image_request_async E image_path args script)))
  /\ (forall question question_index script,
        Forall (request_ok args "run" "text")
          (events (send_text_request_async E question question_index args
                     script))).
Proof.
  split; [|split; [|split]]; intros;
    match goal with |- Forall ?P (events ?m) => change (all_events P m) end;
    unfold_client; all_ev_with request_leaf.
Qed.

Ltac quiet_leaf := first [exact I | split; reflexivity | reflexivity].

(** X14: the synchronous request functions never sleep and never send a
    status request. *)
Theorem X14_sync_functions_never_poll E args :
  (forall image_path,
      Forall quiet (events (send_image_request_sync E image_path args)))
  /\ (forall question question_index,
        Forall quiet
          (events (send_text_request_sync E question question_index args))).
Proof.
  split; intros;
    match goal with |- Forall ?P (events ?m) => change (all_events P m) end;
    unfold_client; all_ev_with quiet_leaf.
Qed.

(** X15: the only file a request function for an image opens or writes is
    the caption file of that image, and the only file the asynchronous
    text function opens or writes is the answer file of its question. *)
Theorem X15_files_touched E args :
  (forall image_path,
      Forall (file_path_is (fst (splitext (path_seps E) image_path) +:+ ".txt"))
        (events (send_image_request_sync E image_path args)))
  /\ (forall image_path script,
        Forall (file_path_is (fst (splitext (path_seps E) image_path) +:+ ".txt"))
          (events (send_image_request_async E image_path args script)))
  /\ (forall question question_index script,
        Forall (file_path_is ("question_" +:+ pretty (question_index + 1)%nat
                              +:+ ".txt"))
          (events (send_text_request_async E question question_index args
                     script))).
Proof.
  split; [|split]; intros;
    match goal with |- Forall ?P (events ?m) => change (all_events P m) end;
    unfold_client; all_ev_with quiet_leaf.
Qed.

(** ** Failures before the result *)

Ltac all_offline := repeat constructor.

(** X16: when an image cannot be encoded (the encoder raises, or yields an
    empty text), neither image function sends any request or touches any
    file, and the asynchronous one returns without polling. *)
Theorem X16_unreadable_image_is_skipped E args image_path :
  (exists e, jpeg_base64 E image_path = Raise e)
  \/ jpeg_base64 E image_path = Return EmptyString ->
  Forall offline (events (send_image_request_sync E image_path args))
  /\ forall script,
       Forall offline (events (send_image_request_async E image_path args script))
       /\ result (send_image_request_async E image_path args script)
          = Return Finished.
Proof.
  intros Henc.
  unfold send_image_request_sync, send_image_request_async,
    encode_image_to_base64.
  destruct Henc as [(e & ->)| ->]; run_monad;
    (split; [all_offline|]); intros script; (split; [all_offline|reflexivity]).
Qed.

Lemma X16_unreadable_image_is_skipped_witness :
  Forall offline
    (events (send_image_request_sync desk_blind "xray/chest.jpg"
               Examples.desk_args)).
Proof.
  exact (proj1 (X16_unreadable_image_is_skipped desk_blind Examples.desk_args
                  "xray/chest.jpg"
                  (or_introl (ex_intro _ _ eq_refl)))).
Defined.

Lemma post_fails_run E args route payload :
  post_fails E args route ->
  exists e,
    post_json E (run_url args route) (request_headers args) payload
    = ([Post (run_url args route) (request_headers args) payload], Raise e).
Proof.
  intros Hfail. unfold post_json.
  destruct (Hfail payload) as [(e & ->)|(r & -> & Hcode)]; run_monad.
  - now exists e.
  - destruct (HandlerEdge.raise_for_status_error (run_url args route) r Hcode)
      as (e & -> & _).
    run_monad. now exists e.
Qed.

Lemma post_answers_run E args route body payload :
  post_answers E args route body ->
  post_json E (run_url args route) (request_headers args) payload
  = ([Post (run_url args route) (request_headers args) payload], Return body).
Proof.
  intros Hans. unfold post_json.
  destruct (Hans payload) as (r & -> & Hs & Hj). run_monad.
  rewrite Hs. run_monad. now rewrite Hj.
Qed.

Ltac all_idle := repeat constructor.





(** ** What ends up on disk *)

Lemma answered_run E args field value result :
  answered E args field value result ->
  post_json E (run_url args "runsync") (request_headers args)
    (input_payload field value)
  = ([Post (run_url args "runsync") (request_headers args)
           (input_payload field value)],
     Return (VDict result)).
Proof.
  intros (r & Hp & Hs & Hj). unfold post_json. rewrite Hp. run_monad.
  rewrite Hs. run_monad. now rewrite Hj.
Qed.

(** X19: when the endpoint's answer to a synchronous request carries an
    [error] entry, the client prints it and opens no file, for an image
    and for a question alike. *)
Theorem X19_error_reply_writes_nothing E args result err :
  result !! "error" = Some err ->
  (forall image_path b64,
      encodes E image_path b64 ->
      answered E args "image" b64 result ->
      events (send_image_request_sync E image_path args) =
        [Print ("Processing image: " +:+ basename E image_path +:+ "...");
         EncodeImage image_path;
         Post (run_url args "runsync") (request_headers args)
              (input_payload "image" b64);
         Print ("Error with " +:+ basename E image_path +:+ ": "
                +:+ fmt E err)])
  /\ (forall question question_index,
        answered E args "text" question result ->
        file_events
          (events (send_text_request_sync E question question_index args))
        = []).
Proof.
  intros Herr. split.
  - intros image_path b64 [Hb Hne] Hans.
    unfold send_image_request_sync, encode_image_to_base64.
    rewrite Hb. run_monad. destruct b64 as [|c b64]; [congruence|].
    rewrite (answered_run E args "image" _ result Hans). run_monad.
    cbn [py_in py_getitem]. rewrite Herr. run_monad. reflexivity.
  - intros question question_index Hans.
    unfold send_text_request_sync. run_monad.
    rewrite (answered_run E args "text" _ result Hans). run_monad.
    cbn [py_in py_getitem]. rewrite Herr. run_monad. reflexivity.
Qed.

Lemma X19_error_reply_writes_nothing_witness :
  file_events
    (events (send_text_request_sync desk_error "What is flu?" 0
               Examples.desk_args))
  = [].
Proof.
  refine (proj2 (X19_error_reply_writes_nothing desk_error Examples.desk_args
                   error_reply (VStr "worker exited") eq_refl)
            "What is flu?" 0%nat _).
  eexists. split; [reflexivity|]. split; reflexivity.
Defined.

(** X20: when the endpoint's answer to a synchronous image request has no
    [error] entry but also no caption to give ([output] is missing, or is
    a dictionary without [caption]), the caption file has already been
    opened for writing: the client leaves it empty, whatever it held
    before. *)
Theorem X20_missing_caption_leaves_empty_file E args image_path b64 result :
  encodes E image_path b64 ->
  answered E args "image" b64 result ->
  result !! "error" = None ->
  result !! "output" = None
  \/ (exists output, result !! "output" = Some (VDict output)
                     /\ output !! "caption" = None) ->
  let tr := events (send_image_request_sync E image_path args) in
  file_events tr = [OpenWrite (caption_path E image_path)]
  /\ forall fs,
       fs_after tr fs = <[ caption_path E image_path := EmptyString ]> fs.
Proof.
  intros [Hb Hne] Hans Herr Hout.
  unfold send_image_request_sync, encode_image_to_base64.
  rewrite Hb. run_monad. destruct b64 as [|c b64]; [congruence|].
  rewrite (answered_run E args "image" _ result Hans). run_monad.
  cbn [py_in py_getitem]. rewrite Herr. run_monad.
  destruct Hout as [->|(output & -> & Hcap)]; run_monad;
    [|cbn [py_getitem]; rewrite Hcap; run_monad]; now split.
Qed.

Lemma X20_missing_caption_leaves_empty_file_witness :
  file_events (events (send_image_request_sync desk_no_output "xray/chest.jpg"
                         Examples.desk_args))
  = [OpenWrite "xray/chest.txt"].
Proof.
  refine (proj1 (X20_missing_caption_leaves_empty_file desk_no_output
                   Examples.desk_args "xray/chest.jpg" "/9j/4AAQSkZJRg=="
                   {[ "status" := VStr "COMPLETED" ]} _ _ eq_refl
                   (or_introl eq_refl))).
  - split; [reflexivity|discriminate].
  - eexists. split; [reflexivity|]. split; reflexivity.
Defined.

Lemma app_cancel_r a b c : a +:+ c = b +:+ c -> a = b.
Proof.
  assert (Hlen : forall x y, String.length (x +:+ y)
                             = (String.length x + String.length y)%nat).
  { intros x y. induction x as [|ch x IH]; [reflexivity|].
    rewrite app_cons. simpl. now rewrite IH. }
  revert b. induction a as [|x a IH]; intros [|y b] H.
  - reflexivity.
  - apply (f_equal String.length) in H. rewrite !Hlen in H. simpl in H. lia.
  - apply (f_equal String.length) in H. rewrite !Hlen in H. simpl in H. lia.
  - rewrite !app_cons in H. injection H as -> H. f_equal. now apply IH.
Qed.

Lemma answer_path_inj i j : answer_path i = answer_path j -> i = j.
Proof.
  unfold answer_path. intros H.
  apply (String.app_inj "question_") in H.
  apply app_cancel_r in H.
  apply (inj pretty) in H. lia.
Qed.

(** X21: two questions are saved in the same file only if they have the
    same index: [question_N.txt] determines [N]. *)
Theorem X21_answer_files_are_distinct i j :
  answer_path i = answer_path j <-> i = j.
Proof. split; [apply answer_path_inj|now intros ->]. Qed.

(** X22: the caption file is the image file itself exactly when the image
    path has the extension [.txt]; for any other extension the client
    never overwrites the image it read. *)
Theorem X22_caption_file_is_not_the_image E image_path :
  caption_path E image_path = image_path
  <-> snd (splitext (path_seps E) image_path) = ".txt".
Proof.
  unfold caption_path.
  pose proof (splitext_join (path_seps E) image_path) as Hjoin.
  split; intros H.
  - rewrite <- Hjoin in H at 2. now apply String.app_inj in H.
  - rewrite <- H. exact Hjoin.
Qed.

(** ** What the asynchronous functions save *)

Lemma fs_after_file_events tr fs : fs_after tr fs = fs_after (file_events tr) fs.
Proof.
  revert fs. induction tr as [|ev tr IH]; intros fs; [reflexivity|].
  destruct ev; simpl; auto.
Qed.

Lemma file_events_app tr1 tr2 :
  file_events (tr1 ++ tr2) = file_events tr1 ++ file_events tr2.
Proof. apply List.filter_app. Qed.

Section Saving.
Variable body : outcome response -> M io_ev flow.
Variables (url : string) (headers : gmap string string) (interval : Z).
Variables (before : list io_ev) (on_error : exn -> string).

Hypothesis body_keeps :
  forall answer,
    keeps_polling url answer ->
    exists msg,
      body answer = ([Sleep interval; Get url headers; Print msg],
                     Return Continue).

Hypothesis before_files : file_events before = [].

(** The files of a run are those of the pass that ends the loop. *)
Lemma files_of_run pre answer post :
  Forall (keeps_polling url) pre ->
  result (body answer) <> Return Continue ->
  file_events
    (events (around_poll before on_error (poll body (pre ++ answer :: post))))
  = file_events (events (body answer))
  /\ result (around_poll before on_error (poll body (pre ++ answer :: post)))
     = Return Finished.
Proof.
  intros Hpre Hstop.
  assert (Hlast : events (poll body (answer :: post)) = events (body answer)
                  /\ result (poll body (answer :: post)) <> Return StillPolling).
  { cbn [poll]. destruct (body answer) as [tr [[|]|e]];
      cbn [bind ret events result fst snd] in *;
      rewrite ?app_nil_r; try (split; [reflexivity|discriminate]).
    now destruct Hstop. }
  assert (Hpoll : file_events (events (poll body (pre ++ answer :: post)))
                  = file_events (events (body answer))
                  /\ result (poll body (pre ++ answer :: post))
                     <> Return StillPolling).
  { induction Hpre as [|a pre Hk _ IH];
      [cbn [app]; now destruct Hlast as [-> ?]|].
    rewrite <- app_comm_cons.
    rewrite (poll_cons_keep body url headers interval body_keeps a _ Hk).
    destruct (body_keeps a Hk) as (msg & ->).
    cbn [events result fst snd app]. exact IH. }
  destruct Hpoll as [Hfiles Hres].
  unfold around_poll at 1. cbn [events fst].
  rewrite !file_events_app, before_files, Hfiles. cbn [app].
  split.
  - destruct (result (poll body (pre ++ answer :: post))); cbn;
      now rewrite app_nil_r.
  - unfold around_poll. cbn [result snd].
    destruct (result (poll body (pre ++ answer :: post))) as [[|]|e];
      try reflexivity. now destruct Hres.
Qed.
End Saving.

Ltac enter_reported Hrep :=
  destruct Hrep as (r & -> & Hrfs & Hjson);
  unfold get_json; run_monad; rewrite Hrfs; run_monad;
  rewrite Hjson; run_monad; cbn [py_get].

Lemma image_body_completed E image_path image_name url headers answer
    status_data caption :
  (0 <= POLLING_INTERVAL E)%Z ->
  reports url answer status_data ->
  completed_with "caption" caption status_data ->
  image_poll_body E image_path image_name url headers answer =
    ([Sleep (POLLING_INTERVAL E); Get url headers;
      OpenWrite (caption_path E image_path);
      Write (caption_path E image_path) caption;
      Print ("Caption saved to " +:+ caption_path E image_path)],
     Return Break).
Proof.
  intros Hok Hrep (Hst & Hne & output & Hout & Hcap).
  unfold image_poll_body. rewrite (time_sleep_ok _ Hok). enter_reported Hrep.
  rewrite Hst. run_monad.
  change (eq_str (VStr "COMPLETED") "COMPLETED") with true. cbv iota.
  rewrite Hout. run_monad. cbn [py_get]. rewrite Hcap. run_monad.
  destruct caption as [|c caption]; [congruence|]. reflexivity.
Qed.

Lemma text_body_completed E question question_index url headers answer
    status_data value :
  (0 <= POLLING_INTERVAL E)%Z ->
  reports url answer status_data ->
  completed_with "answer" value status_data ->
  text_poll_body E question question_index url headers answer =
    ([Sleep (POLLING_INTERVAL E); Get url headers;
      OpenWrite (answer_path question_index);
      Write (answer_path question_index)
        ("Question: " +:+ question +:+ NL +:+ NL +:+ "Answer: " +:+ value);
      Print ("Answer saved to " +:+ answer_path question_index)],
     Return Break).
Proof.
  intros Hok Hrep (Hst & Hne & output & Hout & Hcap).
  unfold text_poll_body. rewrite (time_sleep_ok _ Hok). enter_reported Hrep.
  rewrite Hst. run_monad.
  change (eq_str (VStr "COMPLETED") "COMPLETED") with true. cbv iota.
  rewrite Hout. run_monad. cbn [py_get]. rewrite Hcap. run_monad.
  destruct value as [|c value]; [congruence|]. reflexivity.
Qed.



Lemma image_body_nothing E image_path image_name url headers answer
    status_data :
  reports url answer status_data ->
  nothing_to_save "caption" status_data ->
  file_events
    (events (image_poll_body E image_path image_name url headers answer)) = []
  /\ result (image_poll_body E image_path image_name url headers answer)
     <> Return Continue.
Proof.
  intros Hrep Hnothing.
  destruct (Z.lt_ge_cases (POLLING_INTERVAL E) 0) as [Hneg|Hok].
  { rewrite (image_body_refused E _ _ _ _ _ Hneg). now split. }
  unfold image_poll_body. rewrite (time_sleep_ok _ Hok). enter_reported Hrep.
  destruct Hnothing as [Hst|[Hst|[Hst Hout]]]; rewrite Hst; run_monad.
  - change (eq_str (VStr "FAILED") "COMPLETED") with false.
    change (eq_str (VStr "FAILED") "FAILED") with true. cbv iota.
    run_monad. now split.
  - change (eq_str (VStr "CANCELLED") "COMPLETED") with false.
    change (eq_str (VStr "CANCELLED") "FAILED") with false.
    change (eq_str (VStr "CANCELLED") "CANCELLED") with true. cbv iota.
    run_monad. now split.
  - change (eq_str (VStr "COMPLETED") "COMPLETED") with true. cbv iota.
    destruct (status_data !! "output") as [[| | | | | |output]|];
      run_monad; cbn [py_get]; run_monad; try (now split);
      try (rewrite lookup_empty; cbn [truthy]; run_monad; now split).
    destruct (output !! "caption") as [caption|]; run_monad.
    + rewrite Hout. run_monad. now split.
    + cbn [truthy]. run_monad. now split.
Qed.

Lemma text_body_nothing E question question_index url headers answer
    status_data :
  reports url answer status_data ->
  nothing_to_save "answer" status_data ->
  file_events
    (events (text_poll_body E question question_index url headers answer)) = []
  /\ result (text_poll_body E question question_index url headers answer)
     <> Return Continue.
Proof.
  intros Hrep Hnothing.
  destruct (Z.lt_ge_cases (POLLING_INTERVAL E) 0) as [Hneg|Hok].
  { rewrite (text_body_refused E _ _ _ _ _ Hneg). now split. }
  unfold text_poll_body. rewrite (time_sleep_ok _ Hok). enter_reported Hrep.
  destruct Hnothing as [Hst|[Hst|[Hst Hout]]]; rewrite Hst; run_monad.
  - change (eq_str (VStr "FAILED") "COMPLETED") with false.
    change (eq_str (VStr "FAILED") "FAILED") with true. cbv iota.
    run_monad. now split.
  - change (eq_str (VStr "CANCELLED") "COMPLETED") with false.
    change (eq_str (VStr "CANCELLED") "FAILED") with false.
    change (eq_str (VStr "CANCELLED") "CANCELLED") with true. cbv iota.
    run_monad. now split.
  - change (eq_str (VStr "COMPLETED") "COMPLETED") with true. cbv iota.
    destruct (status_data !! "output") as [[| | | | | |output]|];
      run_monad; cbn [py_get]; run_monad; try (now split);
      try (rewrite lookup_empty; cbn [truthy]; run_monad; now split).
    destruct (output !! "answer") as [answer'|]; run_monad.
    + rewrite Hout. run_monad. now split.
    + cbn [truthy]. run_monad. now split.
Qed.

(** X24: once submitted, when the loop ends on a job that failed, was
    cancelled, or completed without a result to save, the asynchronous
    functions return without having opened or written any file. *)
Theorem X24_no_file_without_result E args job_id pre answer post status_data :
  Forall (keeps_polling (status_url E args job_id)) pre ->
  reports (status_url E args job_id) answer status_data ->
  (forall image_path b64,
      encodes E image_path b64 ->
      submitted E args "image" b64 job_id ->
      nothing_to_save "caption" status_data ->
      let run :=
        send_image_request_async E image_path args (pre ++ answer :: post) in
      result run = Return Finished /\ file_events (events run) = [])
  /\ (forall question question_index,
        submitted E args "text" question job_id ->
        nothing_to_save "answer" status_data ->
        let run :=
          send_text_request_async E question question_index args
            (pre ++ answer :: post) in
        result run = Return Finished /\ file_events (events run) = []).
Proof.
  intros Hpre Hrep.
  assert (Hscript : pre ++ answer :: post <> [])
    by (destruct pre; discriminate).
  destruct (Z.lt_ge_cases (POLLING_INTERVAL E) 0) as [Hneg|Hok].
  { (* the first sleep is refused: the function prints and returns *)
    split.
    - intros image_path b64 [Hb Hne] Hsub _. cbv zeta.
      rewrite (async_image_shape E image_path args b64 job_id _ Hb Hne Hsub).
      rewrite (around_refused _ _ _ _ _
                 (fun a => image_body_refused E _ _ _ _ a Hneg) Hscript).
      now split.
    - intros question question_index Hsub _. cbv zeta.
      rewrite (async_text_shape E question question_index args job_id _ Hsub).
      rewrite (around_refused _ _ _ _ _
                 (fun a => text_body_refused E _ _ _ _ a Hneg) Hscript).
      now split. }
  split.
  - intros image_path b64 [Hb Hne] Hsub Hnothing. cbv zeta.
    rewrite (async_image_shape E image_path args b64 job_id _ Hb Hne Hsub).
    destruct (image_body_nothing E image_path (basename E image_path)
                _ (request_headers args) answer status_data Hrep Hnothing)
      as [Hnone Hstop].
    match goal with
    | |- context [around_poll ?b ?f (poll ?bd _)] =>
        destruct (files_of_run bd (status_url E args job_id)
                    (request_headers args) (POLLING_INTERVAL E) b f
                    (image_body_keeps E _ _ Hok _ _) eq_refl
                    pre answer post Hpre Hstop) as [Hfiles Hres]
    end.
    split; [exact Hres|]. now rewrite Hfiles.
  - intros question question_index Hsub Hnothing. cbv zeta.
    rewrite (async_text_shape E question question_index args job_id _ Hsub).
    destruct (text_body_nothing E question question_index
                _ (request_headers args) answer status_data Hrep Hnothing)
      as [Hnone Hstop].
    match goal with
    | |- context [around_poll ?b ?f (poll ?bd _)] =>
        destruct (files_of_run bd (status_url E args job_id)
                    (request_headers args) (POLLING_INTERVAL E) b f
                    (text_body_keeps E _ _ Hok _ _) eq_refl
                    pre answer post Hpre Hstop) as [Hfiles Hres]
    end.
    split; [exact Hres|]. now rewrite Hfiles.
Qed.

Lemma X24_no_file_without_result_witness :
  file_events
    (events (send_text_request_async Examples.desk "What is flu?" 0
               Examples.desk_args
               [Examples.status_answer "IN_PROGRESS";
                Examples.status_answer "FAILED"]))
  = [].
Proof.
  refine (proj2 (proj2
            (X24_no_file_without_result Examples.desk Examples.desk_args
               (VStr "job-1") [Examples.status_answer "IN_PROGRESS"]
               (Examples.status_answer "FAILED") []
               {[ "status" := VStr "FAILED" ]} _ _)
            "What is flu?" 0%nat (desk_submitted "text" "What is flu?") _)).
  - repeat constructor. now apply desk_keeps.
  - eexists. split; [reflexivity|]. split; reflexivity.
  - left. reflexivity.
Defined.

End ClientEdge.

(* ===================================================================== *)
(** * Discovery and dispatch: properties *)
(* ===================================================================== *)

Module BatchSpec.
Import PyStr Py Requests Client PyStrFacts PyFacts ClientSpec Observe Batch.
Local Open Scope py_scope.

(** ** Lines and questions *)

Lemma file_lines_shape content : Forall line_shaped (file_lines content).
Proof.
  induction content as [|c rest IH]; [constructor|].
  cbn [file_lines]. destruct (Ascii.eqb c LF) eqn:Hc.
  - constructor; [|exact IH]. exists EmptyString. split; [reflexivity|now right].
  - destruct (file_lines rest) as [|line lines].
    + constructor; [|constructor]. exists (String c EmptyString).
      split; [simpl; now rewrite Hc|now left].
    + inversion IH as [|? ? (body & Hbody & Hline) Hrest]; subst.
      constructor; [|exact Hrest].
      exists (String c body). split; [simpl; now rewrite Hc, Hbody|].
      destruct Hline as [->| ->]; [now left|now right].
Qed.

Lemma rstrip_app_space t c :
  py_isspace c = true -> rstrip (t +:+ String c EmptyString) = rstrip t.
Proof.
  intros Hc. induction t as [|a t IH].
  - change (EmptyString +:+ String c EmptyString) with (String c EmptyString).
    simpl. now rewrite Hc.
  - rewrite app_cons. simpl. now rewrite IH.
Qed.

Lemma lstrip_app t u :
  all_chars py_isspace t = false -> lstrip (t +:+ u) = lstrip t +:+ u.
Proof.
  induction t as [|a t IH]; [discriminate|].
  rewrite app_cons. simpl.
  destruct (py_isspace a); [exact IH|]. intros _. now rewrite app_cons.
Qed.

Lemma lstrip_app_blank t u :
  all_chars py_isspace t = true -> lstrip (t +:+ u) = lstrip u.
Proof.
  induction t as [|a t IH]; [reflexivity|].
  rewrite app_cons. simpl. intros H. apply andb_true_iff in H as [Ha Ht].
  rewrite Ha. auto.
Qed.

(** A whitespace character at the end of a string does not change what
    [strip] returns. *)
Lemma strip_app_space t c :
  py_isspace c = true -> strip (t +:+ String c EmptyString) = strip t.
Proof.
  intros Hc. unfold strip.
  destruct (all_chars py_isspace t) eqn:Ht.
  - rewrite (lstrip_app_blank _ _ Ht), (lstrip_all_space _ Ht).
    simpl. now rewrite Hc.
  - rewrite (lstrip_app _ _ Ht). now apply rstrip_app_space.
Qed.

Lemma strip_line line :
  line_shaped line ->
  has_char LF (strip line) = false.
Proof.
  intros (body & Hbody & [->| ->]).
  - now apply has_char_strip.
  - rewrite strip_app_space by reflexivity. now apply has_char_strip.
Qed.

Lemma questions_of_well_formed content :
  Forall well_formed_question (questions_of content).
Proof.
  unfold questions_of.
  pose proof (file_lines_shape content) as Hshape.
  induction Hshape as [|line lines Hline _ IH]; [constructor|].
  cbn [List.filter].
  destruct (String.eqb (strip line) EmptyString) eqn:Hs; cbn [negb map];
    [exact IH|].
  constructor; [|exact IH]. split; [|split].
  - now apply String.eqb_neq.
  - apply HandlerEdge.strip_trimmed.
  - now apply strip_line.
Qed.

Lemma questions_of_length content :
  length (questions_of content)
  = length (List.filter (fun line => negb (all_chars py_isspace line))
              (file_lines content)).
Proof.
  unfold questions_of. rewrite length_map. f_equal.
  apply List.filter_ext. intros line. f_equal.
  destruct (all_chars py_isspace line) eqn:Hb.
  - apply String.eqb_eq. now apply strip_blank.
  - apply String.eqb_neq. intros Hs. apply strip_empty_iff in Hs. congruence.
Qed.

Lemma load_text_questions_run H text_file :
  load_text_questions H text_file =
    match read_text H text_file with
    | Return content => ([ReadText text_file], Return (questions_of content))
    | Raise e =>
        ([ReadText text_file;
          Say (if String.eqb (exn_type e) "FileNotFoundError"
               then "Warning: Text questions file '" +:+ text_file
                    +:+ "' not found"
               else "Error loading text questions from " +:+ text_file
                    +:+ ": " +:+ exn_msg e)],
         Return [])
    end.
Proof.
  unfold load_text_questions, say.
  destruct (read_text H text_file) as [content|e]; [reflexivity|].
  run_monad. now destruct (String.eqb (exn_type e) "FileNotFoundError").
Qed.

(** X25: [load_text_questions] never raises.  If the file cannot be read
    it returns no question; otherwise it returns one question for each
    line that is not blank, in order, and every question it returns is
    non-empty, has no whitespace at either end and contains no line
    feed. *)
Theorem X25_loaded_questions_are_clean H text_file :
  exists questions,
    result (load_text_questions H text_file) = Return questions
    /\ Forall well_formed_question questions
    /\ ((exists e, read_text H text_file = Raise e) -> questions = [])
    /\ (forall content,
          read_text H text_file = Return content ->
          length questions
          = length (List.filter (fun line => negb (all_chars py_isspace line))
                      (file_lines content))).
Proof.
  rewrite load_text_questions_run.
  destruct (read_text H text_file) as [content|e].
  - exists (questions_of content). split; [reflexivity|].
    split; [apply questions_of_well_formed|].
    split; [intros (e & He); discriminate|].
    intros content' [= <-]. apply questions_of_length.
  - exists []. split; [reflexivity|]. split; [constructor|].
    split; [reflexivity|]. intros content Hc. discriminate.
Qed.

(** ** [main] *)

Ltac run_main := unfold say; run_monad.

(** X26: with the placeholder endpoint id or the placeholder API key,
    [main] exits with status 1 before it lists the image folder or reads
    the question file. *)
Theorem X26_placeholder_credentials_exit E H args :
  endpoint_id args = "your-endpoint-id-here"
  \/ api_key args = "your-runpod-api-key-here" ->
  result (main E H args) = Raise (SystemExit 1)
  /\ Forall (fun ev => is_read ev = false /\ is_listing ev = false)
       (events (main E H args)).
Proof.
  intros Hcred. unfold main.
  assert (Hc : String.eqb (endpoint_id args) "your-endpoint-id-here"
               || String.eqb (api_key args) "your-runpod-api-key-here" = true).
  { apply orb_true_iff. destruct Hcred as [->| ->]; [left|right]; reflexivity. }
  rewrite Hc. run_main. split; [reflexivity|]. repeat constructor.
Qed.

Lemma X26_placeholder_credentials_exit_witness :
  result (main Examples.desk ward placeholder_args) = Raise (SystemExit 1).
Proof.
  exact (proj1 (X26_placeholder_credentials_exit Examples.desk ward
                  placeholder_args (or_introl eq_refl))).
Defined.

Lemma all_load (P : host_ev -> Prop) H text_file :
  P (ReadText text_file) -> (forall msg, P (Say msg)) ->
  all_events P (load_text_questions H text_file).
Proof.
  intros Hr Hs. rewrite load_text_questions_run.
  destruct (read_text H text_file); repeat constructor; auto.
Qed.

Lemma all_discover_images (P : host_ev -> Prop) E H args :
  (mode_in args ["image"; "both"] = true -> P (ListDir (image_folder args))) ->
  (forall msg, P (Say msg)) ->
  all_events P (discover_images E H args).
Proof.
  intros Hl Hs. unfold discover_images, say.
  destruct (mode_in args ["image"; "both"]); [|apply all_ret].
  apply all_bind; [apply all_call; auto|]. intros names.
  destruct (map _ _).
  - apply all_bind; [now apply all_emit|]. intros _.
    apply all_bind; [|intros; apply all_ret].
    destruct (String.eqb _ _); [apply all_raise|apply all_ret].
  - apply all_bind; [now apply all_emit|]. intros _. apply all_ret.
Qed.

Lemma all_discover_questions (P : host_ev -> Prop) H args :
  (mode_in args ["text"; "both"] = true -> P (ReadText (text_file args))) ->
  (forall msg, P (Say msg)) ->
  all_events P (discover_questions H args).
Proof.
  intros Hr Hs. unfold discover_questions, say.
  destruct (mode_in args ["text"; "both"]); [|apply all_ret].
  apply all_bind; [apply all_load; auto|]. intros questions.
  destruct questions.
  - apply all_bind; [now apply all_emit|]. intros _.
    apply all_bind; [|intros; apply all_ret].
    destruct (String.eqb _ _); [apply all_raise|apply all_ret].
  - apply all_bind; [now apply all_emit|]. intros _. apply all_ret.
Qed.

Lemma all_main (P : host_ev -> Prop) E H args :
  (mode_in args ["image"; "both"] = true -> P (ListDir (image_folder args))) ->
  (mode_in args ["text"; "both"] = true -> P (ReadText (text_file args))) ->
  (forall msg, P (Say msg)) ->
  all_events P (main E H args).
Proof.
  intros Hl Hr Hs. unfold main, say.
  repeat (apply all_bind; [now apply all_emit|]; intros _).
  destruct (_ || _).
  - repeat (apply all_bind; [now apply all_emit|]; intros _). apply all_raise.
  - apply all_bind; [now apply all_discover_images|]. intros files.
    apply all_bind; [now apply all_discover_questions|]. intros questions.
    destruct (_ <=? _)%Z; [apply all_raise|apply all_ret].
Qed.

(** X27: [main] looks only where the mode tells it to: in mode [image] it
    never reads the question file, in mode [text] it never lists the image
    folder, and the only folder it ever lists and the only file it ever
    reads are the configured ones. *)
Theorem X27_main_looks_only_where_the_mode_says E H args :
  (mode args = "image" ->
   Forall (fun ev => is_read ev = false) (events (main E H args)))
  /\ (mode args = "text" ->
      Forall (fun ev => is_listing ev = false) (events (main E H args)))
  /\ Forall (fun ev => match ev with
                       | ListDir folder => folder = image_folder args
                       | ReadText file => file = text_file args
                       | Say _ => True
                       end)
       (events (main E H args)).
Proof.
  split; [|split].
  - intros Hm. apply all_main; try reflexivity.
    unfold mode_in. rewrite Hm. discriminate.
  - intros Hm. apply all_main; try reflexivity.
    unfold mode_in. rewrite Hm. discriminate.
  - apply all_main; auto.
Qed.

Lemma X27_main_looks_only_where_the_mode_says_witness :
  Forall (fun ev => is_listing ev = false)
    (events (main Examples.desk ward (args_with "text" 5 "questions.txt"))).
Proof.
  exact (proj1 (proj2 (X27_main_looks_only_where_the_mode_says Examples.desk
                         ward (args_with "text" 5 "questions.txt")))
           eq_refl).
Defined.

Lemma credentials_pass args :
  valid_credentials args ->
  String.eqb (endpoint_id args) "your-endpoint-id-here"
  || String.eqb (api_key args) "your-runpod-api-key-here" = false.
Proof.
  intros [He Hk]. apply orb_false_iff. split; now apply String.eqb_neq.
Qed.

Lemma blank_content_no_questions content :
  all_chars py_isspace content = true -> questions_of content = [].
Proof.
  intros Hblank. unfold questions_of.
  assert (Hlines : Forall (fun line => all_chars py_isspace line = true)
                     (file_lines content)).
  { induction content as [|c rest IH]; [constructor|].
    simpl in Hblank. apply andb_true_iff in Hblank as [Hc Hrest].
    specialize (IH Hrest). cbn [file_lines].
    destruct (Ascii.eqb c LF); [constructor; [reflexivity|exact IH]|].
    destruct (file_lines rest) as [|line lines].
    - constructor; [simpl; now rewrite Hc|constructor].
    - inversion IH; subst. constructor; [simpl; now rewrite Hc|assumption]. }
  induction Hlines as [|line lines Hline _ IH]; [reflexivity|].
  cbn [List.filter]. rewrite (strip_blank _ Hline). exact IH.
Qed.

(** X28: with nothing to process, [main] exits with status 1 in the
    single modes (no file of a supported format in mode [image]; an
    unreadable or blank question file in mode [text]), but in mode [both]
    it goes on, even when it found neither an image nor a question. *)
Theorem X28_nothing_to_process E H args :
  valid_credentials args ->
  (mode args = "image" ->
   forall names,
     listdir H (image_folder args) = Return names ->
     List.filter (is_supported E) names = [] ->
     result (main E H args) = Raise (SystemExit 1))
  /\ (mode args = "text" ->
      (forall content,
          read_text H (text_file args) = Return content ->
          all_chars py_isspace content = true) ->
      result (main E H args) = Raise (SystemExit 1))
  /\ (mode args = "both" ->
      forall names,
        listdir H (image_folder args) = Return names ->
        (0 < concurrent args)%Z ->
        exists tasks, result (main E H args) = Return tasks).
Proof.
  intros Hcred. pose proof (credentials_pass args Hcred) as Hc.
  split; [|split].
  - intros Hm names Hl Hnone. unfold main, discover_images, mode_in.
    rewrite Hc, Hm. run_main. rewrite Hl. run_main. rewrite Hnone.
    reflexivity.
  - intros Hm Hblank. unfold main, discover_images, discover_questions, mode_in.
    rewrite Hc, Hm. run_main. rewrite load_text_questions_run.
    destruct (read_text H (text_file args)) as [content|e] eqn:Hr.
    + rewrite (blank_content_no_questions content (Hblank content eq_refl)).
      reflexivity.
    + reflexivity.
  - intros Hm names Hl Hpos. unfold main, discover_images, discover_questions,
      mode_in.
    rewrite Hc, Hm. run_main. rewrite Hl. run_main.
    apply Z.leb_gt in Hpos.
    rewrite load_text_questions_run.
    destruct (map _ (List.filter _ names)) as [|p files];
      destruct (read_text H (text_file args)) as [content|e];
      try destruct (questions_of content) as [|q qs];
      run_main; rewrite Hpos; eexists; reflexivity.
Qed.

Lemma X28_nothing_to_process_witness :
  result (main Examples.desk ward (args_with "text" 5 "missing.txt"))
  = Raise (SystemExit 1).
Proof.
  refine (proj1 (proj2 (X28_nothing_to_process Examples.desk ward
                          (args_with "text" 5 "missing.txt") _))
            eq_refl _).
  - split; discriminate.
  - intros content Hread. discriminate Hread.
Defined.

(** X29: with [--concurrent] zero or negative, [main] never hands a task
    to the executor: it ends in an exception, at the latest the
    [ValueError] with which the thread pool refuses the worker count. *)
Theorem X29_no_worker_no_task E H args :
  (concurrent args <= 0)%Z ->
  exists e, result (main E H args) = Raise e.
Proof.
  intros Hle. apply Z.leb_le in Hle. unfold main. run_main.
  destruct (_ || _); run_main; [eexists; reflexivity|].
  destruct (discover_images E H args) as [tr1 [files|e]]; run_main;
    [|eexists; reflexivity].
  destruct (discover_questions H args) as [tr2 [questions|e]]; run_main;
    [|eexists; reflexivity].
  rewrite Hle. eexists; reflexivity.
Qed.

Lemma X29_no_worker_no_task_witness :
  exists e,
    result (main Examples.desk ward (args_with "both" 0 "questions.txt"))
    = Raise e.
Proof.
  refine (X29_no_worker_no_task Examples.desk ward
            (args_with "both" 0 "questions.txt") _).
  simpl. lia.
Defined.

(** ** The tasks *)

(** What [main] found when the image discovery returned: the supported
    files of the listing, each joined to the folder. *)
Lemma discover_images_returns E H args tr files :
  discover_images E H args = (tr, Return files) ->
  exists l,
    image_tasks args files = map (ImageTask (sync args)) l
    /\ if mode_in args ["image"; "both"]
       then exists names,
              listdir H (image_folder args) = Return names
              /\ l = map (path_join H (image_folder args))
                      (List.filter (is_supported E) names)
       else l = [].
Proof.
  unfold discover_images, image_tasks, say.
  destruct (mode_in args ["image"; "both"]) eqn:Hm.
  2:{ intros [= <- <-]. now exists []. }
  destruct (listdir H (image_folder args)) as [names|e]; run_monad;
    [|discriminate].
  destruct (map _ (List.filter _ names)) as [|p l] eqn:Hl.
  - destruct (String.eqb (mode args) "image"); run_monad; [discriminate|].
    intros [= <- <-]. exists []. split; [reflexivity|].
    exists names. now rewrite Hl.
  - run_monad. intros [= <- <-]. exists (p :: l). split; [reflexivity|].
    exists names. now rewrite Hl.
Qed.

(** What [main] found when the question discovery returned: the questions
    of the file, none when it could not be read. *)
Lemma discover_questions_returns H args tr questions :
  discover_questions H args = (tr, Return questions) ->
  exists l,
    text_tasks args questions
    = imap (fun i question => TextTask (sync args) question i) l
    /\ l = if mode_in args ["text"; "both"]
           then match read_text H (text_file args) with
                | Return content => questions_of content
                | Raise _ => []
                end
           else [].
Proof.
  unfold discover_questions, text_tasks, say.
  destruct (mode_in args ["text"; "both"]) eqn:Hm.
  2:{ intros [= <- <-]. now exists []. }
  rewrite load_text_questions_run.
  destruct (read_text H (text_file args)) as [content|e]; run_monad.
  - destruct (questions_of content) as [|q qs] eqn:Hq.
    + destruct (String.eqb (mode args) "text"); run_monad; [discriminate|].
      intros [= <- <-]. now exists [].
    + run_monad. intros [= <- <-]. now exists (q :: qs).
  - destruct (String.eqb (mode args) "text"); run_monad; [discriminate|].
    intros [= <- <-]. now exists [].
Qed.

Lemma map_fmap {A B} (f : A -> B) (xs : list A) : map f xs = f <$> xs.
Proof.
  induction xs as [|x xs IH]; [reflexivity|].
  change (f x :: map f xs = f x :: (f <$> xs)). now rewrite IH.
Qed.

Lemma text_task_files E sync l :
  map (task_file E) (imap (fun i question => TextTask sync question i) l)
  = map answer_path (seq 0 (length l)).
Proof.
  rewrite (map_fmap (task_file E)), (map_fmap answer_path), fmap_imap.
  rewrite <- (imap_seq_0 l answer_path). apply imap_ext.
  intros i question _. reflexivity.
Qed.

(** X30: when [main] gets as far as the executor, the tasks it submits
    are, in this order, one image task for each file of the folder's
    listing whose lower-cased extension is in the allow-list (its path
    joined to the folder, in listing order), then one text task for each
    question of the question file (its non-blank lines, stripped),
    numbered from 0 in file order; a mode that leaves images or questions
    out, or a question file that cannot be read, contributes no task.
    All tasks use the function chosen by [--sync]; the questions are
    clean; no two text tasks write the same answer file; and the worker
    count is positive. *)
Theorem X30_submitted_tasks E H args tasks :
  result (main E H args) = Return tasks ->
  exists files questions,
    tasks = map (ImageTask (sync args)) files
            ++ imap (fun i question => TextTask (sync args) question i)
                 questions
    /\ (if str_in (mode args) ["image"; "both"]
        then exists names,
               listdir H (image_folder args) = Return names
               /\ files
                  = map (path_join H (image_folder args))
                      (List.filter
                         (fun f =>
                            str_in (snd (splitext (path_seps E) (lower f)))
                              [".jpg"; ".jpeg"; ".png"; ".bmp"; ".webp"])
                         names)
        else files = [])
    /\ questions
       = (if str_in (mode args) ["text"; "both"]
          then match read_text H (text_file args) with
               | Return content =>
                   map strip
                     (List.filter
                        (fun line => negb (String.eqb (strip line) EmptyString))
                        (file_lines content))
               | Raise _ => []
               end
          else [])
    /\ Forall well_formed_question questions
    /\ NoDup (map (task_file E)
                (imap (fun i question => TextTask (sync args) question i)
                   questions))
    /\ (0 < concurrent args)%Z.
Proof.
  unfold main. run_main.
  destruct (_ || _); run_main; [discriminate|].
  destruct (discover_images E H args) as [tr1 [files|e]] eqn:Hd1; run_main;
    [|discriminate].
  destruct (discover_questions H args) as [tr2 [questions|e]] eqn:Hd2;
    run_main; [|discriminate].
  destruct (concurrent args <=? 0)%Z eqn:Hw; [discriminate|].
  cbn [result snd]. intros [= <-].
  destruct (discover_images_returns E H args _ _ Hd1) as (l1 & -> & Hl1).
  destruct (discover_questions_returns H args _ _ Hd2) as (l2 & -> & Hl2).
  exists l1, l2. split; [reflexivity|]. split; [exact Hl1|].
  split; [exact Hl2|]. split; [|split; [|now apply Z.leb_gt]].
  - rewrite Hl2. destruct (mode_in args ["text"; "both"]); [|constructor].
    destruct (read_text H (text_file args)) as [content|e]; [|constructor].
    apply questions_of_well_formed.
  - rewrite text_task_files.
    rewrite map_fmap. apply NoDup_fmap_2; [|apply NoDup_seq].
    intros i j. apply ClientEdge.answer_path_inj.
Qed.

Lemma X30_submitted_tasks_witness :
  exists files questions,
    [ImageTask false "xray/chest.JPG"; ImageTask false "xray/hand.png";
     TextTask false "What is flu?" 0; TextTask false "Is it contagious?" 1]
    = map (ImageTask false) files
      ++ imap (fun i question => TextTask false question i) questions
    /\ (exists names,
          Return ["chest.JPG"; "notes.txt"; "hand.png"] = Return names
          /\ files
             = map (fun f => "xray" +:+ "/" +:+ f)
                 (List.filter
                    (fun f =>
                       str_in (snd (splitext posix_seps (lower f)))
                         [".jpg"; ".jpeg"; ".png"; ".bmp"; ".webp"])
                    names))
    /\ questions = ["What is flu?"; "Is it contagious?"]
    /\ Forall well_formed_question questions
    /\ NoDup (map (task_file Examples.desk)
                (imap (fun i question => TextTask false question i)
                   questions))
    /\ (0 < 5)%Z.
Proof.
  exact (X30_submitted_tasks Examples.desk ward
           (args_with "both" 5 "questions.txt")
           [ImageTask false "xray/chest.JPG"; ImageTask false "xray/hand.png";
            TextTask false "What is flu?" 0;
            TextTask false "Is it contagious?" 1]
           eq_refl).
Defined.

End BatchSpec.

